(** * The financial aggregation engine of the transport accounting server

    A shallow embedding of the three report handlers of [server/routes.ts]
    (dashboard statistics, profit and loss, cash-flow forecast), of the storage
    queries of [server/storage.ts] they read from and of the rows of
    [shared/schema.ts], followed by the properties the specification states
    about them; then of the CSV export handlers of [server/routes.ts] and of
    the reader of the import dialog, [parseCSV].

    Conventions of the embedding.
    - A JavaScript number that holds money is a binary64 [float]: sums, the
      17% CPF product and the pro-rating quotient round as they do in the
      server.  A number that holds a calendar field or a count of months is a
      [Z]: the server's arithmetic on them is exact.
    - A [decimal(12,2)] column is the integer count of its hundredths; the
      string the driver hands to the server is parsed by [JS.parseFloat].
    - A [date] column is a calendar date; the server sees its ISO text.  The
      [from] and [to] of a P&L request are ISO dates too, and are carried as
      the dates they spell; [parseInt] of the [period] of a forecast request
      is carried as its outcome, an integer or [NaN].
    - The server's time zone is a fixed offset [tz] of minutes east of UTC
      (no daylight saving, as in UTC and in Singapore), [-1440 < tz < 1440]. *)

From Stdlib Require Import ZArith List String Ascii Bool Lia.
From Stdlib Require Import PrimFloat Uint63.
From Stdlib Require Import Permutation Sorted.
From Stdlib Require OrderedTypeEx.
Import ListNotations.

Local Open Scope Z_scope.

(** ** Calendar dates, as a [date] column stores them *)

Module Civil.

Record t : Type := mk { year : Z; month : Z; day : Z }.

Definition isLeap (y : Z) : bool :=
  ((y mod 4 =? 0) && negb (y mod 100 =? 0)) || (y mod 400 =? 0).

Definition daysInMonth (y m : Z) : Z :=
  if m =? 2 then (if isLeap y then 29 else 28)
  else if (m =? 4) || (m =? 6) || (m =? 9) || (m =? 11) then 30
  else 31.

(** A date of the calendar, with a year of four digits at most. *)
Definition valid (d : t) : Prop :=
  0 <= year d <= 9999 /\ 1 <= month d <= 12 /\ 1 <= day d <= daysInMonth (year d) (month d).

(** The day before and the day after. *)
Definition prevDay (d : t) : t :=
  if 1 <? day d then mk (year d) (month d) (day d - 1)
  else if 1 <? month d then mk (year d) (month d - 1) (daysInMonth (year d) (month d - 1))
  else mk (year d - 1) 12 31.

Definition nextDay (d : t) : t :=
  if day d <? daysInMonth (year d) (month d) then mk (year d) (month d) (day d + 1)
  else if month d <? 12 then mk (year d) (month d + 1) 1
  else mk (year d + 1) 1 1.

(** Order of dates: what SQL's [>=] and [<=] on a [date] column decide. *)
Definition compare (a b : t) : comparison :=
  match year a ?= year b with
  | Eq => match month a ?= month b with
          | Eq => day a ?= day b
          | c => c
          end
  | c => c
  end.

Definition leb (a b : t) : bool :=
  match compare a b with Gt => false | _ => true end.

End Civil.

(** ** The JavaScript values the handlers compute with *)

Module JS.

(** An integer-valued number (a count of months) as a binary64 value; exact
    below 2^53. *)
Definition num (z : Z) : float :=
  if z <? 0 then PrimFloat.opp (PrimFloat.of_uint63 (Uint63.of_Z (- z)))
  else PrimFloat.of_uint63 (Uint63.of_Z z).

(** [parseFloat] on the text of a [decimal(12,2)] value of [cents] hundredths:
    the binary64 value nearest to [cents / 100], which is what the correctly
    rounded quotient of the two exact integers is. *)
Definition parseFloat (cents : Z) : float := PrimFloat.div (num cents) (num 100).

(** The literal [0.17]: the binary64 value nearest to 17/100. *)
Definition lit_0_17 : float := 0x1.5c28f5c28f5c3p-3%float.

(** [String(n)] for a natural number, by repeated division. *)
Definition digit (n : Z) : ascii := ascii_of_nat (48 + Z.to_nat n).

Fixpoint decimalDigits (fuel : nat) (n : Z) (acc : string) : string :=
  match fuel with
  | O => acc
  | S fuel' =>
      let acc' := String (digit (n mod 10)) acc in
      if n / 10 =? 0 then acc' else decimalDigits fuel' (n / 10) acc'
  end.

Definition toString (n : Z) : string := decimalDigits 20 n EmptyString.

(** [s.padStart(2, "0")]. *)
Definition padStart2 (s : string) : string :=
  match s with
  | String _ EmptyString => String "0" s
  | EmptyString => "00"
  | _ => s
  end.

(** [s.padStart(4, "0")] (the year of a [date] column is printed on four
    digits at least). *)
Definition padStart4 (s : string) : string :=
  match String.length s with
  | 0%nat => "0000" ++ s
  | 1%nat => "000" ++ s
  | 2%nat => "00" ++ s
  | 3%nat => "0" ++ s
  | _ => s
  end.

(** The month key [`${y}-${String(m).padStart(2, "0")}`] of a year and a
    month number 1..12. *)
Definition monthKey (y m : Z) : string :=
  toString y ++ "-" ++ padStart2 (toString m).

(** The ISO text [YYYY-MM-DD] of a [date] column. *)
Definition isoDate (d : Civil.t) : string :=
  padStart4 (toString (Civil.year d)) ++ "-" ++ padStart2 (toString (Civil.month d))
  ++ "-" ++ padStart2 (toString (Civil.day d)).

(** [s.startsWith(p)]. *)
Definition startsWith (s p : string) : bool := String.prefix p s.

(** A [Date] object, kept as the reading of the server's wall clock at that
    instant: year, month index 0..11, day of the month, minutes since local
    midnight.  With a fixed offset the reading grows with the time value, so
    [<=] and [>=] on two Dates are the lexicographic order of the readings. *)
Module Date.

Record t : Type := mk { fullYear : Z; monthIndex : Z; dayOfMonth : Z; minuteOfDay : Z }.

Definition getFullYear (d : t) : Z := fullYear d.
Definition getMonth (d : t) : Z := monthIndex d.

(** [new Date(year, monthIndex, 1)]: local midnight of the first day of a
    month; a month index outside 0..11 carries into the year. *)
Definition ofLocalMonth (y m : Z) : t := mk (y + m / 12) (m mod 12) 1 0.

(** [new Date(year, monthIndex, day)] for a month index and a day in range. *)
Definition ofLocal (y m d : Z) : t := mk y m d 0.

(** [new Date("YYYY-MM-DD")]: midnight UTC of that date, which the local
    clock reads [tz] minutes after its own midnight of the same day, or, west
    of Greenwich, [-tz] minutes before it on the day before. *)
Definition parse (tz : Z) (s : Civil.t) : t :=
  if 0 <=? tz then mk (Civil.year s) (Civil.month s - 1) (Civil.day s) tz
  else let p := Civil.prevDay s in
       mk (Civil.year p) (Civil.month p - 1) (Civil.day p) (1440 + tz).

Definition compare (a b : t) : comparison :=
  match fullYear a ?= fullYear b with
  | Eq => match monthIndex a ?= monthIndex b with
          | Eq => match dayOfMonth a ?= dayOfMonth b with
                  | Eq => minuteOfDay a ?= minuteOfDay b
                  | c => c
                  end
          | c => c
          end
  | c => c
  end.

(** [a <= b]; [a >= b] is [leb b a]. *)
Definition leb (a b : t) : bool :=
  match compare a b with Gt => false | _ => true end.

(** [d.toISOString().split("T")[0]]: the UTC calendar date of the instant. *)
Definition toISODate (tz : Z) (d : t) : Civil.t :=
  let c := Civil.mk (fullYear d) (monthIndex d + 1) (dayOfMonth d) in
  let m := minuteOfDay d - tz in
  if m <? 0 then Civil.prevDay c
  else if 1440 <=? m then Civil.nextDay c
  else c.

End Date.

End JS.

(** ** The rows of [shared/schema.ts]

    Each table keeps the columns the reports read, under the names of the
    schema.  A nullable column is an [option]; a [text] column that the schema
    comments as an enumeration ([status], [routeType], [workerType],
    [incomeType]) stays a [string], as the server compares it. *)

Module Customer.
Record t : Type := mk { id : Z; name : string; status : string }.
End Customer.

Module Route.
Record t : Type := mk {
  id : Z;
  name : string;
  customerId : option Z;
  monthlyRate : Z;
  routeType : string;
  subcontractorCost : option Z;
  vehicleId : option Z;
  status : string }.
End Route.

Module IncomeRecord.
Record t : Type := mk {
  id : Z;
  customerId : option Z;
  routeId : option Z;
  amount : Z;
  billingPeriod : string;
  incomeType : string;
  paymentStatus : string }.
End IncomeRecord.

Module ExpenseCategory.
Record t : Type := mk { id : Z; name : string; parentId : option Z }.
End ExpenseCategory.

Module Expense.
Record t : Type := mk {
  id : Z;
  categoryId : option Z;
  vehicleId : option Z;
  amount : Z;
  expenseDate : Civil.t;
  isRecurring : bool;
  recurringFrequency : option string }.
End Expense.

Module Vehicle.
Record t : Type := mk { id : Z; registrationNumber : string; status : string }.
End Vehicle.

Module VehicleInstallment.
Record t : Type := mk {
  id : Z; vehicleId : Z; monthlyAmount : Z; startDate : Civil.t; endDate : Civil.t }.
End VehicleInstallment.

Module VehicleInsurance.
Record t : Type := mk {
  id : Z; vehicleId : Z; premium : Z; startDate : Civil.t; endDate : Civil.t }.
End VehicleInsurance.

Module VehicleParking.
Record t : Type := mk {
  id : Z; vehicleId : Z; monthlyCost : Z; startDate : Civil.t; endDate : option Civil.t }.
End VehicleParking.

Module Employee.
Record t : Type := mk {
  id : Z;
  name : string;
  workerType : string;
  salary : Z;
  foreignWorkerLevy : option Z;
  status : string }.
End Employee.

(** ** The storage of [server/storage.ts] *)

(** The state of the database: the rows of each table, in heap order. *)
Record Database : Type := mkDatabase {
  customers : list Customer.t;
  routes : list Route.t;
  incomeRecords : list IncomeRecord.t;
  expenseCategories : list ExpenseCategory.t;
  expenses : list Expense.t;
  vehicles : list Vehicle.t;
  vehicleInstallments : list VehicleInstallment.t;
  vehicleInsurance : list VehicleInsurance.t;
  vehicleParking : list VehicleParking.t;
  employees : list Employee.t }.

(** The read operations of [IStorage] the reports call.  A read either
    resolves to rows or rejects ([None]). *)
Record IStorage : Type := mkStorage {
  getCustomers : option (list Customer.t);
  getRoutes : option (list Route.t);
  getIncomeRecords : option (list IncomeRecord.t);
  getExpenseCategories : option (list ExpenseCategory.t);
  getExpenses : option (list Expense.t);
  getVehicles : option (list Vehicle.t);
  getEmployees : option (list Employee.t);
  getIncomeByPeriod : Civil.t -> Civil.t -> option (list IncomeRecord.t);
  getExpensesByPeriod : Civil.t -> Civil.t -> option (list Expense.t);
  getAllVehicleInstallments : option (list VehicleInstallment.t);
  getAllVehicleInsurance : option (list VehicleInsurance.t);
  getAllVehicleParking : option (list VehicleParking.t) }.

Module Sql.

(** [ORDER BY]: the rows sorted by the order [le].  PostgreSQL fixes no order
    among rows of equal keys; they come here in the order of the list, which
    stands for the order the engine yields the rows of the table in and is
    any list.  What is stated of two reads of one table with and without a
    row is stated on the rows read, not on the table. *)
Fixpoint insert {A : Type} (le : A -> A -> bool) (x : A) (l : list A) : list A :=
  match l with
  | [] => [x]
  | y :: l' => if le x y then x :: l else y :: insert le x l'
  end.

Definition orderBy {A : Type} (le : A -> A -> bool) (rows : list A) : list A :=
  fold_right (insert le) [] rows.

(** Ascending and descending order on a key. *)
Definition asc {A K : Type} (leb : K -> K -> bool) (key : A -> K) (x y : A) : bool :=
  leb (key x) (key y).
Definition desc {A K : Type} (leb : K -> K -> bool) (key : A -> K) (x y : A) : bool :=
  leb (key y) (key x).

(** [gte(column, v)] and [lte(column, v)] on a [text] column (bytewise
    collation) and on a [date] column. *)
Definition gteText (column v : string) : bool := String.leb v column.
Definition lteText (column v : string) : bool := String.leb column v.
Definition gteDate (column v : Civil.t) : bool := Civil.leb v column.
Definition lteDate (column v : Civil.t) : bool := Civil.leb column v.

End Sql.

(** [from.substring(0, 7)] of the ISO text of a date. *)
Definition substring_0_7 (d : Civil.t) : string := String.substring 0 7 (JS.isoDate d).

(** [DatabaseStorage], over a database that is up: every read resolves.
    [from] and [to] are the dates of the request; PostgreSQL casts them to
    compare them with the [date] column of an expense, and the cast of a text
    that is no calendar date makes [getExpensesByPeriod] reject.  That
    rejection is not modelled: the period reads are those of two calendar
    dates. *)
Definition DatabaseStorage (db : Database) : IStorage := {|
  getCustomers := Some (Sql.orderBy (Sql.asc String.leb Customer.name) (customers db));
  getRoutes := Some (Sql.orderBy (Sql.asc String.leb Route.name) (routes db));
  getIncomeRecords :=
    Some (Sql.orderBy (Sql.desc String.leb IncomeRecord.billingPeriod) (incomeRecords db));
  getExpenseCategories :=
    Some (Sql.orderBy (Sql.asc String.leb ExpenseCategory.name) (expenseCategories db));
  getExpenses := Some (Sql.orderBy (Sql.desc Civil.leb Expense.expenseDate) (expenses db));
  getVehicles := Some (Sql.orderBy (Sql.asc String.leb Vehicle.registrationNumber) (vehicles db));
  getEmployees := Some (Sql.orderBy (Sql.asc String.leb Employee.name) (employees db));
  getIncomeByPeriod := fun from to =>
    Some (filter (fun r =>
            Sql.gteText (IncomeRecord.billingPeriod r) (substring_0_7 from)
            && Sql.lteText (IncomeRecord.billingPeriod r) (substring_0_7 to))
          (incomeRecords db));
  getExpensesByPeriod := fun from to =>
    Some (filter (fun e =>
            Sql.gteDate (Expense.expenseDate e) from
            && Sql.lteDate (Expense.expenseDate e) to)
          (expenses db));
  getAllVehicleInstallments := Some (vehicleInstallments db);
  getAllVehicleInsurance := Some (vehicleInsurance db);
  getAllVehicleParking := Some (vehicleParking db) |}.

(** ** What a handler answers, and what it runs in *)

(** [res.json(body)], or [res.status(500).json({ error })] from the [catch]
    block. *)
Inductive Response (A : Type) : Type :=
| Json (body : A)
| Status500 (error : string).
Arguments Json {A} body.
Arguments Status500 {A} error.

(** The server's zone offset and the reading of [new Date()]. *)
Record Env : Type := mkEnv { tz : Z; now : JS.Date.t }.

(** [await]: a rejected read leaves the [try] block. *)
Definition await {A B : Type} (read : option A) (k : A -> option B) : option B :=
  match read with
  | Some rows => k rows
  | None => None
  end.

Notation "'let*' x ':=' 'await' c 'in' k" := (await c (fun x => k))
  (at level 10, x name, c at level 10, k at level 200).

Definition respond {A : Type} (error : string) (body : option A) : Response A :=
  match body with
  | Some b => Json b
  | None => Status500 error
  end.

(** [reduce((sum, x) => sum + parseFloat(x.field), 0)]. *)
Definition sumOf {A : Type} (field : A -> Z) (rows : list A) : float :=
  fold_left (fun sum x => (sum + JS.parseFloat (field x))%float) rows 0%float.

(** [id === c.id] for a nullable foreign key. *)
Definition refersTo (fk : option Z) (id : Z) : bool :=
  match fk with
  | Some k => k =? id
  | None => false
  end.

(** [!e.categoryId]: [null], or the number 0. *)
Definition falsyId (fk : option Z) : bool :=
  match fk with
  | Some k => k =? 0
  | None => true
  end.

(** [s === "..."] on strings. *)
Definition strictEq (s lit : string) : bool := String.eqb s lit.

(** An entry of a breakdown: [{ name, amount }]. *)
Record NamedAmount : Type := mkNamedAmount { name : string; amount : float }.

(** The three constants every reducer over employees opens with. *)
Module Payroll.

(** [const salary = parseFloat(e.salary)]. *)
Definition salary (e : Employee.t) : float := JS.parseFloat (Employee.salary e).

(** [const levy = e.foreignWorkerLevy ? parseFloat(e.foreignWorkerLevy) : 0]. *)
Definition levy (e : Employee.t) : float :=
  match Employee.foreignWorkerLevy e with
  | Some l => JS.parseFloat l
  | None => 0%float
  end.

(** [const cpf = e.workerType === "local" ? salary * 0.17 : 0]. *)
Definition cpf (e : Employee.t) : float :=
  if strictEq (Employee.workerType e) "local"
  then (salary e * JS.lit_0_17)%float else 0%float.

End Payroll.

(** ** [GET /api/dashboard/stats] *)

Module Dashboard.

Record TrendRow : Type := mkTrendRow {
  month : JS.Date.t;  (* the date whose short month name is the label *)
  income : float;
  expenses : float }.

Record Stats : Type := mkStats {
  totalIncomeMonth : float;
  totalIncomeYTD : float;
  totalExpensesMonth : float;
  totalExpensesYTD : float;
  netProfitMonth : float;
  netProfitYTD : float;
  activeRoutes : Z;
  recentIncome : list IncomeRecord.t;
  recentExpenses : list Expense.t;
  monthlyTrend : list TrendRow }.

Definition monthlyEmployeeCosts (employees : list Employee.t) : float :=
  fold_left
    (fun sum e =>
       let salary := Payroll.salary e in
       let levy := Payroll.levy e in
       let cpf := Payroll.cpf e in
       (sum + salary + (if strictEq (Employee.workerType e) "local" then cpf else levy))%float)
    (filter (fun e => strictEq (Employee.status e) "active") employees)
    0%float.

Definition trendRow (now : JS.Date.t) (income : list IncomeRecord.t)
    (expenses : list Expense.t) (monthlyEmployeeCosts : float) (i : Z) : TrendRow :=
  let date := JS.Date.ofLocalMonth (JS.Date.getFullYear now) (JS.Date.getMonth now - i) in
  let month := JS.monthKey (JS.Date.getFullYear date) (JS.Date.getMonth date + 1) in
  let monthIncome :=
    sumOf IncomeRecord.amount
      (filter (fun inc => strictEq (IncomeRecord.billingPeriod inc) month) income) in
  let monthExpenses :=
    sumOf Expense.amount
      (filter (fun exp => JS.startsWith (JS.isoDate (Expense.expenseDate exp)) month) expenses) in
  mkTrendRow date monthIncome (monthExpenses + monthlyEmployeeCosts)%float.

Definition stats (env : Env) (storage : IStorage) : option Stats :=
  let now := now env in
  let currentMonth := JS.monthKey (JS.Date.getFullYear now) (JS.Date.getMonth now + 1) in
  let yearStart := (JS.toString (JS.Date.getFullYear now) ++ "-01")%string in
  let* income := await getIncomeRecords storage in
  let* expenses := await getExpenses storage in
  let* routes := await getRoutes storage in
  let* employees := await getEmployees storage in
  let monthlyIncome :=
    sumOf IncomeRecord.amount
      (filter (fun i => strictEq (IncomeRecord.billingPeriod i) currentMonth) income) in
  let monthlyExpenses :=
    sumOf Expense.amount
      (filter (fun e => JS.startsWith (JS.isoDate (Expense.expenseDate e)) currentMonth)
         expenses) in
  let ytdIncome :=
    sumOf IncomeRecord.amount
      (filter (fun i => String.leb yearStart (IncomeRecord.billingPeriod i)
                        && String.leb (IncomeRecord.billingPeriod i) currentMonth) income) in
  let ytdExpenses :=
    sumOf Expense.amount
      (filter (fun e => String.leb (JS.toString (JS.Date.getFullYear now) ++ "-01-01")%string
                          (JS.isoDate (Expense.expenseDate e))) expenses) in
  let activeRoutes :=
    Z.of_nat (List.length (filter (fun r => strictEq (Route.status r) "active") routes)) in
  let monthlyEmployeeCosts := monthlyEmployeeCosts employees in
  let recentIncome := firstn 5 income in
  let recentExpenses := firstn 5 expenses in
  let monthlyTrend :=
    map (trendRow now income expenses monthlyEmployeeCosts) [5; 4; 3; 2; 1; 0] in
  Some {|
    totalIncomeMonth := monthlyIncome;
    totalIncomeYTD := ytdIncome;
    totalExpensesMonth := (monthlyExpenses + monthlyEmployeeCosts)%float;
    totalExpensesYTD := ytdExpenses;
    netProfitMonth := (monthlyIncome - monthlyExpenses - monthlyEmployeeCosts)%float;
    netProfitYTD := (ytdIncome - ytdExpenses)%float;
    activeRoutes := activeRoutes;
    recentIncome := recentIncome;
    recentExpenses := recentExpenses;
    monthlyTrend := monthlyTrend |}.

Definition handler (env : Env) (storage : IStorage) : Response Stats :=
  respond "Failed to fetch dashboard stats" (stats env storage).

End Dashboard.

(** ** [GET /api/reports/pnl] *)

Module Pnl.

Module Period.
Record t : Type := mk { from : Civil.t; to : Civil.t }.
End Period.

Module Income.
Record t : Type := mk {
  routeIncome : float;
  adhocIncome : float;
  totalIncome : float;
  byCustomer : list NamedAmount }.
End Income.

Module Expenses.
Record t : Type := mk {
  byCategory : list NamedAmount;
  subcontractorCosts : float;
  employeeCosts : float;
  vehicleCosts : float;
  totalExpenses : float }.
End Expenses.

Module Report.
Record t : Type := mk {
  period : Period.t;
  income : Income.t;
  expenses : Expenses.t;
  netProfit : float }.
End Report.

(** Months in the period, for pro-rating. *)
Definition monthsInPeriod (tz : Z) (from to : Civil.t) : Z :=
  let fromDate := JS.Date.parse tz from in
  let toDate := JS.Date.parse tz to in
  (JS.Date.getFullYear toDate - JS.Date.getFullYear fromDate) * 12
  + (JS.Date.getMonth toDate - JS.Date.getMonth fromDate) + 1.

Definition routeIncome (income : list IncomeRecord.t) : float :=
  sumOf IncomeRecord.amount
    (filter (fun i => strictEq (IncomeRecord.incomeType i) "route") income).

Definition adhocIncome (income : list IncomeRecord.t) : float :=
  sumOf IncomeRecord.amount
    (filter (fun i => strictEq (IncomeRecord.incomeType i) "adhoc") income).

Definition incomeByCustomer (customers : list Customer.t) (income : list IncomeRecord.t)
    : list NamedAmount :=
  filter (fun c => PrimFloat.ltb 0 (amount c))
    (map (fun c =>
            mkNamedAmount (Customer.name c)
              (sumOf IncomeRecord.amount
                 (filter (fun i => refersTo (IncomeRecord.customerId i) (Customer.id c)) income)))
       customers).

Definition uncategorizedExpenses (expenses : list Expense.t) : float :=
  sumOf Expense.amount (filter (fun e => falsyId (Expense.categoryId e)) expenses).

Definition expensesByCategory (categories : list ExpenseCategory.t) (expenses : list Expense.t)
    : list NamedAmount :=
  let expensesByCategory :=
    filter (fun c => PrimFloat.ltb 0 (amount c))
      (map (fun cat =>
              mkNamedAmount (ExpenseCategory.name cat)
                (sumOf Expense.amount
                   (filter (fun e => refersTo (Expense.categoryId e) (ExpenseCategory.id cat))
                      expenses)))
         categories) in
  if PrimFloat.ltb 0 (uncategorizedExpenses expenses)
  then expensesByCategory ++ [mkNamedAmount "Uncategorized" (uncategorizedExpenses expenses)]
  else expensesByCategory.

(** Subcontractor costs (pro-rated).  [parseFloat(null)] is [NaN]; the filter
    keeps it out of reach. *)
Definition subcontractorCosts (routes : list Route.t) (monthsInPeriod : Z) : float :=
  fold_left
    (fun sum r =>
       (sum + match Route.subcontractorCost r with
              | Some c => JS.parseFloat c
              | None => PrimFloat.nan
              end * JS.num monthsInPeriod)%float)
    (filter (fun r => strictEq (Route.routeType r) "subcontracted"
                      && strictEq (Route.status r) "active"
                      && match Route.subcontractorCost r with Some _ => true | None => false end)
       routes)
    0%float.

(** Employee costs (pro-rated). *)
Definition employeeCosts (employees : list Employee.t) (monthsInPeriod : Z) : float :=
  fold_left
    (fun sum e =>
       let salary := Payroll.salary e in
       let levy := Payroll.levy e in
       let cpf := Payroll.cpf e in
       (sum + (salary + (if strictEq (Employee.workerType e) "local" then cpf else levy))
              * JS.num monthsInPeriod)%float)
    (filter (fun e => strictEq (Employee.status e) "active") employees)
    0%float.

(** Vehicle costs (placeholder). *)
Definition vehicleCosts : float := 0%float.

Definition report (env : Env) (storage : IStorage) (qfrom qto : option Civil.t)
    : option Report.t :=
  let from := match qfrom with
              | Some f => f
              | None => Civil.mk (JS.Date.getFullYear (now env)) 1 1
              end in
  let to := match qto with
            | Some t => t
            | None => JS.Date.toISODate (tz env) (now env)
            end in
  let* income := await getIncomeByPeriod storage from to in
  let* expenses := await getExpensesByPeriod storage from to in
  let* customers := await getCustomers storage in
  let* routes := await getRoutes storage in
  let* employees := await getEmployees storage in
  let* categories := await getExpenseCategories storage in
  let monthsInPeriod := monthsInPeriod (tz env) from to in
  let routeIncome := routeIncome income in
  let adhocIncome := adhocIncome income in
  let incomeByCustomer := incomeByCustomer customers income in
  let expensesByCategory := expensesByCategory categories expenses in
  let subcontractorCosts := subcontractorCosts routes monthsInPeriod in
  let employeeCosts := employeeCosts employees monthsInPeriod in
  let totalExpenses :=
    (sumOf Expense.amount expenses + subcontractorCosts + employeeCosts + vehicleCosts)%float in
  Some {|
    Report.period := Period.mk from to;
    Report.income := {|
      Income.routeIncome := routeIncome;
      Income.adhocIncome := adhocIncome;
      Income.totalIncome := (routeIncome + adhocIncome)%float;
      Income.byCustomer := incomeByCustomer |};
    Report.expenses := {|
      Expenses.byCategory := expensesByCategory;
      Expenses.subcontractorCosts := subcontractorCosts;
      Expenses.employeeCosts := employeeCosts;
      Expenses.vehicleCosts := vehicleCosts;
      Expenses.totalExpenses := totalExpenses |};
    Report.netProfit := (routeIncome + adhocIncome - totalExpenses)%float |}.

Definition handler (env : Env) (storage : IStorage) (qfrom qto : option Civil.t)
    : Response Report.t :=
  respond "Failed to generate P&L report" (report env storage qfrom qto).

End Pnl.

(** ** [GET /api/reports/cashflow] *)

Module CashFlow.

Module Details.
Record t : Type := mk {
  routeIncome : float;
  expectedPayments : float;
  vehicleInstallments : float;
  vehicleInsurance : float;
  vehicleParking : float;
  employeeCosts : float;
  subcontractorCosts : float;
  recurringExpenses : float }.
End Details.

Module MonthRow.
Record t : Type := mk {
  month : JS.Date.t;  (* the date whose "short month, 2-digit year" text is the label *)
  inflows : float;
  outflows : float;
  netFlow : float;
  cumulativeBalance : float;
  details : Details.t }.
End MonthRow.

Module Summary.
Record t : Type := mk {
  totalInflows : float;
  totalOutflows : float;
  netCashFlow : float;
  endingBalance : float }.
End Summary.

Module Forecast.
Record t : Type := mk { months : list MonthRow.t; summary : Summary.t }.
End Forecast.

(** [parseInt(req.query.period) || 6]; [None] is the [NaN] of a missing or
    non-numeric parameter. *)
Definition periodMonths (parsed : option Z) : Z :=
  match parsed with
  | Some n => if n =? 0 then 6 else n
  | None => 6
  end.

(** Inflows: route income from active routes. *)
Definition routeIncome (routes : list Route.t) : float :=
  sumOf Route.monthlyRate (filter (fun r => strictEq (Route.status r) "active") routes).

Definition vehicleInstallments (tz : Z) (date : JS.Date.t)
    (installments : list VehicleInstallment.t) : float :=
  sumOf VehicleInstallment.monthlyAmount
    (filter (fun inst =>
               let start := JS.Date.parse tz (VehicleInstallment.startDate inst) in
               let end_ := JS.Date.parse tz (VehicleInstallment.endDate inst) in
               JS.Date.leb start date && JS.Date.leb date end_)
       installments).

(** Insurance, the premium of the term pro-rated to a month. *)
Definition vehicleInsurance (tz : Z) (date : JS.Date.t)
    (insurance : list VehicleInsurance.t) : float :=
  fold_left
    (fun sum ins =>
       let start := JS.Date.parse tz (VehicleInsurance.startDate ins) in
       let end_ := JS.Date.parse tz (VehicleInsurance.endDate ins) in
       let months :=
         (JS.Date.getFullYear end_ - JS.Date.getFullYear start) * 12
         + (JS.Date.getMonth end_ - JS.Date.getMonth start) + 1 in
       (sum + JS.parseFloat (VehicleInsurance.premium ins) / JS.num months)%float)
    (filter (fun ins =>
               let start := JS.Date.parse tz (VehicleInsurance.startDate ins) in
               let end_ := JS.Date.parse tz (VehicleInsurance.endDate ins) in
               JS.Date.leb start date && JS.Date.leb date end_)
       insurance)
    0%float.

Definition vehicleParking (tz : Z) (date : JS.Date.t)
    (parking : list VehicleParking.t) : float :=
  sumOf VehicleParking.monthlyCost
    (filter (fun p =>
               let start := JS.Date.parse tz (VehicleParking.startDate p) in
               let end_ := match VehicleParking.endDate p with
                           | Some e => JS.Date.parse tz e
                           | None => JS.Date.ofLocal 9999 11 31
                           end in
               JS.Date.leb start date && JS.Date.leb date end_)
       parking).

Definition employeeCosts (employees : list Employee.t) : float :=
  fold_left
    (fun sum e =>
       let salary := Payroll.salary e in
       let levy := Payroll.levy e in
       let cpf := Payroll.cpf e in
       (sum + salary + (if strictEq (Employee.workerType e) "local" then cpf else levy))%float)
    (filter (fun e => strictEq (Employee.status e) "active") employees)
    0%float.

Definition subcontractorCosts (routes : list Route.t) : float :=
  fold_left
    (fun sum r =>
       (sum + match Route.subcontractorCost r with
              | Some c => JS.parseFloat c
              | None => PrimFloat.nan
              end)%float)
    (filter (fun r => strictEq (Route.routeType r) "subcontracted"
                      && strictEq (Route.status r) "active"
                      && match Route.subcontractorCost r with Some _ => true | None => false end)
       routes)
    0%float.

Definition recurringExpenses (expenses : list Expense.t) : float :=
  sumOf Expense.amount
    (filter (fun e => Expense.isRecurring e
                      && match Expense.recurringFrequency e with
                         | Some f => strictEq f "monthly"
                         | None => false
                         end)
       expenses).

(** What the loop reads, fetched once before it. *)
Record Inputs : Type := mkInputs {
  routes : list Route.t;
  employees : list Employee.t;
  installments : list VehicleInstallment.t;
  insurance : list VehicleInsurance.t;
  parking : list VehicleParking.t;
  expenses : list Expense.t }.

(** The state the loop updates: the [months] array and [cumulativeBalance]. *)
Definition LoopState : Type := (list MonthRow.t * float)%type.

(** The body of [for (let i = 0; i < periodMonths; i++)]. *)
Definition body (env : Env) (inp : Inputs) (st : LoopState) (i : Z) : LoopState :=
  let '(months, cumulativeBalance) := st in
  let date :=
    JS.Date.ofLocalMonth (JS.Date.getFullYear (now env)) (JS.Date.getMonth (now env) + i) in
  let routeIncome := routeIncome (routes inp) in
  let vehicleInstallments := vehicleInstallments (tz env) date (installments inp) in
  let vehicleInsurance := vehicleInsurance (tz env) date (insurance inp) in
  let vehicleParking := vehicleParking (tz env) date (parking inp) in
  let employeeCosts := employeeCosts (employees inp) in
  let subcontractorCosts := subcontractorCosts (routes inp) in
  let recurringExpenses := recurringExpenses (expenses inp) in
  let totalInflows := routeIncome in
  let totalOutflows :=
    (vehicleInstallments + vehicleInsurance + vehicleParking
     + employeeCosts + subcontractorCosts + recurringExpenses)%float in
  let netFlow := (totalInflows - totalOutflows)%float in
  let cumulativeBalance := (cumulativeBalance + netFlow)%float in
  (months ++ [ {|
     MonthRow.month := date;
     MonthRow.inflows := totalInflows;
     MonthRow.outflows := totalOutflows;
     MonthRow.netFlow := netFlow;
     MonthRow.cumulativeBalance := cumulativeBalance;
     MonthRow.details := {|
       Details.routeIncome := routeIncome;
       Details.expectedPayments := 0%float;
       Details.vehicleInstallments := vehicleInstallments;
       Details.vehicleInsurance := vehicleInsurance;
       Details.vehicleParking := vehicleParking;
       Details.employeeCosts := employeeCosts;
       Details.subcontractorCosts := subcontractorCosts;
       Details.recurringExpenses := recurringExpenses |} |} ],
   cumulativeBalance).

(** The values [i] takes: 0, 1, ..., [periodMonths - 1]; none when
    [periodMonths] is negative. *)
Definition indices (periodMonths : Z) : list Z :=
  map Z.of_nat (seq 0 (Z.to_nat periodMonths)).

Definition loop (env : Env) (inp : Inputs) (periodMonths : Z) : LoopState :=
  fold_left (body env inp) (indices periodMonths) ([], 0%float).

Definition forecast (env : Env) (storage : IStorage) (period : option Z)
    : option Forecast.t :=
  let periodMonths := periodMonths period in
  let* routes := await getRoutes storage in
  let* employees := await getEmployees storage in
  let* installments := await getAllVehicleInstallments storage in
  let* insurance := await getAllVehicleInsurance storage in
  let* parking := await getAllVehicleParking storage in
  let* expenses := await getExpenses storage in
  let '(months, cumulativeBalance) :=
    loop env (mkInputs routes employees installments insurance parking expenses)
      periodMonths in
  let totalInflows :=
    fold_left (fun sum m => (sum + MonthRow.inflows m)%float) months 0%float in
  let totalOutflows :=
    fold_left (fun sum m => (sum + MonthRow.outflows m)%float) months 0%float in
  Some {|
    Forecast.months := months;
    Forecast.summary := {|
      Summary.totalInflows := totalInflows;
      Summary.totalOutflows := totalOutflows;
      Summary.netCashFlow := (totalInflows - totalOutflows)%float;
      Summary.endingBalance := cumulativeBalance |} |}.

Definition handler (env : Env) (storage : IStorage) (period : option Z)
    : Response Forecast.t :=
  respond "Failed to generate cash flow forecast" (forecast env storage period).

End CashFlow.

(** ** CSV export ([server/routes.ts]) and import ([CsvImportDialog])

    Texts are strings of code units below 256. *)

Module Csv.

Definition quote : ascii := "034"%char.
Definition comma : ascii := ","%char.
Definition lineFeed : ascii := "010"%char.

(** The [replace] that doubles every double quote of the text. *)
Fixpoint escapeQuotes (s : string) : string :=
  match s with
  | EmptyString => EmptyString
  | String c s' =>
      if Ascii.eqb c quote then String quote (String quote (escapeQuotes s'))
      else String c (escapeQuotes s')
  end.

(** A row of a table as the export reads it: [row[h]], the text of a column,
    [None] for [null] or for a name that is no column. *)
Definition Row : Type := string -> option string.

(** A cell: the text of [row[h]], empty for [null], its double quotes doubled,
    between two double quotes. *)
Definition cell (row : Row) (h : string) : string :=
  String quote
    (escapeQuotes (match row h with Some v => v | None => EmptyString end)
     ++ String quote EmptyString).

(** The header line and one line for each row, the cells of a line joined by
    commas and the lines by line feeds. *)
Definition export (headers : list string) (data : list Row) : string :=
  String.concat (String lineFeed EmptyString)
    (String.concat "," headers
     :: map (fun row => String.concat "," (map (cell row) headers)) data).

(** White space as [trim] sees it. *)
Definition isWhiteSpace (c : ascii) : bool :=
  let n := nat_of_ascii c in
  ((9 <=? n) && (n <=? 13) || (n =? 32) || (n =? 160))%nat.

Fixpoint trimStart (s : string) : string :=
  match s with
  | EmptyString => EmptyString
  | String c s' => if isWhiteSpace c then trimStart s' else s
  end.

Fixpoint trimEnd (s : string) : string :=
  match s with
  | EmptyString => EmptyString
  | String c s' =>
      match trimEnd s' with
      | EmptyString => if isWhiteSpace c then EmptyString else String c EmptyString
      | t => String c t
      end
  end.

(** [s.trim()]. *)
Definition trim (s : string) : string := trimEnd (trimStart s).

(** [s.split(sep)] for a separator of one character. *)
Fixpoint split (sep : ascii) (s : string) : list string :=
  match s with
  | EmptyString => [EmptyString]
  | String c s' =>
      if Ascii.eqb c sep then EmptyString :: split sep s'
      else match split sep s' with
           | first :: rest => String c first :: rest
           | [] => [String c EmptyString]
           end
  end.

(** The [replace] that drops a double quote at the start of the text and one
    at its end. *)
Fixpoint dropLastQuote (s : string) : string :=
  match s with
  | EmptyString => EmptyString
  | String c s' =>
      match s' with
      | EmptyString => if Ascii.eqb c quote then EmptyString else s
      | String _ _ => String c (dropLastQuote s')
      end
  end.

Definition stripQuotes (s : string) : string :=
  match s with
  | EmptyString => EmptyString
  | String c s' => if Ascii.eqb c quote then dropLastQuote s' else dropLastQuote s
  end.

(** The [replace] that turns every two double quotes in a row into one. *)
Fixpoint unescapeQuotes (s : string) : string :=
  match s with
  | EmptyString => EmptyString
  | String c t =>
      match t with
      | EmptyString => s
      | String d s' =>
          if Ascii.eqb c quote && Ascii.eqb d quote
          then String quote (unescapeQuotes s')
          else String c (unescapeQuotes t)
      end
  end.

(** What is pushed to [values] for [current]: the two replacements, one
    after the other. *)
Definition finish (current : string) : string := unescapeQuotes (stripQuotes current).

(** The state of the scan of a line. *)
Record LineState : Type := mkLineState {
  values : list string;
  current : string;
  inQuotes : bool }.

(** The body of [for (const char of lines[i])]. *)
Definition step (st : LineState) (char : ascii) : LineState :=
  if Ascii.eqb char quote then
    mkLineState (values st) (current st) (negb (inQuotes st))
  else if Ascii.eqb char comma && negb (inQuotes st) then
    mkLineState (values st ++ [finish (current st)]) EmptyString (inQuotes st)
  else
    mkLineState (values st) (current st ++ String char EmptyString) (inQuotes st).

Fixpoint scan (st : LineState) (line : string) : LineState :=
  match line with
  | EmptyString => st
  | String char line' => scan (step st char) line'
  end.

Definition parseLine (line : string) : list string :=
  let st := scan (mkLineState [] EmptyString false) line in
  values st ++ [finish (current st)].

(** An object with string properties, as far as reading a property by its
    name can tell: the assignments made, the latest first. *)
Definition Obj : Type := list (string * string).

(** [row[key] = value]; the assignment of a string to [__proto__] does
    nothing. *)
Definition setProp (row : Obj) (key value : string) : Obj :=
  if String.eqb key "__proto__" then row else (key, value) :: row.

(** [row[key]] for a name that [Object.prototype] does not define; [None] is
    [undefined]. *)
Fixpoint getProp (row : Obj) (key : string) : option string :=
  match row with
  | [] => None
  | (k, v) :: row' => if String.eqb k key then Some v else getProp row' key
  end.

(** [headers.forEach((header, index) => { row[header] = values[index] ?? empty })]. *)
Definition rowObject (headers values : list string) : Obj :=
  fold_left
    (fun row '(index, header) => setProp row header (nth index values EmptyString))
    (combine (seq 0 (List.length headers)) headers)
    [].

(** [parseCSV(csvText)]. *)
Definition parseCSV (csvText : string) : list Obj :=
  let lines := split lineFeed (trim csvText) in
  if (List.length lines <? 2)%nat then []
  else
    let headers := map (fun h => trim (stripQuotes h)) (split comma (hd EmptyString lines)) in
    map (fun line => rowObject headers (parseLine line)) (tl lines).

(** [row.x || null] and [row.x || literal]: an empty or missing value gives
    way. *)
Definition orNull (v : option string) : option string :=
  match v with
  | Some EmptyString => None
  | _ => v
  end.

Definition orDefault (v : option string) (d : string) : string :=
  match v with
  | Some (String c s) => String c s
  | _ => d
  end.

(** The columns of [customers]. *)
Module CustomerRow.
Record t : Type := mk {
  id : Z;
  name : string;
  contactPerson : option string;
  email : option string;
  phone : option string;
  address : option string;
  status : string }.
End CustomerRow.

(** [row[h]] on a row of [customers]. *)
Definition customerRow (c : CustomerRow.t) : Row :=
  fun h =>
    if String.eqb h "name" then Some (CustomerRow.name c)
    else if String.eqb h "contactPerson" then CustomerRow.contactPerson c
    else if String.eqb h "email" then CustomerRow.email c
    else if String.eqb h "phone" then CustomerRow.phone c
    else if String.eqb h "address" then CustomerRow.address c
    else if String.eqb h "status" then Some (CustomerRow.status c)
    else if String.eqb h "id" then Some (JS.toString (CustomerRow.id c))
    else None.

Definition customerHeaders : list string :=
  ["name"; "contactPerson"; "email"; "phone"; "address"; "status"]%string.

(** The text [GET /api/customers/export] sends for the rows it read. *)
Definition exportCustomers (data : list CustomerRow.t) : string :=
  export customerHeaders (map customerRow data).

(** What [POST /api/customers/import] makes of a row of [data]. *)
Module NewCustomer.
Record t : Type := mk {
  name : option string;
  contactPerson : option string;
  email : option string;
  phone : option string;
  address : option string;
  status : string }.
End NewCustomer.

Definition newCustomer (row : Obj) : NewCustomer.t :=
  {| NewCustomer.name := getProp row "name";
     NewCustomer.contactPerson := orNull (getProp row "contactPerson");
     NewCustomer.email := orNull (getProp row "email");
     NewCustomer.phone := orNull (getProp row "phone");
     NewCustomer.address := orNull (getProp row "address");
     NewCustomer.status := orDefault (getProp row "status") "active" |}.

(** [parsed], the rows the handler hands to the storage. *)
Definition importCustomers (data : list Obj) : list NewCustomer.t := map newCustomer data.

(** The columns of [routes], decimals as the texts the driver returns. *)
Module RouteRow.
Record t : Type := mk {
  id : Z;
  name : string;
  customerId : option Z;
  monthlyRate : string;
  routeType : string;
  subcontractorName : option string;
  subcontractorCost : option string;
  vehicleId : option Z;
  status : string;
  description : option string }.
End RouteRow.

Definition routeHeaders : list string :=
  ["name"; "customerName"; "monthlyRate"; "routeType"; "subcontractorName";
   "subcontractorCost"; "vehicleNumber"; "status"; "description"]%string.

(** A template that puts a text between two double quotes. *)
Definition quoted (v : string) : string := String quote (v ++ String quote EmptyString).

(** [v ?? empty] on a nullable text. *)
Definition orEmpty (v : option string) : string :=
  match v with
  | Some s => s
  | None => EmptyString
  end.

(** The text [GET /api/routes/export] sends for the rows it read: every
    column between double quotes, the double quotes of the description alone
    doubled. *)
Definition exportRoutes (customers : list Customer.t)
    (vehicles : list Vehicle.t) (data : list RouteRow.t) : string :=
  String.concat (String lineFeed EmptyString)
    (String.concat "," routeHeaders
     :: map (fun row =>
               let customer :=
                 find (fun c => refersTo (RouteRow.customerId row) (Customer.id c))
                   customers in
               let vehicle :=
                 find (fun v => refersTo (RouteRow.vehicleId row) (Vehicle.id v))
                   vehicles in
               String.concat ","
                 [quoted (RouteRow.name row);
                  quoted (match customer with
                          | Some c => Customer.name c
                          | None => EmptyString
                          end);
                  quoted (RouteRow.monthlyRate row);
                  quoted (RouteRow.routeType row);
                  quoted (orEmpty (RouteRow.subcontractorName row));
                  quoted (orEmpty (RouteRow.subcontractorCost row));
                  quoted (match vehicle with
                          | Some v => Vehicle.registrationNumber v
                          | None => EmptyString
                          end);
                  quoted (RouteRow.status row);
                  quoted (escapeQuotes (orEmpty (RouteRow.description row)))])
          data).

(** What [POST /api/routes/import] makes of a row of [data]. *)
Module NewRoute.
Record t : Type := mk {
  name : option string;
  customerId : option Z;
  monthlyRate : option string;
  routeType : string;
  subcontractorName : option string;
  subcontractorCost : option string;
  vehicleId : option Z;
  status : string;
  description : option string }.
End NewRoute.

(** [x?.id || null]: no row found, or the id 0, gives [null]. *)
Definition idOrNull (id : option Z) : option Z :=
  match id with
  | Some k => if k =? 0 then None else Some k
  | None => None
  end.

(** [c.name === row.customerName], on a property that may be [undefined]. *)
Definition namedBy (name : string) (v : option string) : bool :=
  match v with
  | Some s => String.eqb name s
  | None => false
  end.

Definition newRoute (customers : list Customer.t)
    (vehicles : list Vehicle.t) (row : Obj) : NewRoute.t :=
  let customer :=
    find (fun c => namedBy (Customer.name c) (getProp row "customerName"))
      customers in
  let vehicle :=
    find (fun v => namedBy (Vehicle.registrationNumber v)
                     (getProp row "vehicleNumber"))
      vehicles in
  {| NewRoute.name := getProp row "name";
     NewRoute.customerId := idOrNull (option_map Customer.id customer);
     NewRoute.monthlyRate := getProp row "monthlyRate";
     NewRoute.routeType := orDefault (getProp row "routeType") "owned";
     NewRoute.subcontractorName := orNull (getProp row "subcontractorName");
     NewRoute.subcontractorCost := orNull (getProp row "subcontractorCost");
     NewRoute.vehicleId := idOrNull (option_map Vehicle.id vehicle);
     NewRoute.status := orDefault (getProp row "status") "active";
     NewRoute.description := orNull (getProp row "description") |}.

Definition importRoutes (customers : list Customer.t)
    (vehicles : list Vehicle.t) (data : list Obj) : list NewRoute.t :=
  map (newRoute customers vehicles) data.

End Csv.

(** ** The specification's own definitions, to compare the code with *)

Module Spec.

(** The zone of a server whose clock is UTC. *)
Definition UTC : Z := 0.

(** [monthsSpanned(from, to)], on the calendar fields of the two dates. *)
Definition monthsSpanned (from to : Civil.t) : Z :=
  (Civil.year to - Civil.year from) * 12 + (Civil.month to - Civil.month from) + 1.

(** [cpf(salary) = salary * 0.17], on the server's numbers. *)
Definition cpf (salary : float) : float := (salary * JS.lit_0_17)%float.

(** [monthlyEmployerCost(employee)]: salary plus CPF for a local worker,
    salary plus levy (0 when unset) for a foreign one. *)
Definition monthlyEmployerCost (e : Employee.t) : float :=
  let salary := JS.parseFloat (Employee.salary e) in
  if strictEq (Employee.workerType e) "local" then (salary + cpf salary)%float
  else (salary + match Employee.foreignWorkerLevy e with
                 | Some l => JS.parseFloat l
                 | None => 0
                 end)%float.

(** The binary64 number next above 510: 510 + 2^-44, printed
    510.00000000000006. *)
Definition above510 : float := 0x1.fe00000000001p+8%float.

(** The calendar date of the forecast month [new Date(y, m, 1)]. *)
Definition firstOfMonth (y m : Z) : Civil.t := Civil.mk (y + m / 12) (m mod 12 + 1) 1.

(** A date lies in the window [[startDate, endDate]], ends included. *)
Definition within (startDate endDate d : Civil.t) : bool :=
  Civil.leb startDate d && Civil.leb d endDate.

(** The sum of a list of numbers, taken from 0 in list order. *)
Definition total (xs : list float) : float :=
  fold_left (fun sum x => (sum + x)%float) xs 0%float.

(** A response that rejects the request. *)
Definition rejected {A : Type} (r : Response A) : Prop :=
  exists error, r = Status500 error.

End Spec.

(** ** Sample data *)

Module Sample.

Definition jan2024 : JS.Date.t := JS.Date.mk 2024 0 15 600.

Definition utc : Env := mkEnv Spec.UTC jan2024.

Definition route10000 : Route.t :=
  Route.mk 1 "Jurong shuttle" None 1000000 "owned" None None "active".

Definition local3000 : Employee.t :=
  Employee.mk 1 "Tan" "local" 300000 None "active".

Definition foreign2200 : Employee.t :=
  Employee.mk 2 "Kumar" "foreign" 220000 (Some 45000) "active".

(** One active route at 10000 a month and one active local employee at 3000. *)
Definition oneRouteOneEmployee : Database :=
  mkDatabase [] [route10000] [] [] [] [] [] [] [] [local3000].

(** A term policy of 2400 over the calendar year 2024. *)
Definition policy2024 : VehicleInsurance.t :=
  VehicleInsurance.mk 1 1 240000 (Civil.mk 2024 1 1) (Civil.mk 2024 12 31).

Definition dec2024 : JS.Date.t := JS.Date.mk 2024 11 3 75.

(** The same ledger with a bus out of service and the loan, the policy and
    the parking lot that go with it. *)
Definition inactiveBus : Vehicle.t := Vehicle.mk 1 "PA1234X" "inactive".

Definition busLoan : VehicleInstallment.t :=
  VehicleInstallment.mk 1 1 150000 (Civil.mk 2023 1 1) (Civil.mk 2027 12 31).

Definition busParking : VehicleParking.t :=
  VehicleParking.mk 1 1 30000 (Civil.mk 2023 1 1) None.

Definition withInactiveBus : Database :=
  mkDatabase [] [route10000] [] [] [] [inactiveBus] [busLoan] [policy2024] [busParking]
    [local3000].

(** The same, with the bus in service. *)
Definition withActiveBus : Database :=
  mkDatabase [] [route10000] [] [] [] [Vehicle.mk 1 "PA1234X" "active"] [busLoan]
    [policy2024] [busParking] [local3000].

(** A customer, an income row billed to nobody, one billed to a customer that
    does not exist, and an expense without a category. *)
Definition acme : Customer.t := Customer.mk 1 "Acme Logistics" "active".

Definition unbilled : IncomeRecord.t :=
  IncomeRecord.mk 1 None None 10000 "2024-02" "route" "paid".

Definition dangling : IncomeRecord.t :=
  IncomeRecord.mk 2 (Some 99) None 5000 "2024-03" "adhoc" "pending".

Definition sundry : Expense.t :=
  Expense.mk 1 None None 5000 (Civil.mk 2024 2 10) false None.

Definition orphanLedger : Database :=
  mkDatabase [acme] [] [unbilled; dangling] [ExpenseCategory.mk 1 "Fuel" None] [sundry]
    [] [] [] [] [].

End Sample.

(** ** Vocabulary of the statements *)

(** The rows a read resolved to. *)
Definition resolved {A : Type} (read : option (list A)) : list A :=
  match read with
  | Some rows => rows
  | None => []
  end.

(** What the forecast reads from a database. *)
Definition inputsOf (db : Database) : CashFlow.Inputs :=
  let storage := DatabaseStorage db in
  CashFlow.mkInputs (resolved (getRoutes storage)) (resolved (getEmployees storage))
    (resolved (getAllVehicleInstallments storage)) (resolved (getAllVehicleInsurance storage))
    (resolved (getAllVehicleParking storage)) (resolved (getExpenses storage)).

(** Two states of the database that agree on every table but [vehicles] that
    the forecast could depend on. *)
Definition agreeOffVehicles (db1 db2 : Database) : Prop :=
  routes db1 = routes db2
  /\ employees db1 = employees db2
  /\ vehicleInstallments db1 = vehicleInstallments db2
  /\ vehicleInsurance db1 = vehicleInsurance db2
  /\ vehicleParking db1 = vehicleParking db2
  /\ expenses db1 = expenses db2.

(** Two states of the database that agree on the six tables the P&L reads. *)
Definition sameLedger (db1 db2 : Database) : Prop :=
  customers db1 = customers db2
  /\ routes db1 = routes db2
  /\ incomeRecords db1 = incomeRecords db2
  /\ expenses db1 = expenses db2
  /\ employees db1 = employees db2
  /\ expenseCategories db1 = expenseCategories db2.

(** The four figures of a forecast row: inflows, outflows, net flow and
    cumulative balance. *)
Definition figures (row : CashFlow.MonthRow.t) : float * float * float * float :=
  (CashFlow.MonthRow.inflows row, CashFlow.MonthRow.outflows row,
   CashFlow.MonthRow.netFlow row, CashFlow.MonthRow.cumulativeBalance row).

(** The forecast month of index [i]. *)
Definition rowDate (env : Env) (i : Z) : JS.Date.t :=
  JS.Date.ofLocalMonth (JS.Date.getFullYear (now env)) (JS.Date.getMonth (now env) + i).

(** What the forecast loop keeps true of its state: each row nets its own
    flows, each cumulative balance is the sum of the net flows so far, and the
    running balance is that of the last row. *)
Record LoopInv (st : CashFlow.LoopState) : Prop := mkLoopInv {
  inv_net : forall i row, nth_error (fst st) i = Some row ->
    CashFlow.MonthRow.netFlow row
    = (CashFlow.MonthRow.inflows row - CashFlow.MonthRow.outflows row)%float;
  inv_cum : forall i row, nth_error (fst st) i = Some row ->
    CashFlow.MonthRow.cumulativeBalance row
    = Spec.total (map CashFlow.MonthRow.netFlow (firstn (S i) (fst st)));
  inv_balance : snd st = Spec.total (map CashFlow.MonthRow.netFlow (fst st));
  inv_last : snd st = last (map CashFlow.MonthRow.cumulativeBalance (fst st)) 0%float }.

(** What the loop keeps true of the rows: row [i] is the month [i] after the
    current one, its insurance detail is the insurance due that month, and its
    outflows are the sum of its six cost details. *)
Definition RowsInv (env : Env) (inp : CashFlow.Inputs) (months : list CashFlow.MonthRow.t)
    : Prop :=
  forall i row, nth_error months i = Some row ->
    CashFlow.MonthRow.month row = rowDate env (Z.of_nat i)
    /\ CashFlow.Details.vehicleInsurance (CashFlow.MonthRow.details row)
       = CashFlow.vehicleInsurance (tz env) (rowDate env (Z.of_nat i)) (CashFlow.insurance inp)
    /\ CashFlow.MonthRow.outflows row
       = (CashFlow.Details.vehicleInstallments (CashFlow.MonthRow.details row)
          + CashFlow.Details.vehicleInsurance (CashFlow.MonthRow.details row)
          + CashFlow.Details.vehicleParking (CashFlow.MonthRow.details row)
          + CashFlow.Details.employeeCosts (CashFlow.MonthRow.details row)
          + CashFlow.Details.subcontractorCosts (CashFlow.MonthRow.details row)
          + CashFlow.Details.recurringExpenses (CashFlow.MonthRow.details row))%float.

(** What one insurance row adds to the insurance due in the month that
    starts on [d], as the specification words it. *)
Definition insuranceShare (d : Civil.t) (sum : float) (ins : VehicleInsurance.t) : float :=
  if Spec.within (VehicleInsurance.startDate ins) (VehicleInsurance.endDate ins) d
  then (sum + JS.parseFloat (VehicleInsurance.premium ins)
              / JS.num (Spec.monthsSpanned (VehicleInsurance.startDate ins)
                          (VehicleInsurance.endDate ins)))%float
  else sum.

(** An income row that refers to no customer: its [customerId] is [null] or
    the id of no row of [customers]. *)
Definition orphan (customers : list Customer.t) (i : IncomeRecord.t) : Prop :=
  forall c, In c customers -> refersTo (IncomeRecord.customerId i) (Customer.id c) = false.

(** The billing period of an income row lies in the months of [[from, to]]. *)
Definition billedWithin (from to : Civil.t) (i : IncomeRecord.t) : bool :=
  String.leb (substring_0_7 from) (IncomeRecord.billingPeriod i)
  && String.leb (IncomeRecord.billingPeriod i) (substring_0_7 to).

(** The database with one more income row. *)
Definition addIncome (db : Database) (i : IncomeRecord.t) : Database :=
  mkDatabase (customers db) (routes db) (incomeRecords db ++ [i]) (expenseCategories db)
    (expenses db) (vehicles db) (vehicleInstallments db) (vehicleInsurance db)
    (vehicleParking db) (employees db).

(** Four and two decimal digits, most significant first. *)
Definition digits4 (y : Z) : string :=
  String (JS.digit (y / 1000)) (String (JS.digit (y / 100 mod 10))
    (String (JS.digit (y / 10 mod 10)) (String (JS.digit (y mod 10)) EmptyString))).

Definition digits2 (m : Z) : string :=
  String (JS.digit (m / 10)) (String (JS.digit (m mod 10)) EmptyString).

(** ** Vocabulary of the further statements *)

(** The month of a Date, counted from year 0: twelve times the year plus the
    month index. *)
Definition monthOrdinal (d : JS.Date.t) : Z :=
  12 * JS.Date.fullYear d + JS.Date.monthIndex d.

(** The database with another table of expenses. *)
Definition withExpenses (db : Database) (rows : list Expense.t) : Database :=
  mkDatabase (customers db) (routes db) (incomeRecords db) (expenseCategories db)
    rows (vehicles db) (vehicleInstallments db) (vehicleInsurance db)
    (vehicleParking db) (employees db).

(** A storage whose read of the employees, of the routes, of the expenses
    resolves to the given rows, in the given order, and whose other reads are
    those of [st]. *)
Definition readingEmployees (st : IStorage) (rows : list Employee.t) : IStorage :=
  mkStorage (getCustomers st) (getRoutes st) (getIncomeRecords st)
    (getExpenseCategories st) (getExpenses st) (getVehicles st) (Some rows)
    (getIncomeByPeriod st) (getExpensesByPeriod st) (getAllVehicleInstallments st)
    (getAllVehicleInsurance st) (getAllVehicleParking st).

Definition readingRoutes (st : IStorage) (rows : list Route.t) : IStorage :=
  mkStorage (getCustomers st) (Some rows) (getIncomeRecords st)
    (getExpenseCategories st) (getExpenses st) (getVehicles st) (getEmployees st)
    (getIncomeByPeriod st) (getExpensesByPeriod st) (getAllVehicleInstallments st)
    (getAllVehicleInsurance st) (getAllVehicleParking st).

Definition readingExpenses (st : IStorage) (rows : list Expense.t) : IStorage :=
  mkStorage (getCustomers st) (getRoutes st) (getIncomeRecords st)
    (getExpenseCategories st) (Some rows) (getVehicles st) (getEmployees st)
    (getIncomeByPeriod st) (getExpensesByPeriod st) (getAllVehicleInstallments st)
    (getAllVehicleInsurance st) (getAllVehicleParking st).

(** A date of the calendar that a [date] column and the text of a request
    can hold: a valid date of a year from 1 to 9999. *)
Definition calendarDate (d : Civil.t) : Prop := Civil.valid d /\ 1 <= Civil.year d.

(** The amounts of expenses, as the numbers the server parses them to. *)
Definition expenseAmounts (rows : list Expense.t) : list float :=
  map (fun e => JS.parseFloat (Expense.amount e)) rows.

(** The monthly employer cost of the active employees, as the specification
    words it and on the server's numbers: from 0, for each active employee in
    turn, the salary and then the CPF of a local worker or the levy, 0 when
    unset, of any other. *)
Definition monthlyPayroll (employees : list Employee.t) : float :=
  fold_left
    (fun sum e =>
       if String.eqb (Employee.status e) "active"
       then (sum + JS.parseFloat (Employee.salary e)
             + (if String.eqb (Employee.workerType e) "local"
                then Spec.cpf (JS.parseFloat (Employee.salary e))
                else match Employee.foreignWorkerLevy e with
                     | Some l => JS.parseFloat l
                     | None => 0
                     end))%float
       else sum)
    employees 0%float.

(** The costs a report pro-rates over [months] months, as the specification
    words them and on the server's numbers: from 0, for each active
    subcontracted route that has a cost in turn, the cost times the months;
    for each active employee in turn, the monthly employer cost times the
    months. *)
Definition proratedSubcontracting (months : Z) (routes : list Route.t) : float :=
  fold_left
    (fun sum r =>
       match Route.subcontractorCost r with
       | Some c =>
           if String.eqb (Route.routeType r) "subcontracted"
              && String.eqb (Route.status r) "active"
           then (sum + JS.parseFloat c * JS.num months)%float
           else sum
       | None => sum
       end)
    routes 0%float.

Definition proratedPayroll (months : Z) (employees : list Employee.t) : float :=
  fold_left
    (fun sum e =>
       if String.eqb (Employee.status e) "active"
       then (sum + Spec.monthlyEmployerCost e * JS.num months)%float
       else sum)
    employees 0%float.

(** The amounts of income rows, as the numbers the server parses them to. *)
Definition incomeAmounts (rows : list IncomeRecord.t) : list float :=
  map (fun i => JS.parseFloat (IncomeRecord.amount i)) rows.

(** A ledger in January 2024: a local employee at 3000 and a foreign one at
    2200 with a levy of 450, both active, one who has left, an expense of 50
    dated in the month, one of 70 dated in 2023 and one of 20 dated in March
    2024, and an income of 1000 billed to the month. *)
Definition januaryLedger : Database :=
  mkDatabase [] [Sample.route10000]
    [IncomeRecord.mk 1 None None 100000 "2024-01" "route" "paid"] []
    [Expense.mk 1 None None 5000 (Civil.mk 2024 1 10) false None;
     Expense.mk 2 None None 7000 (Civil.mk 2023 12 20) false None;
     Expense.mk 3 None None 2000 (Civil.mk 2024 3 5) false None]
    [] [] [] []
    [Sample.local3000; Sample.foreign2200;
     Employee.mk 3 "Lim" "local" 280000 None "resigned"].

(** A ledger that holds the 2024 policy and nothing else. *)
Definition insuredLedger : Database :=
  mkDatabase [] [] [] [] [] [] [] [Sample.policy2024] [] [].

(** The insurance details of the rows of a forecast. *)
Definition insuranceDetails (f : CashFlow.Forecast.t) : list float :=
  map (fun row => CashFlow.Details.vehicleInsurance (CashFlow.MonthRow.details row))
    (CashFlow.Forecast.months f).

(** The buckets of the categories in the by-category view: one for each
    category whose expenses sum to more than 0. *)
Definition categoryBuckets (categories : list ExpenseCategory.t) (expenses : list Expense.t)
    : list NamedAmount :=
  filter (fun c => PrimFloat.ltb 0 (amount c))
    (map (fun cat =>
            mkNamedAmount (ExpenseCategory.name cat)
              (sumOf Expense.amount
                 (filter (fun e => refersTo (Expense.categoryId e) (ExpenseCategory.id cat))
                    expenses)))
       categories).

(** The bucket that closes the view when the expenses without a category sum
    to [u]. *)
Definition uncategorizedBucket (u : float) : list NamedAmount :=
  if PrimFloat.ltb 0 u then [mkNamedAmount "Uncategorized" u] else [].

(** An expense the forecast projects: recurring, every month. *)
Definition projected (e : Expense.t) : bool :=
  Expense.isRecurring e
  && match Expense.recurringFrequency e with
     | Some f => strictEq f "monthly"
     | None => false
     end.

(** A parking row is due in the month that starts on [d]. *)
Definition parkingDue (d : Civil.t) (p : VehicleParking.t) : bool :=
  Civil.leb (VehicleParking.startDate p) d
  && match VehicleParking.endDate p with
     | Some e => Civil.leb d e
     | None => true
     end.

(** An expense filed under no category of the table: its [categoryId] is
    [null] or the id of no row of [expense_categories]. *)
Definition unfiled (categories : list ExpenseCategory.t) (e : Expense.t) : Prop :=
  forall cat, In cat categories ->
    refersTo (Expense.categoryId e) (ExpenseCategory.id cat) = false.

(** The month of a calendar date, counted from year 0. *)
Definition civilMonth (d : Civil.t) : Z := 12 * Civil.year d + Civil.month d.

(** ** Vocabulary of the statements on CSV *)

(** The character occurs in the text. *)
Fixpoint occurs (c : ascii) (s : string) : bool :=
  match s with
  | EmptyString => false
  | String d s' => Ascii.eqb d c || occurs c s'
  end.

(** The text without its double quotes. *)
Fixpoint withoutQuotes (s : string) : string :=
  match s with
  | EmptyString => EmptyString
  | String c s' => if Ascii.eqb c Csv.quote then withoutQuotes s' else String c (withoutQuotes s')
  end.

(** The text of a column of a row, empty for [null]. *)
Definition textOf (row : Csv.Row) (h : string) : string :=
  match row h with
  | Some v => v
  | None => EmptyString
  end.

(** A header the export and the import agree on: not empty, not [__proto__],
    without comma, line feed or double quote, and without white space at
    either end. *)
Definition plainHeader (h : string) : bool :=
  negb (String.eqb h EmptyString)
  && negb (String.eqb h "__proto__")
  && negb (occurs Csv.comma h)
  && negb (occurs Csv.lineFeed h)
  && negb (occurs Csv.quote h)
  && String.eqb (Csv.trim h) h.

(** A text the export and the import carry unchanged: without double quote
    and without line feed. *)
Definition plainText (v : string) : bool :=
  negb (occurs Csv.quote v) && negb (occurs Csv.lineFeed v).

(** A nullable column that holds [null] or a plain text that is not empty. *)
Definition plainOption (v : option string) : bool :=
  match v with
  | Some s => plainText s && negb (String.eqb s EmptyString)
  | None => true
  end.

Definition plainCustomer (c : Csv.CustomerRow.t) : bool :=
  plainText (Csv.CustomerRow.name c)
  && plainOption (Csv.CustomerRow.contactPerson c)
  && plainOption (Csv.CustomerRow.email c)
  && plainOption (Csv.CustomerRow.phone c)
  && plainOption (Csv.CustomerRow.address c)
  && plainText (Csv.CustomerRow.status c)
  && negb (String.eqb (Csv.CustomerRow.status c) EmptyString).

(** The columns of a row of [customers] other than its id. *)
Definition columnsOf (c : Csv.CustomerRow.t) : Csv.NewCustomer.t :=
  Csv.NewCustomer.mk (Some (Csv.CustomerRow.name c)) (Csv.CustomerRow.contactPerson c)
    (Csv.CustomerRow.email c) (Csv.CustomerRow.phone c) (Csv.CustomerRow.address c)
    (Csv.CustomerRow.status c).

(** The carriage return. *)
Definition carriageReturn : ascii := "013"%char.

Definition plainRoute (r : Csv.RouteRow.t) : bool :=
  plainText (Csv.RouteRow.name r)
  && plainText (Csv.RouteRow.monthlyRate r)
  && plainText (Csv.RouteRow.routeType r)
  && negb (String.eqb (Csv.RouteRow.routeType r) EmptyString)
  && plainOption (Csv.RouteRow.subcontractorName r)
  && plainOption (Csv.RouteRow.subcontractorCost r)
  && plainText (Csv.RouteRow.status r)
  && negb (String.eqb (Csv.RouteRow.status r) EmptyString)
  && plainOption (Csv.RouteRow.description r).

(** The columns of a row of [routes] other than its id. *)
Definition routeColumns (r : Csv.RouteRow.t) : Csv.NewRoute.t :=
  Csv.NewRoute.mk (Some (Csv.RouteRow.name r)) (Csv.RouteRow.customerId r)
    (Some (Csv.RouteRow.monthlyRate r)) (Csv.RouteRow.routeType r)
    (Csv.RouteRow.subcontractorName r) (Csv.RouteRow.subcontractorCost r)
    (Csv.RouteRow.vehicleId r) (Csv.RouteRow.status r) (Csv.RouteRow.description r).

(** The rows of a table can be told apart by a name: no two rows bear the
    same name, and every name is a plain text that is not empty. *)
Definition namedApart {A : Type} (name : A -> string) (rows : list A) : Prop :=
  NoDup (map name rows)
  /\ forall x, In x rows -> plainText (name x) = true /\ name x <> EmptyString.

(** A foreign key that is [null] or the id, other than 0, of a row of the
    table. *)
Definition linked {A : Type} (id : A -> Z) (rows : list A) (fk : option Z) : Prop :=
  match fk with
  | Some k => k <> 0 /\ exists x, In x rows /\ id x = k
  | None => True
  end.

(** The texts of the cells of a line of the routes export, by header. *)
Definition routeCells (customers : list Customer.t) (vehicles : list Vehicle.t)
    (r : Csv.RouteRow.t) : Csv.Row :=
  fun h =>
    if String.eqb h "name" then Some (Csv.RouteRow.name r)
    else if String.eqb h "customerName" then
      Some (match find (fun c => refersTo (Csv.RouteRow.customerId r) (Customer.id c))
                    customers with
            | Some c => Customer.name c
            | None => EmptyString
            end)
    else if String.eqb h "monthlyRate" then Some (Csv.RouteRow.monthlyRate r)
    else if String.eqb h "routeType" then Some (Csv.RouteRow.routeType r)
    else if String.eqb h "subcontractorName" then Csv.RouteRow.subcontractorName r
    else if String.eqb h "subcontractorCost" then Csv.RouteRow.subcontractorCost r
    else if String.eqb h "vehicleNumber" then
      Some (match find (fun v => refersTo (Csv.RouteRow.vehicleId r) (Vehicle.id v))
                    vehicles with
            | Some v => Vehicle.registrationNumber v
            | None => EmptyString
            end)
    else if String.eqb h "status" then Some (Csv.RouteRow.status r)
    else if String.eqb h "description" then Csv.RouteRow.description r
    else None.

(** The lines of an export: the header line and one line for each row. *)
Definition exportLines (headers : list string) (data : list Csv.Row) : list string :=
  String.concat "," headers
  :: map (fun row => String.concat "," (map (Csv.cell row) headers)) data.

(** * Properties *)

(** ** Sums over filtered rows *)

(** A [filter] followed by a [reduce] is one pass that skips the rows the
    filter drops. *)
Lemma fold_left_filter {A B : Type} (f : B -> A -> B) (p : A -> bool) (l : list A) (b : B) :
  fold_left f (filter p l) b = fold_left (fun acc x => if p x then f acc x else acc) l b.
Proof.
  revert b. induction l as [|x l IH]; intro b; simpl.
  - reflexivity.
  - destruct (p x); simpl; apply IH.
Qed.

Lemma fold_left_ext {A B : Type} (f g : B -> A -> B) (l : list A) (b : B) :
  (forall acc x, f acc x = g acc x) -> fold_left f l b = fold_left g l b.
Proof.
  intro H. revert b. induction l as [|x l IH]; intro b; simpl.
  - reflexivity.
  - rewrite H. apply IH.
Qed.

Lemma sumOf_snoc {A : Type} (field : A -> Z) (rows : list A) (x : A) :
  sumOf field (rows ++ [x]) = (sumOf field rows + JS.parseFloat (field x))%float.
Proof. unfold sumOf. rewrite fold_left_app. reflexivity. Qed.

Lemma total_snoc (xs : list float) (x : float) :
  Spec.total (xs ++ [x]) = (Spec.total xs + x)%float.
Proof. unfold Spec.total. rewrite fold_left_app. reflexivity. Qed.

Lemma total_map {A : Type} (f : A -> float) (l : list A) :
  fold_left (fun sum m => (sum + f m)%float) l 0%float = Spec.total (map f l).
Proof.
  unfold Spec.total. generalize 0%float.
  induction l as [|x l IH]; intro b; simpl; [reflexivity | apply IH].
Qed.

(** ** Two constants *)

(** The literal [0.17] is the correctly rounded quotient of 17 by 100. *)
Lemma lit_0_17_nearest : JS.lit_0_17 = (17 / 100)%float.
Proof. reflexivity. Qed.

(** [Spec.above510] is one unit in the last place above 510. *)
Lemma above510_ulp :
  Spec.above510 = (510 + 0x1p-44)%float /\ PrimFloat.next_up 510%float = Spec.above510.
Proof. split; reflexivity. Qed.

(** ** [ORDER BY] keeps the rows *)

Section OrderBy.

Context {A : Type} (le : A -> A -> bool).

Lemma in_insert (x y : A) (l : list A) : In y (Sql.insert le x l) <-> y = x \/ In y l.
Proof.
  induction l as [|z l IH]; simpl.
  - intuition.
  - destruct (le x z); simpl; rewrite ?IH; intuition.
Qed.

Lemma in_orderBy (y : A) (l : list A) : In y (Sql.orderBy le l) <-> In y l.
Proof.
  unfold Sql.orderBy. induction l as [|x l IH]; simpl.
  - reflexivity.
  - rewrite in_insert, IH. intuition.
Qed.

Lemma orderBy_singleton (x : A) : Sql.orderBy le [x] = [x].
Proof. reflexivity. Qed.

End OrderBy.

(** ** The text of years, months and days *)

(** A check run on every number below a bound holds of each of them. *)
Lemma forallb_below (p : Z -> bool) (n : Z) :
  forallb (fun k => p (Z.of_nat k)) (seq 0 (Z.to_nat n)) = true ->
  forall z, 0 <= z < n -> p z = true.
Proof.
  intros H z Hz. rewrite forallb_forall in H.
  rewrite <- (Z2Nat.id z) by lia. apply H, in_seq. lia.
Qed.

Lemma toString_year (y : Z) : 1000 <= y <= 9999 -> JS.toString y = digits4 y.
Proof.
  intros Hy.
  assert (H : (y <? 1000) || String.eqb (JS.toString y) (digits4 y) = true).
  { apply (forallb_below
             (fun z => (z <? 1000) || String.eqb (JS.toString z) (digits4 z)) 10000);
      [vm_compute; reflexivity | lia]. }
  apply orb_true_iff in H as [H|H]; [apply Z.ltb_lt in H; lia | apply String.eqb_eq, H].
Qed.

Lemma padStart4_year (y : Z) : 0 <= y <= 9999 -> JS.padStart4 (JS.toString y) = digits4 y.
Proof.
  intros Hy. apply String.eqb_eq.
  apply (forallb_below
           (fun z => String.eqb (JS.padStart4 (JS.toString z)) (digits4 z)) 10000);
    [vm_compute; reflexivity | lia].
Qed.

Lemma padStart2_field (m : Z) : 0 <= m <= 99 -> JS.padStart2 (JS.toString m) = digits2 m.
Proof.
  intros Hm. apply String.eqb_eq.
  apply (forallb_below
           (fun z => String.eqb (JS.padStart2 (JS.toString z)) (digits2 z)) 100);
    [vm_compute; reflexivity | lia].
Qed.

(** Digits compare as the numbers they print. *)
Lemma digit_compare (i j : Z) :
  0 <= i <= 9 -> 0 <= j <= 9 -> Ascii.compare (JS.digit i) (JS.digit j) = (i ?= j).
Proof.
  intros Hi Hj.
  set (ok := fun a b : Z =>
               match Ascii.compare (JS.digit a) (JS.digit b), a ?= b with
               | Eq, Eq | Lt, Lt | Gt, Gt => true
               | _, _ => false
               end).
  assert (H : ok i j = true).
  { apply (forallb_below (ok i) 10); [|lia].
    apply (forallb_below
             (fun a => forallb (fun k => ok a (Z.of_nat k)) (seq 0 (Z.to_nat 10))) 10);
      [vm_compute; reflexivity | lia]. }
  unfold ok in H.
  destruct (Ascii.compare (JS.digit i) (JS.digit j)), (i ?= j);
    (reflexivity || discriminate H).
Qed.

Lemma digit_inj (i j : Z) :
  0 <= i <= 9 -> 0 <= j <= 9 -> JS.digit i = JS.digit j -> i = j.
Proof.
  intros Hi Hj E. apply Z.compare_eq. rewrite <- digit_compare by assumption.
  rewrite E. unfold Ascii.compare. apply N.compare_refl.
Qed.

(** The digits of a number below 10000, and the number from its digits. *)
Lemma digits4_range (a : Z) :
  0 <= a <= 9999 ->
  0 <= a / 1000 <= 9 /\ 0 <= a / 100 mod 10 <= 9 /\ 0 <= a / 10 mod 10 <= 9
  /\ 0 <= a mod 10 <= 9
  /\ a = 1000 * (a / 1000) + 100 * (a / 100 mod 10) + 10 * (a / 10 mod 10) + a mod 10.
Proof. intro H. Z.div_mod_to_equations. lia. Qed.

Lemma digits2_range (a : Z) :
  0 <= a <= 99 ->
  0 <= a / 10 <= 9 /\ 0 <= a mod 10 <= 9 /\ a = 10 * (a / 10) + a mod 10.
Proof. intro H. Z.div_mod_to_equations. lia. Qed.

Lemma compare_digits4 (a b : Z) (s t : string) :
  0 <= a <= 9999 -> 0 <= b <= 9999 ->
  String.compare (digits4 a ++ s) (digits4 b ++ t)
  = match a ?= b with Eq => String.compare s t | c => c end.
Proof.
  intros Ha Hb. unfold digits4. cbn [String.append String.compare].
  destruct (digits4_range a Ha) as (A3 & A2 & A1 & A0 & Ea).
  destruct (digits4_range b Hb) as (B3 & B2 & B1 & B0 & Eb).
  rewrite !digit_compare by assumption.
  revert A3 A2 A1 A0 Ea B3 B2 B1 B0 Eb.
  generalize (a / 1000) (a / 100 mod 10) (a / 10 mod 10) (a mod 10)
             (b / 1000) (b / 100 mod 10) (b / 10 mod 10) (b mod 10).
  intros a3 a2 a1 a0 b3 b2 b1 b0 A3 A2 A1 A0 Ea B3 B2 B1 B0 Eb.
  destruct (Z.compare_spec a3 b3); destruct (Z.compare_spec a2 b2);
    destruct (Z.compare_spec a1 b1); destruct (Z.compare_spec a0 b0);
    destruct (Z.compare_spec a b); try reflexivity; lia.
Qed.

Lemma compare_digits2 (a b : Z) (s t : string) :
  0 <= a <= 99 -> 0 <= b <= 99 ->
  String.compare (digits2 a ++ s) (digits2 b ++ t)
  = match a ?= b with Eq => String.compare s t | c => c end.
Proof.
  intros Ha Hb. unfold digits2. cbn [String.append String.compare].
  destruct (digits2_range a Ha) as (A1 & A0 & Ea).
  destruct (digits2_range b Hb) as (B1 & B0 & Eb).
  rewrite !digit_compare by assumption.
  revert A1 A0 Ea B1 B0 Eb.
  generalize (a / 10) (a mod 10) (b / 10) (b mod 10).
  intros a1 a0 b1 b0 A1 A0 Ea B1 B0 Eb.
  destruct (Z.compare_spec a1 b1); destruct (Z.compare_spec a0 b0);
    destruct (Z.compare_spec a b); try reflexivity; lia.
Qed.

Lemma append_empty (s : string) : (s ++ "")%string = s.
Proof. induction s as [|c s IH]; simpl; [reflexivity | rewrite IH; reflexivity]. Qed.

Lemma compare_field (a b : Z) (s t : string) :
  0 <= a <= 99 -> 0 <= b <= 99 ->
  String.compare (String "-" (digits2 a ++ s)) ("-" ++ digits2 b ++ t)
  = match a ?= b with Eq => String.compare s t | c => c end.
Proof.
  intros Ha Hb. cbn [String.append String.compare].
  change (Ascii.compare "-" "-") with Eq. cbv iota.
  apply (compare_digits2 a b s t Ha Hb).
Qed.

Lemma prefix_digit (i j : Z) (s t : string) :
  0 <= i <= 9 -> 0 <= j <= 9 ->
  String.prefix (String (JS.digit i) s) (String (JS.digit j) t) = (i =? j) && String.prefix s t.
Proof.
  intros Hi Hj. cbn [String.prefix].
  destruct (ascii_dec (JS.digit i) (JS.digit j)) as [E|N].
  - apply digit_inj in E; [|assumption..]. subst j. rewrite Z.eqb_refl. reflexivity.
  - destruct (Z.eqb_spec i j) as [->|_]; [contradiction N; reflexivity | reflexivity].
Qed.

Lemma prefix_dash (s t : string) :
  String.prefix (String "-" s) (String "-" t) = String.prefix s t.
Proof.
  cbn [String.prefix].
  destruct (ascii_dec "-" "-") as [_|N]; [reflexivity | contradiction N; reflexivity].
Qed.

Lemma prefix_nil (t : string) : String.prefix EmptyString t = true.
Proof. destruct t; reflexivity. Qed.

Lemma valid_day (d : Civil.t) : Civil.valid d -> 1 <= Civil.day d <= 31.
Proof.
  intros (_ & _ & H). unfold Civil.daysInMonth in H.
  repeat match type of H with context [if ?b then _ else _] => destruct b end; lia.
Qed.

(** An expense date starts with the month key exactly when it falls in that
    month. *)
Lemma startsWith_monthKey (y m : Z) (d : Civil.t) :
  1000 <= y <= 9999 -> 1 <= m <= 12 -> Civil.valid d ->
  JS.startsWith (JS.isoDate d) (JS.monthKey y m)
  = (Civil.year d =? y) && (Civil.month d =? m).
Proof.
  intros Hy Hm Hd. pose proof (valid_day d Hd) as Hdd. destruct Hd as (Hyd & Hmd & _).
  unfold JS.startsWith, JS.isoDate, JS.monthKey.
  rewrite (toString_year y), (padStart4_year (Civil.year d)) by lia.
  rewrite !padStart2_field by lia.
  unfold digits4, digits2. cbn [String.append].
  destruct (digits4_range y ltac:(lia)) as (A3 & A2 & A1 & A0 & Ea).
  destruct (digits4_range (Civil.year d) Hyd) as (B3 & B2 & B1 & B0 & Eb).
  destruct (digits2_range m ltac:(lia)) as (M1 & M0 & Em).
  destruct (digits2_range (Civil.month d) ltac:(lia)) as (N1 & N0 & En).
  rewrite !prefix_digit, prefix_dash, !prefix_digit, prefix_nil by assumption.
  destruct (Z.eqb_spec (Civil.year d) y) as [->|Ny].
  - rewrite !Z.eqb_refl. cbn [andb].
    destruct (Z.eqb_spec (Civil.month d) m) as [->|Nm].
    + rewrite !Z.eqb_refl. reflexivity.
    + destruct (Z.eqb_spec (m / 10) (Civil.month d / 10)); [|reflexivity].
      destruct (Z.eqb_spec (m mod 10) (Civil.month d mod 10)); [|reflexivity].
      exfalso. lia.
  - cbn [andb].
    destruct (Z.eqb_spec (y / 1000) (Civil.year d / 1000)); [|reflexivity].
    destruct (Z.eqb_spec (y / 100 mod 10) (Civil.year d / 100 mod 10)); [|reflexivity].
    destruct (Z.eqb_spec (y / 10 mod 10) (Civil.year d / 10 mod 10)); [|reflexivity].
    destruct (Z.eqb_spec (y mod 10) (Civil.year d mod 10)); [|reflexivity].
    exfalso. lia.
Qed.

(** An expense date is at or after the text of 1 January of a year exactly
    when its year is that year or a later one. *)
Lemma leb_yearStart (y : Z) (d : Civil.t) :
  1000 <= y <= 9999 -> Civil.valid d ->
  String.leb (JS.toString y ++ "-01-01") (JS.isoDate d) = (y <=? Civil.year d).
Proof.
  intros Hy Hd. pose proof (valid_day d Hd) as Hdd. destruct Hd as (Hyd & Hmd & _).
  unfold JS.isoDate, String.leb.
  rewrite (toString_year y), (padStart4_year (Civil.year d)) by lia.
  rewrite !padStart2_field by lia.
  rewrite compare_digits4 by lia.
  rewrite <- (append_empty (digits2 (Civil.day d))).
  change "-01-01"%string with (String "-" (digits2 1 ++ String "-" (digits2 1 ++ ""))).
  rewrite !compare_field by lia.
  destruct (Z.compare_spec y (Civil.year d));
    destruct (Z.compare_spec 1 (Civil.month d));
    destruct (Z.compare_spec 1 (Civil.day d));
    destruct (Z.leb_spec y (Civil.year d)); try reflexivity; lia.
Qed.

(** ** Dates on a server at or east of Greenwich *)

Lemma parse_east (tz : Z) (s : Civil.t) :
  0 <= tz ->
  JS.Date.parse tz s = JS.Date.mk (Civil.year s) (Civil.month s - 1) (Civil.day s) tz.
Proof.
  intro H. unfold JS.Date.parse. destruct (Z.leb_spec 0 tz); [reflexivity | lia].
Qed.

(** There the month count of the code is the one of the specification. *)
Lemma monthsInPeriod_east (tz : Z) (from to : Civil.t) :
  0 <= tz -> Pnl.monthsInPeriod tz from to = Spec.monthsSpanned from to.
Proof.
  intro H. unfold Pnl.monthsInPeriod, Spec.monthsSpanned.
  rewrite !parse_east by exact H.
  cbn [JS.Date.getFullYear JS.Date.getMonth JS.Date.fullYear JS.Date.monthIndex].
  lia.
Qed.

Lemma monthsInPeriod_same (tz : Z) (d : Civil.t) : Pnl.monthsInPeriod tz d d = 1.
Proof. unfold Pnl.monthsInPeriod. lia. Qed.

Lemma compare_shift (a b : Z) : (a - 1 ?= b) = (a ?= b + 1).
Proof.
  destruct (Z.compare_spec (a - 1) b); destruct (Z.compare_spec a (b + 1));
    (reflexivity || lia).
Qed.

Lemma compare_shift' (a b : Z) : (b ?= a - 1) = (b + 1 ?= a).
Proof.
  destruct (Z.compare_spec b (a - 1)); destruct (Z.compare_spec (b + 1) a);
    (reflexivity || lia).
Qed.

(** On a UTC server the start of a window is at or before the forecast month
    exactly when its date is at or before the first of that month, and the
    same holds of the end of the window. *)
Lemma leb_parse_month (s : Civil.t) (y m : Z) :
  JS.Date.leb (JS.Date.parse Spec.UTC s) (JS.Date.ofLocalMonth y m)
  = Civil.leb s (Spec.firstOfMonth y m).
Proof.
  rewrite parse_east by (unfold Spec.UTC; lia).
  unfold JS.Date.leb, Civil.leb, JS.Date.compare, Civil.compare, Spec.firstOfMonth, Spec.UTC.
  cbn [JS.Date.ofLocalMonth JS.Date.fullYear JS.Date.monthIndex
       JS.Date.dayOfMonth JS.Date.minuteOfDay Civil.year Civil.month Civil.day].
  rewrite compare_shift, Z.compare_refl.
  destruct (Civil.year s ?= y + m / 12); try reflexivity.
  destruct (Civil.month s ?= m mod 12 + 1); try reflexivity.
  destruct (Civil.day s ?= 1); reflexivity.
Qed.

Lemma leb_month_parse (s : Civil.t) (y m : Z) :
  JS.Date.leb (JS.Date.ofLocalMonth y m) (JS.Date.parse Spec.UTC s)
  = Civil.leb (Spec.firstOfMonth y m) s.
Proof.
  rewrite parse_east by (unfold Spec.UTC; lia).
  unfold JS.Date.leb, Civil.leb, JS.Date.compare, Civil.compare, Spec.firstOfMonth, Spec.UTC.
  cbn [JS.Date.ofLocalMonth JS.Date.fullYear JS.Date.monthIndex
       JS.Date.dayOfMonth JS.Date.minuteOfDay Civil.year Civil.month Civil.day].
  rewrite compare_shift', Z.compare_refl.
  destruct (y + m / 12 ?= Civil.year s); try reflexivity.
  destruct (m mod 12 + 1 ?= Civil.month s); try reflexivity.
  destruct (1 ?= Civil.day s); reflexivity.
Qed.

(** ** The forecast loop *)

Section Loop.

Variable env : Env.
Variable inp : CashFlow.Inputs.

Lemma LoopInv_init : LoopInv ([], 0%float).
Proof.
  constructor; simpl; try reflexivity; intros [|i] row H; discriminate H.
Qed.

Lemma LoopInv_body (st : CashFlow.LoopState) (i : Z) :
  LoopInv st -> LoopInv (CashFlow.body env inp st i).
Proof.
  destruct st as [months cum]. intros [Hnet Hcum Hbal Hlast]. cbn [fst snd] in *.
  unfold CashFlow.body.
  set (row := CashFlow.MonthRow.mk _ _ _ _ _ _).
  assert (Hrow : CashFlow.MonthRow.cumulativeBalance row
                 = (cum + CashFlow.MonthRow.netFlow row)%float) by reflexivity.
  constructor; cbn [fst snd].
  - intros k r Hk.
    destruct (Nat.lt_ge_cases k (List.length months)) as [Hlt|Hge].
    + rewrite nth_error_app1 in Hk by exact Hlt. eapply Hnet; eassumption.
    + rewrite nth_error_app2 in Hk by exact Hge.
      destruct (k - List.length months)%nat as [|k'] eqn:E; simpl in Hk.
      * injection Hk as <-. reflexivity.
      * destruct k'; discriminate Hk.
  - intros k r Hk.
    destruct (Nat.lt_ge_cases k (List.length months)) as [Hlt|Hge].
    + rewrite nth_error_app1 in Hk by exact Hlt.
      rewrite firstn_app.
      replace (S k - List.length months)%nat with 0%nat by lia.
      simpl firstn at 2. rewrite app_nil_r. eapply Hcum; eassumption.
    + rewrite nth_error_app2 in Hk by exact Hge.
      destruct (k - List.length months)%nat as [|k'] eqn:E; simpl in Hk.
      * injection Hk as <-.
        rewrite firstn_all2 by (rewrite length_app; simpl; lia).
        rewrite map_app. cbn [map]. rewrite total_snoc, Hrow, Hbal. reflexivity.
      * destruct k'; discriminate Hk.
  - rewrite map_app. cbn [map]. rewrite total_snoc, <- Hbal. exact Hrow.
  - rewrite map_app. cbn [map]. rewrite last_last. reflexivity.
Qed.

Lemma LoopInv_fold (l : list Z) (st : CashFlow.LoopState) :
  LoopInv st -> LoopInv (fold_left (CashFlow.body env inp) l st).
Proof.
  revert st. induction l as [|i l IH]; intros st H; simpl.
  - exact H.
  - apply IH, LoopInv_body, H.
Qed.

Lemma loop_inv (periodMonths : Z) : LoopInv (CashFlow.loop env inp periodMonths).
Proof. apply LoopInv_fold, LoopInv_init. Qed.

Lemma body_length (st : CashFlow.LoopState) (i : Z) :
  List.length (fst (CashFlow.body env inp st i)) = S (List.length (fst st)).
Proof.
  destruct st as [months cum]. unfold CashFlow.body. simpl.
  rewrite length_app. simpl. lia.
Qed.

Lemma fold_body_length (l : list Z) (st : CashFlow.LoopState) :
  List.length (fst (fold_left (CashFlow.body env inp) l st))
  = (List.length (fst st) + List.length l)%nat.
Proof.
  revert st. induction l as [|i l IH]; intro st; simpl.
  - lia.
  - rewrite IH, body_length. lia.
Qed.

(** The loop runs [periodMonths] times, and not at all for a negative count. *)
Lemma loop_length (periodMonths : Z) :
  List.length (fst (CashFlow.loop env inp periodMonths)) = Z.to_nat periodMonths.
Proof.
  unfold CashFlow.loop. rewrite fold_body_length. unfold CashFlow.indices.
  rewrite length_map, length_seq. reflexivity.
Qed.

Lemma RowsInv_fold (n k : nat) (st : CashFlow.LoopState) :
  List.length (fst st) = k -> RowsInv env inp (fst st) ->
  RowsInv env inp (fst (fold_left (CashFlow.body env inp) (map Z.of_nat (seq k n)) st)).
Proof.
  revert k st. induction n as [|n IH]; intros k st Hlen Hinv; cbn [seq map fold_left].
  - exact Hinv.
  - apply (IH (S k)).
    + rewrite body_length. lia.
    + destruct st as [months cum]. unfold CashFlow.body. cbn [fst] in *.
      intros i row Hi.
      destruct (Nat.lt_ge_cases i (List.length months)) as [Hlt|Hge].
      * rewrite nth_error_app1 in Hi by exact Hlt. apply Hinv, Hi.
      * rewrite nth_error_app2 in Hi by exact Hge.
        destruct (i - List.length months)%nat as [|j] eqn:E; cbn [nth_error] in Hi.
        -- injection Hi as <-. replace i with k by lia. repeat split.
        -- destruct j; discriminate Hi.
Qed.

Lemma loop_rows (periodMonths : Z) :
  RowsInv env inp (fst (CashFlow.loop env inp periodMonths)).
Proof.
  unfold CashFlow.loop, CashFlow.indices. apply RowsInv_fold; [reflexivity|].
  intros [|i] row H; discriminate H.
Qed.

End Loop.

(** The forecast the handler answers with. *)
Lemma forecast_of_loop (env : Env) (db : Database) (period : option Z) :
  let st := CashFlow.loop env (inputsOf db) (CashFlow.periodMonths period) in
  CashFlow.handler env (DatabaseStorage db) period
  = Json {|
      CashFlow.Forecast.months := fst st;
      CashFlow.Forecast.summary := {|
        CashFlow.Summary.totalInflows := Spec.total (map CashFlow.MonthRow.inflows (fst st));
        CashFlow.Summary.totalOutflows := Spec.total (map CashFlow.MonthRow.outflows (fst st));
        CashFlow.Summary.netCashFlow :=
          (Spec.total (map CashFlow.MonthRow.inflows (fst st))
           - Spec.total (map CashFlow.MonthRow.outflows (fst st)))%float;
        CashFlow.Summary.endingBalance := snd st |} |}.
Proof.
  unfold CashFlow.handler, CashFlow.forecast.
  cbn [await respond getRoutes getEmployees getAllVehicleInstallments getAllVehicleInsurance
       getAllVehicleParking getExpenses DatabaseStorage].
  change (CashFlow.mkInputs _ _ _ _ _ _) with (inputsOf db).
  destruct (CashFlow.loop env (inputsOf db) (CashFlow.periodMonths period)) as [months cum].
  cbn [respond fst snd]. rewrite !total_map. reflexivity.
Qed.

(** ** A handler answers an error only when a read rejects *)

Lemma respond_rejected {A : Type} (error : string) (body : option A) :
  Spec.rejected (respond error body) <-> body = None.
Proof.
  unfold Spec.rejected, respond. destruct body as [b|]; split.
  - intros [e H]. discriminate H.
  - intro H. discriminate H.
  - reflexivity.
  - intros _. eexists. reflexivity.
Qed.

(** ** Profit and loss: totals, purity *)

(** The rows [getExpensesByPeriod] matches are the expenses dated within
    [[from, to]]. *)
Lemma getExpensesByPeriod_rows (db : Database) (from to : Civil.t) :
  getExpensesByPeriod (DatabaseStorage db) from to
  = Some (filter (fun e => Spec.within from to (Expense.expenseDate e)) (expenses db)).
Proof. reflexivity. Qed.

(** The server's sum of a column is the sum, taken from 0 in the order of
    the rows, of the numbers the values parse to. *)
Lemma sumOf_total {A : Type} (field : A -> Z) (rows : list A) :
  sumOf field rows = Spec.total (map (fun x => JS.parseFloat (field x)) rows).
Proof. unfold sumOf. apply (total_map (fun x => JS.parseFloat (field x))). Qed.

(** C1. For every P&L request over two calendar dates [[from, to]] the
    handler answers a report whose net profit is total income minus total
    expenses, whose total expenses are the sum of the amounts of the expenses
    dated within the range, taken from 0 in the order of the table, plus
    subcontractor costs plus employee costs plus vehicle costs, and whose
    vehicle costs are 0.  The by-category view takes no part in the total. *)
Theorem pnl_totals (env : Env) (db : Database) (from to : Civil.t) :
  calendarDate from -> calendarDate to ->
  exists r : Pnl.Report.t,
    Pnl.handler env (DatabaseStorage db) (Some from) (Some to) = Json r
    /\ Pnl.Report.netProfit r
       = (Pnl.Income.totalIncome (Pnl.Report.income r)
          - Pnl.Expenses.totalExpenses (Pnl.Report.expenses r))%float
    /\ Pnl.Expenses.totalExpenses (Pnl.Report.expenses r)
       = (Spec.total
            (expenseAmounts
               (filter (fun e => Spec.within from to (Expense.expenseDate e)) (expenses db)))
          + Pnl.Expenses.subcontractorCosts (Pnl.Report.expenses r)
          + Pnl.Expenses.employeeCosts (Pnl.Report.expenses r)
          + Pnl.Expenses.vehicleCosts (Pnl.Report.expenses r))%float
    /\ Pnl.Expenses.vehicleCosts (Pnl.Report.expenses r) = 0%float.
Proof.
  intros _ _.
  unfold Pnl.handler, Pnl.report.
  rewrite getExpensesByPeriod_rows.
  cbn [await respond getIncomeByPeriod getCustomers getRoutes getEmployees
       getExpenseCategories DatabaseStorage].
  eexists. split; [reflexivity|].
  cbn [Pnl.Report.netProfit Pnl.Report.income Pnl.Report.expenses Pnl.Income.totalIncome
       Pnl.Expenses.totalExpenses Pnl.Expenses.subcontractorCosts
       Pnl.Expenses.employeeCosts Pnl.Expenses.vehicleCosts].
  split; [reflexivity|]. split; [|reflexivity].
  rewrite sumOf_total. reflexivity.
Qed.

(** In the January ledger the report of January 2024 counts the one expense
    of 50 dated in the month and a month of payroll, 3510 and 2650: 6210 in
    all, against an income of 1000. *)
Lemma pnl_totals_witness :
  exists r : Pnl.Report.t,
    Pnl.handler Sample.utc (DatabaseStorage januaryLedger)
      (Some (Civil.mk 2024 1 1)) (Some (Civil.mk 2024 1 31)) = Json r
    /\ Pnl.Expenses.totalExpenses (Pnl.Report.expenses r)
       = (Spec.total [50%float]
          + Pnl.Expenses.subcontractorCosts (Pnl.Report.expenses r)
          + Pnl.Expenses.employeeCosts (Pnl.Report.expenses r)
          + Pnl.Expenses.vehicleCosts (Pnl.Report.expenses r))%float
    /\ Pnl.Expenses.totalExpenses (Pnl.Report.expenses r) = 6210%float
    /\ Pnl.Report.netProfit r = (-5210)%float.
Proof.
  destruct (pnl_totals Sample.utc januaryLedger (Civil.mk 2024 1 1) (Civil.mk 2024 1 31))
    as (r & Hr & _ & Htotal & _).
  - split; [|cbn; lia]. vm_compute. intuition discriminate.
  - split; [|cbn; lia]. vm_compute. intuition discriminate.
  - exists r. split; [exact Hr|]. split; [exact Htotal|]. clear Htotal.
    revert Hr. unfold Pnl.handler, Pnl.report.
    cbn [await respond getIncomeByPeriod getExpensesByPeriod getCustomers getRoutes
         getEmployees getExpenseCategories DatabaseStorage].
    intros [= <-]. split; vm_compute; reflexivity.
Defined.

(** With [from] and [to] given the handler does not read the clock. *)
Lemma pnl_ignores_clock (tz : Z) (now1 now2 : JS.Date.t) (storage : IStorage)
    (from to : Civil.t) :
  Pnl.handler (mkEnv tz now1) storage (Some from) (Some to)
  = Pnl.handler (mkEnv tz now2) storage (Some from) (Some to).
Proof. reflexivity. Qed.

(** C8. With [from] and [to] given, the answer of the P&L handler is a
    function of the two dates and of the six tables it reads: two requests,
    made at any two instants against databases that hold the same customers,
    routes, income records, expense categories, expenses and employees, get
    the same answer. *)
Theorem pnl_pure (tz : Z) (now1 now2 : JS.Date.t) (db1 db2 : Database) (from to : Civil.t) :
  sameLedger db1 db2 ->
  Pnl.handler (mkEnv tz now1) (DatabaseStorage db1) (Some from) (Some to)
  = Pnl.handler (mkEnv tz now2) (DatabaseStorage db2) (Some from) (Some to).
Proof.
  intros (Hc & Hr & Hi & Hx & He & Hm).
  rewrite (pnl_ignores_clock tz now1 now2).
  unfold Pnl.handler, Pnl.report.
  cbn [await respond getIncomeByPeriod getExpensesByPeriod getCustomers getRoutes
       getEmployees getExpenseCategories DatabaseStorage].
  rewrite Hc, Hr, Hi, Hx, He, Hm. reflexivity.
Qed.

Lemma pnl_pure_witness :
  Pnl.handler (mkEnv Spec.UTC Sample.jan2024) (DatabaseStorage Sample.oneRouteOneEmployee)
    (Some (Civil.mk 2024 1 1)) (Some (Civil.mk 2024 3 31))
  = Pnl.handler (mkEnv Spec.UTC Sample.dec2024) (DatabaseStorage Sample.withInactiveBus)
      (Some (Civil.mk 2024 1 1)) (Some (Civil.mk 2024 3 31)).
Proof.
  apply (pnl_pure Spec.UTC Sample.jan2024 Sample.dec2024 Sample.oneRouteOneEmployee
           Sample.withInactiveBus); repeat split.
Defined.

(** ** Cash flow: running balance *)

Lemma forecast_balance (env : Env) (db : Database) (period : option Z) :
  exists f : CashFlow.Forecast.t,
    CashFlow.handler env (DatabaseStorage db) period = Json f
    /\ List.length (CashFlow.Forecast.months f) = Z.to_nat (CashFlow.periodMonths period)
    /\ (forall i row, nth_error (CashFlow.Forecast.months f) i = Some row ->
          CashFlow.MonthRow.netFlow row
          = (CashFlow.MonthRow.inflows row - CashFlow.MonthRow.outflows row)%float
          /\ CashFlow.MonthRow.cumulativeBalance row
             = Spec.total (map CashFlow.MonthRow.netFlow
                             (firstn (S i) (CashFlow.Forecast.months f))))
    /\ CashFlow.Summary.totalInflows (CashFlow.Forecast.summary f)
       = Spec.total (map CashFlow.MonthRow.inflows (CashFlow.Forecast.months f))
    /\ CashFlow.Summary.totalOutflows (CashFlow.Forecast.summary f)
       = Spec.total (map CashFlow.MonthRow.outflows (CashFlow.Forecast.months f))
    /\ CashFlow.Summary.netCashFlow (CashFlow.Forecast.summary f)
       = (CashFlow.Summary.totalInflows (CashFlow.Forecast.summary f)
          - CashFlow.Summary.totalOutflows (CashFlow.Forecast.summary f))%float
    /\ CashFlow.Summary.endingBalance (CashFlow.Forecast.summary f)
       = last (map CashFlow.MonthRow.cumulativeBalance (CashFlow.Forecast.months f)) 0%float.
Proof.
  pose proof (forecast_of_loop env db period) as Hf. cbv zeta in Hf.
  pose proof (loop_inv env (inputsOf db) (CashFlow.periodMonths period)) as [Hnet Hcum _ Hlast].
  pose proof (loop_length env (inputsOf db) (CashFlow.periodMonths period)) as Hlen.
  eexists. split; [exact Hf|].
  cbn [CashFlow.Forecast.months CashFlow.Forecast.summary CashFlow.Summary.totalInflows
       CashFlow.Summary.totalOutflows CashFlow.Summary.netCashFlow
       CashFlow.Summary.endingBalance].
  split; [exact Hlen|]. split.
  - intros i row Hrow. split; [eapply Hnet | eapply Hcum]; eassumption.
  - repeat split. exact Hlast.
Qed.

Lemma routeIncome_one (r : Route.t) :
  Route.status r = "active"%string -> Route.monthlyRate r = 1000000 ->
  CashFlow.routeIncome [r] = 10000%float.
Proof.
  intros Hst Hrate. unfold CashFlow.routeIncome, sumOf. cbn [filter].
  rewrite Hst. cbn. rewrite Hrate. reflexivity.
Qed.

Lemma subcontractorCosts_unset (r : Route.t) :
  Route.subcontractorCost r = None -> CashFlow.subcontractorCosts [r] = 0%float.
Proof.
  intros Hsub. unfold CashFlow.subcontractorCosts. cbn [filter].
  rewrite Hsub, andb_false_r. reflexivity.
Qed.

Lemma employeeCosts_local3000 (e : Employee.t) :
  Employee.status e = "active"%string -> Employee.workerType e = "local"%string ->
  Employee.salary e = 300000 ->
  CashFlow.employeeCosts [e] = 3510%float.
Proof.
  intros Hes Hwt Hsal. unfold CashFlow.employeeCosts. cbn [filter].
  rewrite Hes. cbn [strictEq String.eqb Ascii.eqb Bool.eqb fold_left].
  unfold Payroll.cpf, Payroll.salary.
  rewrite Hwt, Hsal. reflexivity.
Qed.

Lemma forecast_scenario (env : Env) (db : Database) (r : Route.t) (e : Employee.t) :
  routes db = [r] -> employees db = [e] ->
  vehicleInstallments db = [] -> vehicleInsurance db = [] -> vehicleParking db = [] ->
  expenses db = [] ->
  Route.status r = "active"%string -> Route.monthlyRate r = 1000000 ->
  Route.subcontractorCost r = None ->
  Employee.status e = "active"%string -> Employee.workerType e = "local"%string ->
  Employee.salary e = 300000 ->
  exists f : CashFlow.Forecast.t,
    CashFlow.handler env (DatabaseStorage db) (Some 3) = Json f
    /\ map figures (CashFlow.Forecast.months f)
       = [(10000, 3510, 6490, 6490); (10000, 3510, 6490, 12980);
          (10000, 3510, 6490, 19470)]%float
    /\ CashFlow.Summary.endingBalance (CashFlow.Forecast.summary f) = 19470%float.
Proof.
  intros Hr He Hi Hs Hp Hx Hst Hrate Hsub Hes Hwt Hsal.
  pose proof (routeIncome_one r Hst Hrate) as Hinc.
  pose proof (subcontractorCosts_unset r Hsub) as Hsc.
  pose proof (employeeCosts_local3000 e Hes Hwt Hsal) as Hemp.
  rewrite forecast_of_loop. cbv zeta.
  eexists. split; [reflexivity|].
  cbn [CashFlow.Forecast.months CashFlow.Forecast.summary CashFlow.Summary.endingBalance].
  unfold inputsOf.
  cbn [resolved getRoutes getEmployees getAllVehicleInstallments getAllVehicleInsurance
       getAllVehicleParking getExpenses DatabaseStorage].
  rewrite Hr, He, Hi, Hs, Hp, Hx, !orderBy_singleton.
  unfold CashFlow.loop, CashFlow.periodMonths, CashFlow.indices.
  cbn [Z.eqb Z.to_nat Pos.to_nat Pos.iter_op Nat.add seq map fold_left].
  unfold CashFlow.body.
  cbn [CashFlow.routes CashFlow.employees CashFlow.installments CashFlow.insurance
       CashFlow.parking CashFlow.expenses].
  rewrite Hinc, Hsc, Hemp.
  split; reflexivity.
Qed.

(** C2. In the forecast the handler answers with, every row nets its inflows
    and outflows, its cumulative balance is the sum, from 0 and in order, of
    the net flows up to it, the summary nets the two totals, and the ending
    balance is the cumulative balance of the last row.  With one active route
    at 10000 a month, one active local employee at 3000 and nothing else due,
    a three-month forecast has inflows 10000, outflows 3510 and net flow 6490
    in every row, cumulative balances 6490, 12980, 19470, and ending balance
    19470. *)
Theorem cashflow_forecast_balance :
  (forall (env : Env) (db : Database) (period : option Z),
     exists f : CashFlow.Forecast.t,
       CashFlow.handler env (DatabaseStorage db) period = Json f
       /\ List.length (CashFlow.Forecast.months f) = Z.to_nat (CashFlow.periodMonths period)
       /\ (forall i row, nth_error (CashFlow.Forecast.months f) i = Some row ->
             CashFlow.MonthRow.netFlow row
             = (CashFlow.MonthRow.inflows row - CashFlow.MonthRow.outflows row)%float
             /\ CashFlow.MonthRow.cumulativeBalance row
                = Spec.total (map CashFlow.MonthRow.netFlow
                                (firstn (S i) (CashFlow.Forecast.months f))))
       /\ CashFlow.Summary.totalInflows (CashFlow.Forecast.summary f)
          = Spec.total (map CashFlow.MonthRow.inflows (CashFlow.Forecast.months f))
       /\ CashFlow.Summary.totalOutflows (CashFlow.Forecast.summary f)
          = Spec.total (map CashFlow.MonthRow.outflows (CashFlow.Forecast.months f))
       /\ CashFlow.Summary.netCashFlow (CashFlow.Forecast.summary f)
          = (CashFlow.Summary.totalInflows (CashFlow.Forecast.summary f)
             - CashFlow.Summary.totalOutflows (CashFlow.Forecast.summary f))%float
       /\ CashFlow.Summary.endingBalance (CashFlow.Forecast.summary f)
          = last (map CashFlow.MonthRow.cumulativeBalance (CashFlow.Forecast.months f))
              0%float)
  /\ (forall (env : Env) (db : Database) (r : Route.t) (e : Employee.t),
        routes db = [r] -> employees db = [e] ->
        vehicleInstallments db = [] -> vehicleInsurance db = [] ->
        vehicleParking db = [] -> expenses db = [] ->
        Route.status r = "active"%string -> Route.monthlyRate r = 1000000 ->
        Route.subcontractorCost r = None ->
        Employee.status e = "active"%string -> Employee.workerType e = "local"%string ->
        Employee.salary e = 300000 ->
        exists f : CashFlow.Forecast.t,
          CashFlow.handler env (DatabaseStorage db) (Some 3) = Json f
          /\ map figures (CashFlow.Forecast.months f)
             = [(10000, 3510, 6490, 6490); (10000, 3510, 6490, 12980);
                (10000, 3510, 6490, 19470)]%float
          /\ CashFlow.Summary.endingBalance (CashFlow.Forecast.summary f) = 19470%float).
Proof.
  split.
  - exact forecast_balance.
  - exact forecast_scenario.
Qed.

Lemma cashflow_forecast_balance_witness :
  exists f : CashFlow.Forecast.t,
    CashFlow.handler Sample.utc (DatabaseStorage Sample.oneRouteOneEmployee) (Some 3) = Json f
    /\ map figures (CashFlow.Forecast.months f)
       = [(10000, 3510, 6490, 6490); (10000, 3510, 6490, 12980);
          (10000, 3510, 6490, 19470)]%float
    /\ CashFlow.Summary.endingBalance (CashFlow.Forecast.summary f) = 19470%float.
Proof.
  apply (proj2 cashflow_forecast_balance Sample.utc Sample.oneRouteOneEmployee
           Sample.route10000 Sample.local3000); reflexivity.
Defined.

(** ** Months spanned and pro-rating *)

Lemma pnl_subcontractorCosts_snoc (routes : list Route.t) (r : Route.t) (months : Z) :
  Pnl.subcontractorCosts (routes ++ [r]) months
  = match Route.subcontractorCost r with
    | Some c =>
        if strictEq (Route.routeType r) "subcontracted" && strictEq (Route.status r) "active"
        then (Pnl.subcontractorCosts routes months + JS.parseFloat c * JS.num months)%float
        else Pnl.subcontractorCosts routes months
    | None => Pnl.subcontractorCosts routes months
    end.
Proof.
  unfold Pnl.subcontractorCosts. rewrite filter_app. cbn [filter].
  destruct (Route.subcontractorCost r) as [c|] eqn:E.
  - rewrite andb_true_r.
    destruct (strictEq (Route.routeType r) "subcontracted" && strictEq (Route.status r) "active").
    + rewrite fold_left_app. cbn [fold_left]. rewrite E. reflexivity.
    + rewrite app_nil_r. reflexivity.
  - rewrite andb_false_r, app_nil_r. reflexivity.
Qed.

Lemma pnl_employeeCosts_snoc (employees : list Employee.t) (e : Employee.t) (months : Z) :
  Pnl.employeeCosts (employees ++ [e]) months
  = if strictEq (Employee.status e) "active"
    then (Pnl.employeeCosts employees months
          + Spec.monthlyEmployerCost e * JS.num months)%float
    else Pnl.employeeCosts employees months.
Proof.
  unfold Pnl.employeeCosts. rewrite filter_app. cbn [filter].
  destruct (strictEq (Employee.status e) "active").
  - rewrite fold_left_app. cbn [fold_left]. f_equal. f_equal.
    unfold Spec.monthlyEmployerCost, Spec.cpf, Payroll.cpf, Payroll.levy, Payroll.salary.
    destruct (strictEq (Employee.workerType e) "local"); reflexivity.
  - rewrite app_nil_r. reflexivity.
Qed.

Lemma pnl_subcontractorCosts_prorated (routes : list Route.t) (months : Z) :
  Pnl.subcontractorCosts routes months = proratedSubcontracting months routes.
Proof.
  unfold Pnl.subcontractorCosts, proratedSubcontracting. rewrite fold_left_filter.
  apply fold_left_ext. intros acc r. unfold strictEq.
  destruct (Route.subcontractorCost r);
    [rewrite andb_true_r | rewrite andb_false_r]; reflexivity.
Qed.

Lemma pnl_employeeCosts_prorated (employees : list Employee.t) (months : Z) :
  Pnl.employeeCosts employees months = proratedPayroll months employees.
Proof.
  unfold Pnl.employeeCosts, proratedPayroll. rewrite fold_left_filter.
  apply fold_left_ext. intros acc e. unfold strictEq. cbv zeta.
  unfold Spec.monthlyEmployerCost, Spec.cpf, Payroll.cpf, Payroll.levy, Payroll.salary,
    strictEq.
  destruct (String.eqb (Employee.status e) "active"); [|reflexivity].
  destruct (String.eqb (Employee.workerType e) "local"); reflexivity.
Qed.

(** The pro-rated costs of the report, from the rows the handler reads. *)
Lemma pnl_prorated (env : Env) (db : Database) (from to : Civil.t) :
  exists r : Pnl.Report.t,
    Pnl.handler env (DatabaseStorage db) (Some from) (Some to) = Json r
    /\ Pnl.Report.period r = Pnl.Period.mk from to
    /\ Pnl.Expenses.subcontractorCosts (Pnl.Report.expenses r)
       = Pnl.subcontractorCosts (resolved (getRoutes (DatabaseStorage db)))
           (Pnl.monthsInPeriod (tz env) from to)
    /\ Pnl.Expenses.employeeCosts (Pnl.Report.expenses r)
       = Pnl.employeeCosts (resolved (getEmployees (DatabaseStorage db)))
           (Pnl.monthsInPeriod (tz env) from to).
Proof. eexists. repeat split. Qed.

(** On a server at or east of Greenwich the month count of a P&L period is
    [(to.year - from.year) * 12 + (to.month - from.month) + 1], whatever the
    days of the two dates: 1 for a period that starts and ends on the same
    date, 12 from 2024-01-01 to 2024-12-31, 3 from 2024-01-15 to 2024-03-01.
    The report multiplies by it the cost of every active subcontracted route
    that has one and the monthly employer cost of every active employee. *)
Lemma prorating_east_of_greenwich (env : Env) (db : Database) (from to : Civil.t) :
  0 <= tz env < 1440 ->
  Pnl.monthsInPeriod (tz env) from to = Spec.monthsSpanned from to
  /\ Pnl.monthsInPeriod (tz env) from from = 1
  /\ Pnl.monthsInPeriod (tz env) (Civil.mk 2024 1 1) (Civil.mk 2024 12 31) = 12
  /\ Pnl.monthsInPeriod (tz env) (Civil.mk 2024 1 15) (Civil.mk 2024 3 1) = 3
  /\ (exists r : Pnl.Report.t,
        Pnl.handler env (DatabaseStorage db) (Some from) (Some to) = Json r
        /\ Pnl.Expenses.subcontractorCosts (Pnl.Report.expenses r)
           = Pnl.subcontractorCosts (resolved (getRoutes (DatabaseStorage db)))
               (Spec.monthsSpanned from to)
        /\ Pnl.Expenses.employeeCosts (Pnl.Report.expenses r)
           = Pnl.employeeCosts (resolved (getEmployees (DatabaseStorage db)))
               (Spec.monthsSpanned from to))
  /\ (forall routes r c months,
        Route.routeType r = "subcontracted"%string -> Route.status r = "active"%string ->
        Route.subcontractorCost r = Some c ->
        Pnl.subcontractorCosts (routes ++ [r]) months
        = (Pnl.subcontractorCosts routes months + JS.parseFloat c * JS.num months)%float)
  /\ (forall employees e months,
        Employee.status e = "active"%string ->
        Pnl.employeeCosts (employees ++ [e]) months
        = (Pnl.employeeCosts employees months
           + Spec.monthlyEmployerCost e * JS.num months)%float).
Proof.
  intros Htz.
  assert (Heast : forall a b, Pnl.monthsInPeriod (tz env) a b = Spec.monthsSpanned a b)
    by (intros a b; apply monthsInPeriod_east; lia).
  split; [apply Heast|].
  split; [apply monthsInPeriod_same|].
  split; [rewrite Heast; reflexivity|].
  split; [rewrite Heast; reflexivity|].
  split.
  - destruct (pnl_prorated env db from to) as (r & Hr & _ & Hsub & Hemp).
    exists r. rewrite <- Heast. repeat split; assumption.
  - split.
    + intros routes r c months Hty Hst Hc.
      rewrite pnl_subcontractorCosts_snoc, Hc, Hty, Hst. reflexivity.
    + intros employees e months Hst.
      rewrite pnl_employeeCosts_snoc, Hst. reflexivity.
Qed.

(** C5.  West of Greenwich the month count is not the one of the two dates.
    The handler reads [from] and [to] as midnight UTC and takes the year and
    the month of the readings on the server's clock, where that instant falls
    on the day before: on every such server the period 2024-01-01 to
    2024-12-31 counts 13 months, not 12, and 2024-01-15 to 2024-03-01 counts
    2, not 3.  At UTC-5 the report of 2024 charges a lone active local
    employee at 3000 thirteen months of 3510, 45630, where twelve months are
    42120. *)
Theorem months_counted_west_of_greenwich :
  Spec.monthsSpanned (Civil.mk 2024 1 1) (Civil.mk 2024 12 31) = 12
  /\ Spec.monthsSpanned (Civil.mk 2024 1 15) (Civil.mk 2024 3 1) = 3
  /\ (forall zone : Z, -720 <= zone < 0 ->
        Pnl.monthsInPeriod zone (Civil.mk 2024 1 1) (Civil.mk 2024 12 31) = 13
        /\ Pnl.monthsInPeriod zone (Civil.mk 2024 1 15) (Civil.mk 2024 3 1) = 2)
  /\ (exists r : Pnl.Report.t,
        Pnl.handler (mkEnv (-300) Sample.jan2024) (DatabaseStorage Sample.oneRouteOneEmployee)
          (Some (Civil.mk 2024 1 1)) (Some (Civil.mk 2024 12 31)) = Json r
        /\ Pnl.Report.period r = Pnl.Period.mk (Civil.mk 2024 1 1) (Civil.mk 2024 12 31)
        /\ Pnl.Expenses.employeeCosts (Pnl.Report.expenses r) = 45630%float)
  /\ (Spec.monthlyEmployerCost Sample.local3000 * 12 = 42120)%float.
Proof.
  split; [reflexivity|]. split; [reflexivity|]. split; [|split].
  - intros zone Hzone. unfold Pnl.monthsInPeriod, JS.Date.parse.
    destruct (Z.leb_spec 0 zone) as [H|_]; [lia|]. split; reflexivity.
  - eexists. split; [reflexivity|]. split; [reflexivity|]. vm_compute. reflexivity.
  - reflexivity.
Qed.

(** ** Insurance pro-rating *)

(** On a UTC server the insurance due in a forecast month is what the rows
    active on the first of that month share of their premiums. *)
Lemma vehicleInsurance_utc (y m : Z) (insurance : list VehicleInsurance.t) :
  CashFlow.vehicleInsurance Spec.UTC (JS.Date.ofLocalMonth y m) insurance
  = fold_left (insuranceShare (Spec.firstOfMonth y m)) insurance 0%float.
Proof.
  unfold CashFlow.vehicleInsurance. rewrite fold_left_filter.
  apply fold_left_ext. intros sum ins. unfold insuranceShare, Spec.within.
  rewrite leb_parse_month, leb_month_parse.
  destruct (Civil.leb _ _ && Civil.leb _ _); [|reflexivity].
  change ((JS.Date.getFullYear (JS.Date.parse Spec.UTC (VehicleInsurance.endDate ins))
           - JS.Date.getFullYear (JS.Date.parse Spec.UTC (VehicleInsurance.startDate ins))) * 12
          + (JS.Date.getMonth (JS.Date.parse Spec.UTC (VehicleInsurance.endDate ins))
             - JS.Date.getMonth (JS.Date.parse Spec.UTC (VehicleInsurance.startDate ins))) + 1)
    with (Pnl.monthsInPeriod Spec.UTC (VehicleInsurance.startDate ins)
            (VehicleInsurance.endDate ins)).
  rewrite monthsInPeriod_east by (unfold Spec.UTC; lia). reflexivity.
Qed.

Lemma policy2024_share (y m : Z) :
  CashFlow.vehicleInsurance Spec.UTC (JS.Date.ofLocalMonth y m) [Sample.policy2024]
  = if Spec.within (Civil.mk 2024 1 1) (Civil.mk 2024 12 31) (Spec.firstOfMonth y m)
    then 200%float else 0%float.
Proof.
  rewrite vehicleInsurance_utc. cbn [fold_left]. unfold insuranceShare.
  cbn [VehicleInsurance.startDate VehicleInsurance.endDate Sample.policy2024].
  destruct (Spec.within _ _ _); reflexivity.
Qed.

Lemma within_2024 (i : Z) :
  0 <= i < 12 ->
  Spec.within (Civil.mk 2024 1 1) (Civil.mk 2024 12 31) (Spec.firstOfMonth 2024 i) = true.
Proof.
  intro H. unfold Spec.within, Civil.leb, Civil.compare, Spec.firstOfMonth.
  cbn [Civil.year Civil.month Civil.day].
  rewrite Z.div_small, Z.mod_small by lia.
  replace (2024 + 0) with 2024 by lia. rewrite Z.compare_refl.
  destruct (Z.compare_spec 1 (i + 1)); destruct (Z.compare_spec (i + 1) 12);
    try reflexivity; lia.
Qed.

(** The insurance detail and the outflows of the rows of a forecast. *)
Lemma forecast_rows (env : Env) (db : Database) (period : option Z) :
  exists f : CashFlow.Forecast.t,
    CashFlow.handler env (DatabaseStorage db) period = Json f
    /\ RowsInv env (inputsOf db) (CashFlow.Forecast.months f).
Proof.
  pose proof (forecast_of_loop env db period) as Hf. cbv zeta in Hf.
  eexists. split; [exact Hf|]. apply loop_rows.
Qed.

(** On a UTC server, the insurance due in the forecast month that starts on
    day [M] is the sum over the insurance rows of what each contributes: its
    premium divided by the months its own term spans when [M] lies within
    [[startDate, endDate]], ends included, and nothing otherwise; that sum is
    the insurance detail of the row of the month and one of the six terms of
    its outflows.  A premium of 2400 over 2024-01-01 .. 2024-12-31 contributes
    exactly 200 to each of the twelve months of 2024 and 0 to any month
    outside the term. *)
Lemma insurance_prorating_utc :
  (forall (y m : Z) (insurance : list VehicleInsurance.t),
     CashFlow.vehicleInsurance Spec.UTC (JS.Date.ofLocalMonth y m) insurance
     = fold_left (insuranceShare (Spec.firstOfMonth y m)) insurance 0%float)
  /\ (forall (clock : JS.Date.t) (db : Database) (period : option Z),
        exists f : CashFlow.Forecast.t,
          CashFlow.handler (mkEnv Spec.UTC clock) (DatabaseStorage db) period = Json f
          /\ List.length (CashFlow.Forecast.months f)
             = Z.to_nat (CashFlow.periodMonths period)
          /\ forall i row, nth_error (CashFlow.Forecast.months f) i = Some row ->
               CashFlow.Details.vehicleInsurance (CashFlow.MonthRow.details row)
               = fold_left
                   (insuranceShare
                      (Spec.firstOfMonth (JS.Date.getFullYear clock)
                         (JS.Date.getMonth clock + Z.of_nat i)))
                   (vehicleInsurance db) 0%float
               /\ CashFlow.MonthRow.outflows row
                  = (CashFlow.Details.vehicleInstallments (CashFlow.MonthRow.details row)
                     + CashFlow.Details.vehicleInsurance (CashFlow.MonthRow.details row)
                     + CashFlow.Details.vehicleParking (CashFlow.MonthRow.details row)
                     + CashFlow.Details.employeeCosts (CashFlow.MonthRow.details row)
                     + CashFlow.Details.subcontractorCosts (CashFlow.MonthRow.details row)
                     + CashFlow.Details.recurringExpenses (CashFlow.MonthRow.details row))%float)
  /\ (forall i : Z, 0 <= i < 12 ->
        CashFlow.vehicleInsurance Spec.UTC (JS.Date.ofLocalMonth 2024 i) [Sample.policy2024]
        = 200%float)
  /\ (forall y m : Z,
        Spec.within (Civil.mk 2024 1 1) (Civil.mk 2024 12 31) (Spec.firstOfMonth y m) = false ->
        CashFlow.vehicleInsurance Spec.UTC (JS.Date.ofLocalMonth y m) [Sample.policy2024]
        = 0%float).
Proof.
  split; [exact vehicleInsurance_utc|]. split; [|split].
  - intros clock db period.
    destruct (forecast_rows (mkEnv Spec.UTC clock) db period) as (f & Hf & Hrows).
    exists f. split; [exact Hf|]. split.
    { destruct (forecast_balance (mkEnv Spec.UTC clock) db period) as (f' & Hf' & Hlen & _).
      rewrite Hf in Hf'. injection Hf' as <-. exact Hlen. }
    intros i row Hrow.
    destruct (Hrows i row Hrow) as (_ & Hins & Hout).
    split; [|exact Hout].
    rewrite Hins. unfold rowDate. cbn [tz now]. apply vehicleInsurance_utc.
  - intros i Hi. rewrite policy2024_share, within_2024 by exact Hi. reflexivity.
  - intros y m Hout. rewrite policy2024_share, Hout. reflexivity.
Qed.

(** C3.  East of Greenwich a policy is not charged in the month it starts
    in when it starts on the first.  The forecast month is midnight of its
    first day on the server's clock, the start of the policy is midnight UTC
    of its date, which is later: the month is not yet in the window.  The
    policy of the specification's example, 2400 over 2024-01-01 ..
    2024-12-31, contributes 0 to January 2024 on every such server, though January 2024 lies within its
    term and its share of the month is 200; a forecast of twelve months made
    in January 2024 at UTC+8 reports insurance of 0 in its first row and 200
    in the eleven others, and of 200 in all twelve at UTC. *)
Theorem insurance_skips_first_month_east_of_greenwich :
  Spec.within (VehicleInsurance.startDate Sample.policy2024)
    (VehicleInsurance.endDate Sample.policy2024) (Spec.firstOfMonth 2024 0) = true
  /\ insuranceShare (Spec.firstOfMonth 2024 0) 0 Sample.policy2024 = 200%float
  /\ (forall zone : Z, 0 < zone <= 840 ->
        CashFlow.vehicleInsurance zone (JS.Date.ofLocalMonth 2024 0) [Sample.policy2024]
        = 0%float)
  /\ (exists f : CashFlow.Forecast.t,
        CashFlow.handler (mkEnv 480 Sample.jan2024) (DatabaseStorage insuredLedger) (Some 12)
        = Json f
        /\ map CashFlow.MonthRow.month (CashFlow.Forecast.months f)
           = map (JS.Date.ofLocalMonth 2024) [0; 1; 2; 3; 4; 5; 6; 7; 8; 9; 10; 11]
        /\ insuranceDetails f = 0%float :: repeat 200%float 11
        /\ map CashFlow.MonthRow.outflows (CashFlow.Forecast.months f)
           = 0%float :: repeat 200%float 11)
  /\ (exists f : CashFlow.Forecast.t,
        CashFlow.handler (mkEnv Spec.UTC Sample.jan2024) (DatabaseStorage insuredLedger)
          (Some 12) = Json f
        /\ insuranceDetails f = repeat 200%float 12).
Proof.
  split; [reflexivity|]. split; [reflexivity|]. split; [|split].
  - intros zone Hzone. unfold CashFlow.vehicleInsurance. cbn [filter]. cbv zeta.
    rewrite parse_east by lia.
    replace (JS.Date.leb
               (JS.Date.mk (Civil.year (VehicleInsurance.startDate Sample.policy2024))
                  (Civil.month (VehicleInsurance.startDate Sample.policy2024) - 1)
                  (Civil.day (VehicleInsurance.startDate Sample.policy2024)) zone)
               (JS.Date.ofLocalMonth 2024 0)) with false; [reflexivity|].
    unfold JS.Date.leb, JS.Date.compare. cbn.
    destruct (Z.compare_spec zone 0); [lia | lia | reflexivity].
  - eexists. split; [reflexivity|]. vm_compute. repeat split.
  - eexists. split; [reflexivity|]. vm_compute. reflexivity.
Qed.

(** ** Payroll cost *)

Lemma dashboard_employee_snoc (employees : list Employee.t) (e : Employee.t) :
  Dashboard.monthlyEmployeeCosts (employees ++ [e])
  = if strictEq (Employee.status e) "active"
    then (Dashboard.monthlyEmployeeCosts employees + JS.parseFloat (Employee.salary e)
          + (if strictEq (Employee.workerType e) "local"
             then Spec.cpf (JS.parseFloat (Employee.salary e))
             else match Employee.foreignWorkerLevy e with
                  | Some l => JS.parseFloat l
                  | None => 0
                  end))%float
    else Dashboard.monthlyEmployeeCosts employees.
Proof.
  unfold Dashboard.monthlyEmployeeCosts. rewrite filter_app. cbn [filter].
  destruct (strictEq (Employee.status e) "active").
  - rewrite fold_left_app. cbn [fold_left].
    unfold Spec.cpf, Payroll.cpf, Payroll.levy, Payroll.salary.
    destruct (strictEq (Employee.workerType e) "local"); reflexivity.
  - rewrite app_nil_r. reflexivity.
Qed.

Lemma cashflow_employee_snoc (employees : list Employee.t) (e : Employee.t) :
  CashFlow.employeeCosts (employees ++ [e])
  = if strictEq (Employee.status e) "active"
    then (CashFlow.employeeCosts employees + JS.parseFloat (Employee.salary e)
          + (if strictEq (Employee.workerType e) "local"
             then Spec.cpf (JS.parseFloat (Employee.salary e))
             else match Employee.foreignWorkerLevy e with
                  | Some l => JS.parseFloat l
                  | None => 0
                  end))%float
    else CashFlow.employeeCosts employees.
Proof.
  unfold CashFlow.employeeCosts. rewrite filter_app. cbn [filter].
  destruct (strictEq (Employee.status e) "active").
  - rewrite fold_left_app. cbn [fold_left].
    unfold Spec.cpf, Payroll.cpf, Payroll.levy, Payroll.salary.
    destruct (strictEq (Employee.workerType e) "local"); reflexivity.
  - rewrite app_nil_r. reflexivity.
Qed.

(** C4, as the code has it.  Each reducer over employees adds, for an active
    employee, the salary and then 17% of it for a local worker, or the levy
    (0 when unset) for any other worker; the P&L adds their sum times the
    month count; an inactive employee adds nothing.  On the server's binary64
    numbers [cpf(3000)] is 510.00000000000006, while a lone active local
    employee at 3000 costs exactly 3510 a month and a lone active foreign one
    at 2200 with a levy of 450 exactly 2650. *)
Theorem employer_cost_binary64 (employees : list Employee.t) (e : Employee.t) (months : Z) :
  (Dashboard.monthlyEmployeeCosts (employees ++ [e])
   = if strictEq (Employee.status e) "active"
     then (Dashboard.monthlyEmployeeCosts employees + JS.parseFloat (Employee.salary e)
           + (if strictEq (Employee.workerType e) "local"
              then Spec.cpf (JS.parseFloat (Employee.salary e))
              else match Employee.foreignWorkerLevy e with
                   | Some l => JS.parseFloat l
                   | None => 0
                   end))%float
     else Dashboard.monthlyEmployeeCosts employees)
  /\ (CashFlow.employeeCosts (employees ++ [e])
      = if strictEq (Employee.status e) "active"
        then (CashFlow.employeeCosts employees + JS.parseFloat (Employee.salary e)
              + (if strictEq (Employee.workerType e) "local"
                 then Spec.cpf (JS.parseFloat (Employee.salary e))
                 else match Employee.foreignWorkerLevy e with
                      | Some l => JS.parseFloat l
                      | None => 0
                      end))%float
        else CashFlow.employeeCosts employees)
  /\ (Pnl.employeeCosts (employees ++ [e]) months
      = if strictEq (Employee.status e) "active"
        then (Pnl.employeeCosts employees months
              + Spec.monthlyEmployerCost e * JS.num months)%float
        else Pnl.employeeCosts employees months)
  /\ (Employee.workerType e = "local"%string -> Employee.salary e = 300000 ->
      Payroll.cpf e = Spec.above510
      /\ Spec.monthlyEmployerCost e = 3510%float
      /\ (Employee.status e = "active"%string ->
          Dashboard.monthlyEmployeeCosts [e] = 3510%float
          /\ CashFlow.employeeCosts [e] = 3510%float
          /\ Pnl.employeeCosts [e] 1 = 3510%float))
  /\ (Employee.workerType e = "foreign"%string -> Employee.salary e = 220000 ->
      Employee.foreignWorkerLevy e = Some 45000 ->
      Spec.monthlyEmployerCost e = 2650%float
      /\ (Employee.status e = "active"%string ->
          Dashboard.monthlyEmployeeCosts [e] = 2650%float
          /\ CashFlow.employeeCosts [e] = 2650%float
          /\ Pnl.employeeCosts [e] 1 = 2650%float)).
Proof.
  split; [apply dashboard_employee_snoc|].
  split; [apply cashflow_employee_snoc|].
  split; [apply pnl_employeeCosts_snoc|].
  split.
  - intros Hwt Hsal. split; [|split].
    + unfold Payroll.cpf, Payroll.salary. rewrite Hwt, Hsal. reflexivity.
    + unfold Spec.monthlyEmployerCost. rewrite Hwt, Hsal. reflexivity.
    + intros Hst.
      pose proof (dashboard_employee_snoc [] e) as Hd.
      pose proof (cashflow_employee_snoc [] e) as Hc.
      pose proof (pnl_employeeCosts_snoc [] e 1) as Hp.
      cbn [app] in Hd, Hc, Hp. rewrite Hd, Hc, Hp.
      unfold Spec.monthlyEmployerCost. rewrite Hst, Hwt, Hsal.
      repeat split.
  - intros Hwt Hsal Hlevy. split.
    + unfold Spec.monthlyEmployerCost. rewrite Hwt, Hsal, Hlevy. reflexivity.
    + intros Hst.
      pose proof (dashboard_employee_snoc [] e) as Hd.
      pose proof (cashflow_employee_snoc [] e) as Hc.
      pose proof (pnl_employeeCosts_snoc [] e 1) as Hp.
      cbn [app] in Hd, Hc, Hp. rewrite Hd, Hc, Hp.
      unfold Spec.monthlyEmployerCost. rewrite Hst, Hwt, Hsal, Hlevy.
      repeat split.
Qed.

Lemma employer_cost_binary64_witness :
  Payroll.cpf Sample.local3000 = Spec.above510
  /\ Dashboard.monthlyEmployeeCosts [Sample.local3000] = 3510%float
  /\ Spec.monthlyEmployerCost Sample.foreign2200 = 2650%float.
Proof.
  destruct (employer_cost_binary64 [] Sample.local3000 1) as (_ & _ & _ & Hl & _).
  destruct (employer_cost_binary64 [] Sample.foreign2200 1) as (_ & _ & _ & _ & Hf).
  destruct Hl as (Hcpf & _ & Hd); [reflexivity | reflexivity |].
  destruct Hf as (Hm & _); [reflexivity | reflexivity | reflexivity |].
  destruct Hd as (Hd & _); [reflexivity|].
  repeat split; assumption.
Defined.

(** C4 as stated fails: the CPF the server computes on a salary of 3000 is
    not 510.00. *)
Lemma cpf_3000_is_not_510 :
  Payroll.cpf Sample.local3000 <> 510%float
  /\ Spec.cpf (JS.parseFloat 300000) <> 510%float.
Proof.
  split; intro H;
    apply (f_equal (fun x => PrimFloat.eqb x 510%float)) in H;
    vm_compute in H; discriminate H.
Qed.

(** ** Range checks *)

Lemma pnl_rejected (env : Env) (storage : IStorage) (from to : Civil.t) :
  Spec.rejected (Pnl.handler env storage (Some from) (Some to))
  <-> getIncomeByPeriod storage from to = None
      \/ getExpensesByPeriod storage from to = None
      \/ getCustomers storage = None
      \/ getRoutes storage = None
      \/ getEmployees storage = None
      \/ getExpenseCategories storage = None.
Proof.
  unfold Pnl.handler. rewrite respond_rejected. unfold Pnl.report, await.
  destruct (getIncomeByPeriod storage from to); [|intuition].
  destruct (getExpensesByPeriod storage from to); [|intuition].
  destruct (getCustomers storage); [|intuition].
  destruct (getRoutes storage); [|intuition].
  destruct (getEmployees storage); [|intuition].
  destruct (getExpenseCategories storage); [|intuition].
  split; [discriminate | intuition discriminate].
Qed.

Lemma cashflow_rejected (env : Env) (storage : IStorage) (period : option Z) :
  Spec.rejected (CashFlow.handler env storage period)
  <-> getRoutes storage = None
      \/ getEmployees storage = None
      \/ getAllVehicleInstallments storage = None
      \/ getAllVehicleInsurance storage = None
      \/ getAllVehicleParking storage = None
      \/ getExpenses storage = None.
Proof.
  unfold CashFlow.handler. rewrite respond_rejected. unfold CashFlow.forecast, await.
  destruct (getRoutes storage); [|intuition].
  destruct (getEmployees storage); [|intuition].
  destruct (getAllVehicleInstallments storage); [|intuition].
  destruct (getAllVehicleInsurance storage); [|intuition].
  destruct (getAllVehicleParking storage); [|intuition].
  destruct (getExpenses storage); [|intuition].
  destruct (CashFlow.loop _ _ _).
  split; [discriminate | intuition discriminate].
Qed.

Lemma forecast_negative (env : Env) (db : Database) (n : Z) :
  n < 0 ->
  CashFlow.handler env (DatabaseStorage db) (Some n)
  = Json {| CashFlow.Forecast.months := [];
            CashFlow.Forecast.summary := CashFlow.Summary.mk 0 0 0 0 |}.
Proof.
  intro Hn. rewrite forecast_of_loop. cbv zeta.
  destruct n as [|p|p]; [lia | lia |]. reflexivity.
Qed.

(** The report of a storage whose six reads resolve, with its pro-rated costs
    on the rows read. *)
Lemma pnl_answered (env : Env) (storage : IStorage) (from to : Civil.t)
    (income : list IncomeRecord.t) (expenses : list Expense.t) (customers : list Customer.t)
    (routes : list Route.t) (employees : list Employee.t)
    (categories : list ExpenseCategory.t) :
  getIncomeByPeriod storage from to = Some income ->
  getExpensesByPeriod storage from to = Some expenses ->
  getCustomers storage = Some customers ->
  getRoutes storage = Some routes ->
  getEmployees storage = Some employees ->
  getExpenseCategories storage = Some categories ->
  exists r : Pnl.Report.t,
    Pnl.handler env storage (Some from) (Some to) = Json r
    /\ Pnl.Report.period r = Pnl.Period.mk from to
    /\ Pnl.Expenses.subcontractorCosts (Pnl.Report.expenses r)
       = proratedSubcontracting (Pnl.monthsInPeriod (tz env) from to) routes
    /\ Pnl.Expenses.employeeCosts (Pnl.Report.expenses r)
       = proratedPayroll (Pnl.monthsInPeriod (tz env) from to) employees.
Proof.
  intros Hincome Hexpenses Hcustomers Hroutes Hemployees Hcategories.
  unfold Pnl.handler, Pnl.report, await.
  rewrite Hincome, Hexpenses, Hcustomers, Hroutes, Hemployees, Hcategories.
  cbn [respond]. eexists. split; [reflexivity|].
  cbn [Pnl.Report.period Pnl.Report.expenses Pnl.Expenses.subcontractorCosts
       Pnl.Expenses.employeeCosts].
  split; [reflexivity|].
  split; [apply pnl_subcontractorCosts_prorated | apply pnl_employeeCosts_prorated].
Qed.

(** C6, as the code has it.  Neither handler checks its range.  A P&L
    request whose six reads resolve is answered with a report for any two
    dates, also when [to] is before [from], as the database's reads do for any
    two calendar dates; the report multiplies the cost of every active
    subcontracted route that has one and the monthly employer cost of every
    active employee by the month count of the handler whatever its sign,
    which on a server at or east of UTC is
    [(to.year - from.year) * 12 + (to.month - from.month) + 1].  The forecast
    handler answers a forecast for any [period]: six months for 0 or for a
    parameter that is not a number, the [period] rows asked for otherwise,
    and no row and a summary of zeros for a negative one.  A handler answers
    an error exactly when one of its reads rejects. *)
Theorem range_not_checked (env : Env) (db : Database) :
  (forall (storage : IStorage) (from to : Civil.t)
          (income : list IncomeRecord.t) (expenses : list Expense.t)
          (customers : list Customer.t) (routes : list Route.t)
          (employees : list Employee.t) (categories : list ExpenseCategory.t),
     getIncomeByPeriod storage from to = Some income ->
     getExpensesByPeriod storage from to = Some expenses ->
     getCustomers storage = Some customers ->
     getRoutes storage = Some routes ->
     getEmployees storage = Some employees ->
     getExpenseCategories storage = Some categories ->
     exists r : Pnl.Report.t,
       Pnl.handler env storage (Some from) (Some to) = Json r
       /\ Pnl.Report.period r = Pnl.Period.mk from to
       /\ Pnl.Expenses.subcontractorCosts (Pnl.Report.expenses r)
          = proratedSubcontracting (Pnl.monthsInPeriod (tz env) from to) routes
       /\ Pnl.Expenses.employeeCosts (Pnl.Report.expenses r)
          = proratedPayroll (Pnl.monthsInPeriod (tz env) from to) employees)
  /\ (forall from to : Civil.t,
        calendarDate from -> calendarDate to ->
        exists r : Pnl.Report.t,
          Pnl.handler env (DatabaseStorage db) (Some from) (Some to) = Json r
          /\ Pnl.Report.period r = Pnl.Period.mk from to)
  /\ (0 <= tz env ->
      forall from to : Civil.t,
        Pnl.monthsInPeriod (tz env) from to = Spec.monthsSpanned from to)
  /\ (forall period : option Z,
        exists f : CashFlow.Forecast.t,
          CashFlow.handler env (DatabaseStorage db) period = Json f
          /\ List.length (CashFlow.Forecast.months f)
             = Z.to_nat (CashFlow.periodMonths period))
  /\ CashFlow.periodMonths (Some 0) = 6
  /\ CashFlow.periodMonths None = 6
  /\ (forall n : Z, n <> 0 -> CashFlow.periodMonths (Some n) = n)
  /\ (forall n : Z, n < 0 ->
        CashFlow.handler env (DatabaseStorage db) (Some n)
        = Json {| CashFlow.Forecast.months := [];
                  CashFlow.Forecast.summary := CashFlow.Summary.mk 0 0 0 0 |})
  /\ (forall (storage : IStorage) (from to : Civil.t),
        Spec.rejected (Pnl.handler env storage (Some from) (Some to))
        <-> getIncomeByPeriod storage from to = None
            \/ getExpensesByPeriod storage from to = None
            \/ getCustomers storage = None
            \/ getRoutes storage = None
            \/ getEmployees storage = None
            \/ getExpenseCategories storage = None)
  /\ (forall (storage : IStorage) (period : option Z),
        Spec.rejected (CashFlow.handler env storage period)
        <-> getRoutes storage = None
            \/ getEmployees storage = None
            \/ getAllVehicleInstallments storage = None
            \/ getAllVehicleInsurance storage = None
            \/ getAllVehicleParking storage = None
            \/ getExpenses storage = None).
Proof.
  split; [intros storage from to; intros; eapply pnl_answered; eassumption|].
  split.
  { intros from to _ _. destruct (pnl_prorated env db from to) as (r & Hr & Hperiod & _).
    exists r. split; assumption. }
  split; [intros Htz from to; apply monthsInPeriod_east; exact Htz|].
  split.
  { intros period. destruct (forecast_balance env db period) as (f & Hf & Hlen & _).
    exists f. split; assumption. }
  split; [reflexivity|]. split; [reflexivity|].
  split.
  { intros n Hn. unfold CashFlow.periodMonths.
    destruct (Z.eqb_spec n 0); [contradiction | reflexivity]. }
  split; [intros n Hn; apply forecast_negative, Hn|].
  split; [apply pnl_rejected | apply cashflow_rejected].
Qed.

(** A request from 2024-03-01 to 2024-01-31 on a UTC server: a month count of
    -1, and the one active employee charged -3510; a forecast of -3 months:
    no row. *)
Lemma range_not_checked_witness :
  (exists r : Pnl.Report.t,
     Pnl.handler Sample.utc (DatabaseStorage Sample.oneRouteOneEmployee)
       (Some (Civil.mk 2024 3 1)) (Some (Civil.mk 2024 1 31)) = Json r
     /\ Pnl.Expenses.employeeCosts (Pnl.Report.expenses r)
        = proratedPayroll (Spec.monthsSpanned (Civil.mk 2024 3 1) (Civil.mk 2024 1 31))
            [Sample.local3000])
  /\ Spec.monthsSpanned (Civil.mk 2024 3 1) (Civil.mk 2024 1 31) = -1
  /\ proratedPayroll (-1) [Sample.local3000] = (-3510)%float
  /\ CashFlow.periodMonths (Some (-3)) = -3
  /\ CashFlow.handler Sample.utc (DatabaseStorage Sample.oneRouteOneEmployee) (Some (-3))
     = Json {| CashFlow.Forecast.months := [];
               CashFlow.Forecast.summary := CashFlow.Summary.mk 0 0 0 0 |}.
Proof.
  destruct (range_not_checked Sample.utc Sample.oneRouteOneEmployee)
    as (Hpnl & _ & Heast & _ & _ & _ & Hn & Hneg & _).
  split.
  { destruct (Hpnl (DatabaseStorage Sample.oneRouteOneEmployee)
                (Civil.mk 2024 3 1) (Civil.mk 2024 1 31) _ _ _ _ _ _
                eq_refl eq_refl eq_refl eq_refl eq_refl eq_refl)
      as (r & Hr & _ & _ & Hemp).
    exists r. split; [exact Hr|].
    rewrite <- (Heast ltac:(unfold Sample.utc, Spec.UTC; cbn; lia)). exact Hemp. }
  split; [reflexivity|]. split; [vm_compute; reflexivity|].
  split; [apply Hn; lia | apply Hneg; lia].
Defined.

(** C6 as stated fails: a P&L request whose [to] is before its [from] is
    answered with a report, computed with a month count of -1 into employee
    costs of -3510, and forecast requests for -3 and for 0 months are answered
    with forecasts. *)
Lemma reversed_range_is_answered :
  Civil.compare (Civil.mk 2024 1 31) (Civil.mk 2024 3 1) = Lt
  /\ ~ Spec.rejected
         (Pnl.handler Sample.utc (DatabaseStorage Sample.oneRouteOneEmployee)
            (Some (Civil.mk 2024 3 1)) (Some (Civil.mk 2024 1 31)))
  /\ Pnl.monthsInPeriod Spec.UTC (Civil.mk 2024 3 1) (Civil.mk 2024 1 31) = -1
  /\ (exists r : Pnl.Report.t,
        Pnl.handler Sample.utc (DatabaseStorage Sample.oneRouteOneEmployee)
          (Some (Civil.mk 2024 3 1)) (Some (Civil.mk 2024 1 31)) = Json r
        /\ Pnl.Expenses.employeeCosts (Pnl.Report.expenses r) = (-3510)%float)
  /\ ~ Spec.rejected
         (CashFlow.handler Sample.utc (DatabaseStorage Sample.oneRouteOneEmployee) (Some (-3)))
  /\ ~ Spec.rejected
         (CashFlow.handler Sample.utc (DatabaseStorage Sample.oneRouteOneEmployee) (Some 0)).
Proof.
  split; [reflexivity|].
  split.
  { rewrite pnl_rejected. cbn. intuition discriminate. }
  split; [reflexivity|].
  split.
  { eexists. split; [reflexivity|]. vm_compute. reflexivity. }
  split; rewrite cashflow_rejected; cbn; intuition discriminate.
Qed.

(** ** Dashboard: month and year to date *)

Lemma leb_jan1 (y : Z) (d : Civil.t) :
  Civil.valid d -> Civil.leb (Civil.mk y 1 1) d = (y <=? Civil.year d).
Proof.
  intro Hd. pose proof (valid_day d Hd) as Hdd. destruct Hd as (_ & Hm & _).
  unfold Civil.leb, Civil.compare. cbn [Civil.year Civil.month Civil.day].
  destruct (Z.compare_spec y (Civil.year d));
    destruct (Z.compare_spec 1 (Civil.month d));
    destruct (Z.compare_spec 1 (Civil.day d));
    destruct (Z.leb_spec y (Civil.year d)); try reflexivity; lia.
Qed.

(** The payroll the dashboard adds is the monthly employer cost of the active
    employees. *)
Lemma dashboard_payroll (employees : list Employee.t) :
  Dashboard.monthlyEmployeeCosts employees = monthlyPayroll employees.
Proof.
  unfold Dashboard.monthlyEmployeeCosts, monthlyPayroll. rewrite fold_left_filter.
  apply fold_left_ext. intros acc e. cbv zeta.
  unfold Payroll.cpf, Payroll.levy, Payroll.salary, Spec.cpf, strictEq.
  destruct (String.eqb (Employee.status e) "active"); [|reflexivity].
  destruct (String.eqb (Employee.workerType e) "local"); reflexivity.
Qed.

(** C7.  In the dashboard statistics, the expenses of the month are the sum of
    the amounts of the expenses dated in the current month plus the monthly
    employer cost of the active employees, while the expenses of the year to
    date are the sum of the amounts of the expenses dated on or after
    1 January of the current year and nothing else; the net profit of the
    month is the income of the month minus those expenses minus that employer
    cost, and the net profit of the year to date is the income of the year to
    date minus the expenses of the year to date.  Sums are taken from 0 in the
    order of the rows read, on the server's numbers. *)
Theorem dashboard_month_and_ytd (env : Env) (storage : IStorage)
    (income : list IncomeRecord.t) (expenses : list Expense.t) (routes : list Route.t)
    (employees : list Employee.t) :
  getIncomeRecords storage = Some income ->
  getExpenses storage = Some expenses ->
  getRoutes storage = Some routes ->
  getEmployees storage = Some employees ->
  1000 <= JS.Date.getFullYear (now env) <= 9999 ->
  0 <= JS.Date.getMonth (now env) <= 11 ->
  (forall e, In e expenses -> Civil.valid (Expense.expenseDate e)) ->
  exists s : Dashboard.Stats,
    Dashboard.handler env storage = Json s
    /\ let y := JS.Date.getFullYear (now env) in
       let m := JS.Date.getMonth (now env) + 1 in
       let monthlyExpenses :=
         Spec.total
           (expenseAmounts
              (filter (fun e => (Civil.year (Expense.expenseDate e) =? y)
                                && (Civil.month (Expense.expenseDate e) =? m)) expenses)) in
       let ytdExpenses :=
         Spec.total
           (expenseAmounts
              (filter (fun e => Civil.leb (Civil.mk y 1 1) (Expense.expenseDate e))
                 expenses)) in
       Dashboard.totalExpensesMonth s = (monthlyExpenses + monthlyPayroll employees)%float
       /\ Dashboard.totalExpensesYTD s = ytdExpenses
       /\ Dashboard.netProfitMonth s
          = (Dashboard.totalIncomeMonth s - monthlyExpenses - monthlyPayroll employees)%float
       /\ Dashboard.netProfitYTD s = (Dashboard.totalIncomeYTD s - ytdExpenses)%float
       /\ Dashboard.totalIncomeMonth s
          = Spec.total
              (incomeAmounts
                 (filter (fun i => String.eqb (IncomeRecord.billingPeriod i) (JS.monthKey y m))
                    income))
       /\ Dashboard.totalIncomeYTD s
          = Spec.total
              (incomeAmounts
                 (filter (fun i =>
                            String.leb (JS.toString y ++ "-01") (IncomeRecord.billingPeriod i)
                            && String.leb (IncomeRecord.billingPeriod i) (JS.monthKey y m))
                    income)).
Proof.
  intros Hincome Hexpenses Hroutes Hemployees Hy Hm Hvalid.
  unfold Dashboard.handler, Dashboard.stats, await.
  rewrite Hincome, Hexpenses, Hroutes, Hemployees.
  cbn [respond].
  eexists. split; [reflexivity|]. cbv zeta.
  cbn [Dashboard.totalExpensesMonth Dashboard.totalExpensesYTD Dashboard.netProfitMonth
       Dashboard.netProfitYTD Dashboard.totalIncomeMonth Dashboard.totalIncomeYTD].
  assert (Hmonth :
            filter (fun e => JS.startsWith (JS.isoDate (Expense.expenseDate e))
                               (JS.monthKey (JS.Date.getFullYear (now env))
                                  (JS.Date.getMonth (now env) + 1))) expenses
            = filter (fun e => (Civil.year (Expense.expenseDate e)
                                =? JS.Date.getFullYear (now env))
                               && (Civil.month (Expense.expenseDate e)
                                   =? JS.Date.getMonth (now env) + 1)) expenses).
  { apply filter_ext_in. intros e He.
    apply startsWith_monthKey; [lia | lia | apply Hvalid, He]. }
  assert (Hytd :
            filter (fun e => String.leb
                               (JS.toString (JS.Date.getFullYear (now env)) ++ "-01-01")
                               (JS.isoDate (Expense.expenseDate e))) expenses
            = filter (fun e => Civil.leb (Civil.mk (JS.Date.getFullYear (now env)) 1 1)
                                 (Expense.expenseDate e)) expenses).
  { apply filter_ext_in. intros e He.
    rewrite leb_yearStart, leb_jan1 by (try lia; apply Hvalid, He). reflexivity. }
  rewrite Hmonth, Hytd, dashboard_payroll, !sumOf_total.
  unfold expenseAmounts, incomeAmounts, strictEq. repeat split.
Qed.

(** The January ledger on 15 January 2024: the month carries the expense of
    50 and the payroll of 3510 and 2650, the year to date carries the
    expenses of 20 and 50 and no payroll. *)
Lemma dashboard_month_and_ytd_witness :
  exists s : Dashboard.Stats,
    Dashboard.handler Sample.utc (DatabaseStorage januaryLedger) = Json s
    /\ monthlyPayroll (employees januaryLedger) = 6160%float
    /\ Dashboard.totalExpensesMonth s = (Spec.total [50%float] + 6160)%float
    /\ Dashboard.totalExpensesMonth s = 6210%float
    /\ Dashboard.totalExpensesYTD s = Spec.total [20%float; 50%float]
    /\ Dashboard.totalExpensesYTD s = 70%float
    /\ Dashboard.netProfitMonth s = (-5210)%float
    /\ Dashboard.netProfitYTD s = 930%float.
Proof.
  destruct (dashboard_month_and_ytd Sample.utc (DatabaseStorage januaryLedger)
              _ _ _ _ eq_refl eq_refl eq_refl eq_refl)
    as (s & Hs & Hmonth & Hytd & Hnet & Hnetytd & Hinc & Hincytd).
  - cbn. lia.
  - cbn. lia.
  - intros e He. vm_compute in He.
    destruct He as [<-|[<-|[<-|[]]]]; vm_compute; intuition discriminate.
  - exists s. split; [exact Hs|].
    split; [vm_compute; reflexivity|].
    split; [rewrite Hmonth; vm_compute; reflexivity|].
    split; [rewrite Hmonth; vm_compute; reflexivity|].
    split; [rewrite Hytd; vm_compute; reflexivity|].
    split; [rewrite Hytd; vm_compute; reflexivity|].
    split; [rewrite Hnet, Hinc; vm_compute; reflexivity|].
    rewrite Hnetytd, Hincytd. vm_compute. reflexivity.
Defined.

(** ** Profit and loss: income that no customer carries *)

Lemma incomeByCustomer_orphan (customers : list Customer.t) (l1 l2 : list IncomeRecord.t)
    (i : IncomeRecord.t) :
  orphan customers i ->
  Pnl.incomeByCustomer customers (l1 ++ i :: l2) = Pnl.incomeByCustomer customers (l1 ++ l2).
Proof.
  intro H. unfold Pnl.incomeByCustomer. f_equal. apply map_ext_in. intros c Hc.
  rewrite !filter_app. cbn [filter]. rewrite (H c Hc). reflexivity.
Qed.

(** Every bucket of the breakdown is a customer row's, and sums the income
    rows whose [customerId] is that row's id. *)
Lemma incomeByCustomer_names (customers : list Customer.t) (income : list IncomeRecord.t)
    (b : NamedAmount) :
  In b (Pnl.incomeByCustomer customers income) ->
  exists c, In c customers
    /\ name b = Customer.name c
    /\ amount b = sumOf IncomeRecord.amount
                    (filter (fun i => refersTo (IncomeRecord.customerId i) (Customer.id c))
                       income).
Proof.
  unfold Pnl.incomeByCustomer. intro H. apply filter_In in H as [H _].
  apply in_map_iff in H as (c & <- & Hc). exists c. repeat split. exact Hc.
Qed.

Lemma routeIncome_snoc (income : list IncomeRecord.t) (i : IncomeRecord.t) :
  Pnl.routeIncome (income ++ [i])
  = if strictEq (IncomeRecord.incomeType i) "route"
    then (Pnl.routeIncome income + JS.parseFloat (IncomeRecord.amount i))%float
    else Pnl.routeIncome income.
Proof.
  unfold Pnl.routeIncome. rewrite filter_app. cbn [filter].
  destruct (strictEq (IncomeRecord.incomeType i) "route").
  - apply sumOf_snoc.
  - rewrite app_nil_r. reflexivity.
Qed.

Lemma adhocIncome_snoc (income : list IncomeRecord.t) (i : IncomeRecord.t) :
  Pnl.adhocIncome (income ++ [i])
  = if strictEq (IncomeRecord.incomeType i) "adhoc"
    then (Pnl.adhocIncome income + JS.parseFloat (IncomeRecord.amount i))%float
    else Pnl.adhocIncome income.
Proof.
  unfold Pnl.adhocIncome. rewrite filter_app. cbn [filter].
  destruct (strictEq (IncomeRecord.incomeType i) "adhoc").
  - apply sumOf_snoc.
  - rewrite app_nil_r. reflexivity.
Qed.

(** The income part of the report, from the rows the handler reads. *)
Lemma pnl_income (env : Env) (db : Database) (from to : Civil.t) :
  exists r : Pnl.Report.t,
    Pnl.handler env (DatabaseStorage db) (Some from) (Some to) = Json r
    /\ Pnl.Report.income r
       = let income := filter (billedWithin from to) (incomeRecords db) in
         {| Pnl.Income.routeIncome := Pnl.routeIncome income;
            Pnl.Income.adhocIncome := Pnl.adhocIncome income;
            Pnl.Income.totalIncome := (Pnl.routeIncome income + Pnl.adhocIncome income)%float;
            Pnl.Income.byCustomer :=
              Pnl.incomeByCustomer (resolved (getCustomers (DatabaseStorage db))) income |}.
Proof. eexists. split; reflexivity. Qed.

Lemma orphan_income_step (env : Env) (db : Database) (from to : Civil.t)
    (i : IncomeRecord.t) :
  orphan (customers db) i ->
  billedWithin from to i = true ->
  exists r r' : Pnl.Report.t,
    Pnl.handler env (DatabaseStorage db) (Some from) (Some to) = Json r
    /\ Pnl.handler env (DatabaseStorage (addIncome db i)) (Some from) (Some to) = Json r'
    /\ Pnl.Income.byCustomer (Pnl.Report.income r') = Pnl.Income.byCustomer (Pnl.Report.income r)
    /\ (forall b, In b (Pnl.Income.byCustomer (Pnl.Report.income r')) ->
          exists c, In c (customers db) /\ name b = Customer.name c)
    /\ (IncomeRecord.incomeType i = "route"%string ->
          Pnl.Income.routeIncome (Pnl.Report.income r')
          = (Pnl.Income.routeIncome (Pnl.Report.income r)
             + JS.parseFloat (IncomeRecord.amount i))%float
          /\ Pnl.Income.totalIncome (Pnl.Report.income r')
             = (Pnl.Income.routeIncome (Pnl.Report.income r)
                + JS.parseFloat (IncomeRecord.amount i)
                + Pnl.Income.adhocIncome (Pnl.Report.income r))%float)
    /\ (IncomeRecord.incomeType i = "adhoc"%string ->
          Pnl.Income.adhocIncome (Pnl.Report.income r')
          = (Pnl.Income.adhocIncome (Pnl.Report.income r)
             + JS.parseFloat (IncomeRecord.amount i))%float
          /\ Pnl.Income.totalIncome (Pnl.Report.income r')
             = (Pnl.Income.routeIncome (Pnl.Report.income r)
                + (Pnl.Income.adhocIncome (Pnl.Report.income r)
                   + JS.parseFloat (IncomeRecord.amount i)))%float).
Proof.
  intros Horph Hin.
  destruct (pnl_income env db from to) as (r & Hr & Hinc).
  destruct (pnl_income env (addIncome db i) from to) as (r' & Hr' & Hinc').
  exists r, r'. split; [exact Hr|]. split; [exact Hr'|].
  rewrite Hinc, Hinc'. cbv zeta.
  cbn [Pnl.Income.byCustomer Pnl.Income.routeIncome Pnl.Income.adhocIncome
       Pnl.Income.totalIncome addIncome incomeRecords].
  rewrite filter_app. cbn [filter]. rewrite Hin.
  set (income := filter (billedWithin from to) (incomeRecords db)).
  assert (Horph' : orphan (resolved (getCustomers (DatabaseStorage db))) i).
  { intros c Hc. apply Horph. cbn in Hc. apply in_orderBy in Hc. exact Hc. }
  change (resolved (getCustomers (DatabaseStorage (addIncome db i))))
    with (resolved (getCustomers (DatabaseStorage db))).
  assert (Hby : Pnl.incomeByCustomer (resolved (getCustomers (DatabaseStorage db)))
                  (income ++ [i])
                = Pnl.incomeByCustomer (resolved (getCustomers (DatabaseStorage db))) income).
  { rewrite (incomeByCustomer_orphan _ income [] i Horph'), app_nil_r. reflexivity. }
  rewrite Hby, routeIncome_snoc, adhocIncome_snoc.
  split; [reflexivity|]. split.
  - intros b Hb. apply incomeByCustomer_names in Hb as (c & Hc & Hn & _).
    exists c. split; [|exact Hn]. cbn in Hc. apply in_orderBy in Hc. exact Hc.
  - split; intros ->; cbn [strictEq String.eqb Ascii.eqb Bool.eqb]; split; reflexivity.
Qed.

Lemma orphan_income_example :
  exists r : Pnl.Report.t,
    Pnl.handler Sample.utc (DatabaseStorage Sample.orphanLedger)
      (Some (Civil.mk 2024 1 1)) (Some (Civil.mk 2024 12 31)) = Json r
    /\ Pnl.Income.routeIncome (Pnl.Report.income r) = 100%float
    /\ Pnl.Income.adhocIncome (Pnl.Report.income r) = 50%float
    /\ Pnl.Income.totalIncome (Pnl.Report.income r) = 150%float
    /\ Pnl.Income.byCustomer (Pnl.Report.income r) = []
    /\ PrimFloat.ltb (Spec.total (map amount (Pnl.Income.byCustomer (Pnl.Report.income r))))
         (Pnl.Income.totalIncome (Pnl.Report.income r)) = true
    /\ Pnl.Expenses.byCategory (Pnl.Report.expenses r) = [mkNamedAmount "Uncategorized" 50].
Proof. eexists. split; [reflexivity|]. vm_compute. repeat split. Qed.

(** C9.  Adding to the ledger an income row billed within the period whose
    [customerId] is [null] or the id of no customer raises the route income
    (or the ad-hoc income, by its type) and the total income of the report by
    its amount and leaves the by-customer breakdown as it was; every bucket of
    the breakdown bears the name of a customer row, there is no bucket for the
    rest.  So the buckets can sum to less than the total income: a ledger with
    one customer and two such rows of 100 and 50 reports a total income of 150
    and an empty breakdown, while its expense without a category is reported
    in an "Uncategorized" bucket. *)
Theorem orphan_income_in_no_bucket :
  (forall (env : Env) (db : Database) (from to : Civil.t) (i : IncomeRecord.t),
     orphan (customers db) i ->
     billedWithin from to i = true ->
     exists r r' : Pnl.Report.t,
       Pnl.handler env (DatabaseStorage db) (Some from) (Some to) = Json r
       /\ Pnl.handler env (DatabaseStorage (addIncome db i)) (Some from) (Some to) = Json r'
       /\ Pnl.Income.byCustomer (Pnl.Report.income r')
          = Pnl.Income.byCustomer (Pnl.Report.income r)
       /\ (forall b, In b (Pnl.Income.byCustomer (Pnl.Report.income r')) ->
             exists c, In c (customers db) /\ name b = Customer.name c)
       /\ (IncomeRecord.incomeType i = "route"%string ->
             Pnl.Income.routeIncome (Pnl.Report.income r')
             = (Pnl.Income.routeIncome (Pnl.Report.income r)
                + JS.parseFloat (IncomeRecord.amount i))%float
             /\ Pnl.Income.totalIncome (Pnl.Report.income r')
                = (Pnl.Income.routeIncome (Pnl.Report.income r)
                   + JS.parseFloat (IncomeRecord.amount i)
                   + Pnl.Income.adhocIncome (Pnl.Report.income r))%float)
       /\ (IncomeRecord.incomeType i = "adhoc"%string ->
             Pnl.Income.adhocIncome (Pnl.Report.income r')
             = (Pnl.Income.adhocIncome (Pnl.Report.income r)
                + JS.parseFloat (IncomeRecord.amount i))%float
             /\ Pnl.Income.totalIncome (Pnl.Report.income r')
                = (Pnl.Income.routeIncome (Pnl.Report.income r)
                   + (Pnl.Income.adhocIncome (Pnl.Report.income r)
                      + JS.parseFloat (IncomeRecord.amount i)))%float))
  /\ (exists r : Pnl.Report.t,
        Pnl.handler Sample.utc (DatabaseStorage Sample.orphanLedger)
          (Some (Civil.mk 2024 1 1)) (Some (Civil.mk 2024 12 31)) = Json r
        /\ Pnl.Income.routeIncome (Pnl.Report.income r) = 100%float
        /\ Pnl.Income.adhocIncome (Pnl.Report.income r) = 50%float
        /\ Pnl.Income.totalIncome (Pnl.Report.income r) = 150%float
        /\ Pnl.Income.byCustomer (Pnl.Report.income r) = []
        /\ PrimFloat.ltb
             (Spec.total (map amount (Pnl.Income.byCustomer (Pnl.Report.income r))))
             (Pnl.Income.totalIncome (Pnl.Report.income r)) = true
        /\ Pnl.Expenses.byCategory (Pnl.Report.expenses r)
           = [mkNamedAmount "Uncategorized" 50]).
Proof.
  split.
  - exact orphan_income_step.
  - exact orphan_income_example.
Qed.

Lemma orphan_income_in_no_bucket_witness :
  exists r r' : Pnl.Report.t,
    Pnl.handler Sample.utc (DatabaseStorage Sample.oneRouteOneEmployee)
      (Some (Civil.mk 2024 1 1)) (Some (Civil.mk 2024 12 31)) = Json r
    /\ Pnl.handler Sample.utc (DatabaseStorage (addIncome Sample.oneRouteOneEmployee Sample.dangling))
         (Some (Civil.mk 2024 1 1)) (Some (Civil.mk 2024 12 31)) = Json r'
    /\ Pnl.Income.byCustomer (Pnl.Report.income r')
       = Pnl.Income.byCustomer (Pnl.Report.income r).
Proof.
  destruct (proj1 orphan_income_in_no_bucket Sample.utc Sample.oneRouteOneEmployee
              (Civil.mk 2024 1 1) (Civil.mk 2024 12 31) Sample.dangling)
    as (r & r' & Hr & Hr' & Hby & _).
  - intros c [].
  - reflexivity.
  - exists r, r'. repeat split; assumption.
Defined.

(** ** Cash flow: the vehicles table *)

Lemma cashflow_reads (env : Env) (db : Database) (period : option Z) :
  CashFlow.forecast env (DatabaseStorage db) period
  = CashFlow.forecast env
      (DatabaseStorage (mkDatabase [] (routes db) [] [] (expenses db) []
                          (vehicleInstallments db) (vehicleInsurance db)
                          (vehicleParking db) (employees db))) period.
Proof. reflexivity. Qed.

Lemma inactive_bus_example :
  exists (f : CashFlow.Forecast.t) (row : CashFlow.MonthRow.t),
    CashFlow.handler Sample.utc (DatabaseStorage Sample.withInactiveBus) (Some 1) = Json f
    /\ CashFlow.Forecast.months f = [row]
    /\ CashFlow.Details.vehicleInstallments (CashFlow.MonthRow.details row) = 1500%float
    /\ CashFlow.Details.vehicleInsurance (CashFlow.MonthRow.details row) = 200%float
    /\ CashFlow.Details.vehicleParking (CashFlow.MonthRow.details row) = 300%float
    /\ CashFlow.MonthRow.outflows row = 5510%float.
Proof. eexists. eexists. split; [reflexivity|]. vm_compute. repeat split. Qed.

(** C10.  The forecast does not depend on the vehicles table: two databases
    that hold the same routes, employees, installments, insurance, parking
    and expenses get the same forecast, whatever vehicles each holds and
    whatever the status of those vehicles.  The loan, the policy and the
    parking lot of a bus that is out of service are charged all the same:
    1500, 200 and 300 of the 5510 of outflows of the sample month. *)
Theorem cashflow_ignores_vehicles :
  (forall (env : Env) (db1 db2 : Database) (period : option Z),
     agreeOffVehicles db1 db2 ->
     CashFlow.handler env (DatabaseStorage db1) period
     = CashFlow.handler env (DatabaseStorage db2) period)
  /\ (exists (f : CashFlow.Forecast.t) (row : CashFlow.MonthRow.t),
        CashFlow.handler Sample.utc (DatabaseStorage Sample.withInactiveBus) (Some 1) = Json f
        /\ CashFlow.Forecast.months f = [row]
        /\ CashFlow.Details.vehicleInstallments (CashFlow.MonthRow.details row) = 1500%float
        /\ CashFlow.Details.vehicleInsurance (CashFlow.MonthRow.details row) = 200%float
        /\ CashFlow.Details.vehicleParking (CashFlow.MonthRow.details row) = 300%float
        /\ CashFlow.MonthRow.outflows row = 5510%float).
Proof.
  split; [|exact inactive_bus_example].
  intros env db1 db2 period (Hr & He & Hi & Hs & Hp & Hx).
  unfold CashFlow.handler.
  rewrite (cashflow_reads env db1), (cashflow_reads env db2).
  rewrite Hr, He, Hi, Hs, Hp, Hx. reflexivity.
Qed.

Lemma cashflow_ignores_vehicles_witness :
  CashFlow.handler Sample.utc (DatabaseStorage Sample.withActiveBus) (Some 6)
  = CashFlow.handler Sample.utc (DatabaseStorage Sample.withInactiveBus) (Some 6).
Proof.
  apply (proj1 cashflow_ignores_vehicles Sample.utc Sample.withActiveBus
           Sample.withInactiveBus); repeat split.
Defined.

(** * Further properties *)

(** ** [ORDER BY] sorts, keeps every row, and commutes with a filter *)

Lemma insert_perm {A : Type} (le : A -> A -> bool) (x : A) (l : list A) :
  Permutation (Sql.insert le x l) (x :: l).
Proof.
  induction l as [|y l IH]; simpl.
  - apply Permutation_refl.
  - destruct (le x y).
    + apply Permutation_refl.
    + apply perm_trans with (y :: x :: l); [apply perm_skip, IH | apply perm_swap].
Qed.

Lemma orderBy_perm {A : Type} (le : A -> A -> bool) (l : list A) :
  Permutation (Sql.orderBy le l) l.
Proof.
  unfold Sql.orderBy. induction l as [|x l IH]; simpl.
  - apply perm_nil.
  - apply perm_trans with (x :: fold_right (Sql.insert le) [] l);
      [apply insert_perm | apply perm_skip, IH].
Qed.

(** Every answer the engine may give to an [ORDER BY], the rows of the table
    in a sorted arrangement, is the read of a table that holds the rows in
    that arrangement: what holds of the reads of every table holds of every
    such answer. *)
Lemma orderBy_of_sorted {A : Type} (le : A -> A -> bool) (answer : list A) :
  StronglySorted (fun a b => le a b = true) answer -> Sql.orderBy le answer = answer.
Proof.
  induction 1 as [|x l Hl IH Hx].
  - reflexivity.
  - change (Sql.orderBy le (x :: l)) with (Sql.insert le x (Sql.orderBy le l)).
    rewrite IH. destruct l as [|y l]; [reflexivity|].
    inversion Hx as [|? ? Hxy]; subst. simpl. rewrite Hxy. reflexivity.
Qed.

Lemma orderBy_any_answer {A : Type} (le : A -> A -> bool) (rows answer : list A) :
  Permutation rows answer -> StronglySorted (fun a b => le a b = true) answer ->
  exists table, Permutation table rows /\ Sql.orderBy le table = answer.
Proof.
  intros Hperm Hsorted. exists answer.
  split; [apply Permutation_sym, Hperm | apply orderBy_of_sorted, Hsorted].
Qed.

Section TotalOrder.

Context {A : Type} (le : A -> A -> bool).
Hypothesis le_total : forall x y, le x y = true \/ le y x = true.
Hypothesis le_trans : forall x y z, le x y = true -> le y z = true -> le x z = true.

Lemma insert_sorted (x : A) (l : list A) :
  StronglySorted (fun a b => le a b = true) l ->
  StronglySorted (fun a b => le a b = true) (Sql.insert le x l).
Proof.
  induction l as [|y l IH]; intro Hs; simpl.
  - constructor; constructor.
  - inversion Hs as [|? ? Hl Hy]; subst.
    destruct (le x y) eqn:E.
    + constructor; [exact Hs|]. constructor; [exact E|].
      apply Forall_impl with (2 := Hy). intros z Hz. eapply le_trans; eassumption.
    + constructor; [apply IH, Hl|].
      assert (Hyx : le y x = true) by (destruct (le_total x y); congruence).
      apply Forall_forall. intros z Hz. apply in_insert in Hz as [->|Hz]; [exact Hyx|].
      rewrite Forall_forall in Hy. apply Hy, Hz.
Qed.

Lemma orderBy_sorted (l : list A) :
  StronglySorted (fun a b => le a b = true) (Sql.orderBy le l).
Proof.
  unfold Sql.orderBy. induction l as [|x l IH]; simpl.
  - constructor.
  - apply insert_sorted, IH.
Qed.

Lemma insert_head (x : A) (l : list A) :
  Forall (fun z => le x z = true) l -> Sql.insert le x l = x :: l.
Proof.
  intro H. destruct l as [|y l]; simpl; [reflexivity|].
  inversion H; subst. rewrite H2. reflexivity.
Qed.

Lemma filter_insert (p : A -> bool) (x : A) (l : list A) :
  StronglySorted (fun a b => le a b = true) l ->
  filter p (Sql.insert le x l)
  = if p x then Sql.insert le x (filter p l) else filter p l.
Proof.
  induction l as [|y l IH]; intro Hs; simpl.
  - destruct (p x); reflexivity.
  - inversion Hs as [|? ? Hl Hy]; subst.
    destruct (le x y) eqn:E.
    + cbn [filter]. destruct (p x) eqn:Px; [|reflexivity].
      symmetry. apply insert_head.
      assert (Hall : Forall (fun z => le x z = true) (y :: l)).
      { constructor; [exact E|]. apply Forall_impl with (2 := Hy).
        intros z Hz. eapply le_trans; eassumption. }
      rewrite Forall_forall in *. intros z Hz. apply Hall.
      change (In z (filter p (y :: l))) in Hz. apply filter_In in Hz. apply Hz.
    + cbn [filter]. rewrite (IH Hl).
      destruct (p y) eqn:Py; destruct (p x) eqn:Px; try reflexivity.
      simpl. rewrite E. reflexivity.
Qed.

(** A stable sort and a filter can be taken in either order. *)
Lemma filter_orderBy (p : A -> bool) (l : list A) :
  filter p (Sql.orderBy le l) = Sql.orderBy le (filter p l).
Proof.
  induction l as [|x l IH].
  - reflexivity.
  - change (Sql.orderBy le (x :: l)) with (Sql.insert le x (Sql.orderBy le l)).
    rewrite filter_insert by apply orderBy_sorted.
    cbn [filter]. destruct (p x); rewrite IH; reflexivity.
Qed.

(** The first [n] rows of a sorted table come before all the others. *)
Lemma firstn_before_skipn (n : nat) (l : list A) (a b : A) :
  In a (firstn n (Sql.orderBy le l)) -> In b (skipn n (Sql.orderBy le l)) ->
  le a b = true.
Proof.
  pose proof (orderBy_sorted l) as Hs. revert Hs. generalize (Sql.orderBy le l).
  intros s Hs. revert n. induction Hs as [|y s Hs IH Hy]; intros n Ha Hb.
  - destruct n; contradiction Ha.
  - destruct n as [|n]; [contradiction Ha|]. cbn [firstn skipn] in Ha, Hb.
    destruct Ha as [<-|Ha].
    + rewrite Forall_forall in Hy. apply Hy.
      rewrite <- (firstn_skipn n s). apply in_or_app. right. exact Hb.
    + apply (IH n Ha Hb).
Qed.

End TotalOrder.

(** The two orders the queries sort by. *)
Lemma string_compare_eq (a b : string) : String.compare a b = Eq <-> a = b.
Proof. exact (OrderedTypeEx.String_as_OT.cmp_eq a b). Qed.

Lemma string_compare_lt_trans (a b c : string) :
  String.compare a b = Lt -> String.compare b c = Lt -> String.compare a c = Lt.
Proof.
  intros Hab Hbc.
  apply (proj2 (OrderedTypeEx.String_as_OT.cmp_lt a c)).
  apply OrderedTypeEx.String_as_OT.lt_trans with b;
    apply (proj1 (OrderedTypeEx.String_as_OT.cmp_lt _ _)); assumption.
Qed.

Lemma string_leb_trans (x y z : string) :
  String.leb x y = true -> String.leb y z = true -> String.leb x z = true.
Proof.
  unfold String.leb. intros Hxy Hyz.
  destruct (String.compare x y) eqn:Exy; try discriminate;
    destruct (String.compare y z) eqn:Eyz; try discriminate.
  - apply string_compare_eq in Exy, Eyz. subst.
    rewrite (proj2 (string_compare_eq z z) eq_refl). reflexivity.
  - apply string_compare_eq in Exy. subst. rewrite Eyz. reflexivity.
  - apply string_compare_eq in Eyz. subst. rewrite Exy. reflexivity.
  - rewrite (string_compare_lt_trans _ _ _ Exy Eyz). reflexivity.
Qed.

Lemma civil_compare_spec (a b : Civil.t) :
  match Civil.compare a b with
  | Eq => Civil.year a = Civil.year b /\ Civil.month a = Civil.month b
          /\ Civil.day a = Civil.day b
  | Lt => Civil.year a < Civil.year b
          \/ (Civil.year a = Civil.year b
              /\ (Civil.month a < Civil.month b
                  \/ (Civil.month a = Civil.month b /\ Civil.day a < Civil.day b)))
  | Gt => Civil.year b < Civil.year a
          \/ (Civil.year a = Civil.year b
              /\ (Civil.month b < Civil.month a
                  \/ (Civil.month a = Civil.month b /\ Civil.day b < Civil.day a)))
  end.
Proof.
  unfold Civil.compare.
  destruct (Z.compare_spec (Civil.year a) (Civil.year b));
    destruct (Z.compare_spec (Civil.month a) (Civil.month b));
    destruct (Z.compare_spec (Civil.day a) (Civil.day b)); lia.
Qed.

Lemma civil_leb_total (a b : Civil.t) : Civil.leb a b = true \/ Civil.leb b a = true.
Proof.
  unfold Civil.leb.
  pose proof (civil_compare_spec a b). pose proof (civil_compare_spec b a).
  destruct (Civil.compare a b), (Civil.compare b a); auto; lia.
Qed.

Lemma civil_leb_trans (a b c : Civil.t) :
  Civil.leb a b = true -> Civil.leb b c = true -> Civil.leb a c = true.
Proof.
  unfold Civil.leb.
  pose proof (civil_compare_spec a b). pose proof (civil_compare_spec b c).
  pose proof (civil_compare_spec a c).
  destruct (Civil.compare a b), (Civil.compare b c), (Civil.compare a c);
    intros; try reflexivity; try discriminate; lia.
Qed.

Lemma asc_total {A K : Type} (leb : K -> K -> bool) (key : A -> K) :
  (forall x y, leb x y = true \/ leb y x = true) ->
  forall x y, Sql.asc leb key x y = true \/ Sql.asc leb key y x = true.
Proof. intros H x y. apply H. Qed.

Lemma asc_trans {A K : Type} (leb : K -> K -> bool) (key : A -> K) :
  (forall x y z, leb x y = true -> leb y z = true -> leb x z = true) ->
  forall x y z, Sql.asc leb key x y = true -> Sql.asc leb key y z = true ->
                Sql.asc leb key x z = true.
Proof. intros H x y z. apply H. Qed.

Lemma desc_total {A K : Type} (leb : K -> K -> bool) (key : A -> K) :
  (forall x y, leb x y = true \/ leb y x = true) ->
  forall x y, Sql.desc leb key x y = true \/ Sql.desc leb key y x = true.
Proof. intros H x y. apply H. Qed.

Lemma desc_trans {A K : Type} (leb : K -> K -> bool) (key : A -> K) :
  (forall x y z, leb x y = true -> leb y z = true -> leb x z = true) ->
  forall x y z, Sql.desc leb key x y = true -> Sql.desc leb key y z = true ->
                Sql.desc leb key x z = true.
Proof. intros H x y z Hxy Hyz. unfold Sql.desc in *. eapply H; eassumption. Qed.

(** ** Dashboard: the six months of the trend *)

Lemma ofLocalMonth_ordinal (y m : Z) : monthOrdinal (JS.Date.ofLocalMonth y m) = 12 * y + m.
Proof.
  unfold monthOrdinal, JS.Date.ofLocalMonth. cbn [JS.Date.fullYear JS.Date.monthIndex].
  pose proof (Z.div_mod m 12). lia.
Qed.

Lemma ofLocalMonth_index (y m : Z) : 0 <= JS.Date.monthIndex (JS.Date.ofLocalMonth y m) <= 11.
Proof.
  unfold JS.Date.ofLocalMonth. cbn [JS.Date.monthIndex].
  pose proof (Z.mod_pos_bound m 12). lia.
Qed.

Lemma trend_index (k : nat) (i : Z) :
  nth_error [5; 4; 3; 2; 1; 0] k = Some i -> i = 5 - Z.of_nat k.
Proof.
  do 6 (destruct k as [|k]; [intros [= <-]; reflexivity|]).
  destruct k; discriminate.
Qed.

(** X1.  The trend of the dashboard has six rows, for the six months that end
    with the current one, in order, the year carried across January.  Each row
    reports the income billed to its month, and as expenses the expenses dated
    in its month plus today's monthly employer cost of the active employees,
    the same figure in all six rows; the last row repeats the income and the
    expenses of the month of the statistics. *)
Theorem dashboard_trend (env : Env) (db : Database) :
  1001 <= JS.Date.getFullYear (now env) <= 9999 ->
  0 <= JS.Date.getMonth (now env) <= 11 ->
  (forall e, In e (expenses db) -> Civil.valid (Expense.expenseDate e)) ->
  exists s : Dashboard.Stats,
    Dashboard.handler env (DatabaseStorage db) = Json s
    /\ List.length (Dashboard.monthlyTrend s) = 6%nat
    /\ (forall k row, nth_error (Dashboard.monthlyTrend s) k = Some row ->
          let d := Dashboard.month row in
          monthOrdinal d = monthOrdinal (now env) - 5 + Z.of_nat k
          /\ 0 <= JS.Date.monthIndex d <= 11
          /\ Dashboard.income row
             = sumOf IncomeRecord.amount
                 (filter (fun i => strictEq (IncomeRecord.billingPeriod i)
                                     (JS.monthKey (JS.Date.fullYear d)
                                        (JS.Date.monthIndex d + 1)))
                    (resolved (getIncomeRecords (DatabaseStorage db))))
          /\ (let dated :=
                filter (fun e => (Civil.year (Expense.expenseDate e) =? JS.Date.fullYear d)
                                 && (Civil.month (Expense.expenseDate e)
                                     =? JS.Date.monthIndex d + 1))
                  (resolved (getExpenses (DatabaseStorage db))) in
              Dashboard.expenses row
              = (sumOf Expense.amount dated
                 + Dashboard.monthlyEmployeeCosts
                     (resolved (getEmployees (DatabaseStorage db))))%float)
          /\ (k = 5%nat ->
              Dashboard.income row = Dashboard.totalIncomeMonth s
              /\ Dashboard.expenses row = Dashboard.totalExpensesMonth s)).
Proof.
  intros Hy Hm Hvalid.
  unfold Dashboard.handler, Dashboard.stats.
  cbn [await respond getIncomeRecords getExpenses getRoutes getEmployees DatabaseStorage
       resolved].
  eexists. split; [reflexivity|]. cbv zeta.
  cbn [Dashboard.monthlyTrend Dashboard.totalIncomeMonth Dashboard.totalExpensesMonth].
  split; [reflexivity|].
  intros k row Hrow.
  rewrite nth_error_map in Hrow.
  destruct (nth_error [5; 4; 3; 2; 1; 0] k) as [i|] eqn:Hk; [|discriminate].
  injection Hrow as <-. pose proof (trend_index k i Hk) as Hi.
  assert (Hk6 : (k < 6)%nat).
  { change 6%nat with (List.length [5; 4; 3; 2; 1; 0]).
    apply nth_error_Some. rewrite Hk. discriminate. }
  unfold Dashboard.trendRow. cbv zeta.
  cbn [Dashboard.month Dashboard.income Dashboard.expenses].
  unfold JS.Date.getFullYear, JS.Date.getMonth in *.
  split.
  { rewrite ofLocalMonth_ordinal. unfold monthOrdinal. lia. }
  split; [apply ofLocalMonth_index|].
  split; [reflexivity|].
  split.
  { f_equal. f_equal. apply filter_ext_in. intros e He.
    apply startsWith_monthKey.
    - unfold JS.Date.ofLocalMonth. cbn [JS.Date.fullYear].
      assert (-1 <= (JS.Date.monthIndex (now env) - i) / 12 <= 0).
      { split.
        - apply Z.div_le_lower_bound; lia.
        - apply Z.lt_succ_r. apply Z.div_lt_upper_bound; lia. }
      lia.
    - pose proof (ofLocalMonth_index (JS.Date.fullYear (now env))
                    (JS.Date.monthIndex (now env) - i)). lia.
    - apply Hvalid. apply in_orderBy in He. exact He. }
  intros ->. cbn in Hi. subst i.
  replace (JS.Date.monthIndex (now env) - 0) with (JS.Date.monthIndex (now env)) by lia.
  unfold JS.Date.ofLocalMonth. cbn [JS.Date.fullYear JS.Date.monthIndex].
  rewrite Z.div_small, Z.mod_small by lia.
  replace (JS.Date.fullYear (now env) + 0) with (JS.Date.fullYear (now env)) by lia.
  split; reflexivity.
Qed.

Lemma dashboard_trend_witness :
  exists s : Dashboard.Stats,
    Dashboard.handler Sample.utc (DatabaseStorage Sample.orphanLedger) = Json s
    /\ List.length (Dashboard.monthlyTrend s) = 6%nat.
Proof.
  destruct (dashboard_trend Sample.utc Sample.orphanLedger) as (s & Hs & Hlen & _).
  - cbn. lia.
  - cbn. lia.
  - intros e [<-|[]]. vm_compute. intuition discriminate.
  - exists s. split; [exact Hs | exact Hlen].
Defined.

(** ** Dashboard: the recent rows *)

(** X2.  The recent expenses of the dashboard are five rows of the expenses
    table, or all of them when there are fewer, and none of the rows left out
    is dated after one of them; likewise the recent income, by billing
    period. *)
Theorem dashboard_recent (env : Env) (db : Database) :
  exists s : Dashboard.Stats,
    Dashboard.handler env (DatabaseStorage db) = Json s
    /\ List.length (Dashboard.recentExpenses s) = Nat.min 5 (List.length (expenses db))
    /\ (exists rest,
          Permutation (Dashboard.recentExpenses s ++ rest) (expenses db)
          /\ forall a b, In a (Dashboard.recentExpenses s) -> In b rest ->
               Civil.leb (Expense.expenseDate b) (Expense.expenseDate a) = true)
    /\ List.length (Dashboard.recentIncome s) = Nat.min 5 (List.length (incomeRecords db))
    /\ (exists rest,
          Permutation (Dashboard.recentIncome s ++ rest) (incomeRecords db)
          /\ forall a b, In a (Dashboard.recentIncome s) -> In b rest ->
               String.leb (IncomeRecord.billingPeriod b) (IncomeRecord.billingPeriod a) = true).
Proof.
  unfold Dashboard.handler, Dashboard.stats.
  cbn [await respond getIncomeRecords getExpenses getRoutes getEmployees DatabaseStorage].
  eexists. split; [reflexivity|]. cbv zeta.
  cbn [Dashboard.recentExpenses Dashboard.recentIncome].
  split.
  { rewrite length_firstn, (Permutation_length (orderBy_perm _ _)). reflexivity. }
  split.
  { exists (skipn 5 (Sql.orderBy (Sql.desc Civil.leb Expense.expenseDate) (expenses db))).
    split.
    - rewrite firstn_skipn. apply orderBy_perm.
    - intros a b Ha Hb.
      apply (firstn_before_skipn (Sql.desc Civil.leb Expense.expenseDate)
               (desc_total _ _ civil_leb_total) (desc_trans _ _ civil_leb_trans)
               5 (expenses db) a b Ha Hb). }
  split.
  { rewrite length_firstn, (Permutation_length (orderBy_perm _ _)). reflexivity. }
  exists (skipn 5 (Sql.orderBy (Sql.desc String.leb IncomeRecord.billingPeriod)
                     (incomeRecords db))).
  split.
  - rewrite firstn_skipn. apply orderBy_perm.
  - intros a b Ha Hb.
    apply (firstn_before_skipn (Sql.desc String.leb IncomeRecord.billingPeriod)
             (desc_total _ _ String.leb_total) (desc_trans _ _ string_leb_trans)
             5 (incomeRecords db) a b Ha Hb).
Qed.

(** ** Profit and loss: the by-category view *)

Lemma expensesByCategory_split (categories : list ExpenseCategory.t)
    (expenses : list Expense.t) :
  Pnl.expensesByCategory categories expenses
  = categoryBuckets categories expenses
    ++ uncategorizedBucket (Pnl.uncategorizedExpenses expenses).
Proof.
  unfold Pnl.expensesByCategory, categoryBuckets, uncategorizedBucket. cbv zeta.
  destruct (PrimFloat.ltb 0 (Pnl.uncategorizedExpenses expenses)).
  - reflexivity.
  - rewrite app_nil_r. reflexivity.
Qed.

Lemma categoryBuckets_unfiled (categories : list ExpenseCategory.t)
    (l1 l2 : list Expense.t) (e : Expense.t) :
  unfiled categories e ->
  categoryBuckets categories (l1 ++ e :: l2) = categoryBuckets categories (l1 ++ l2).
Proof.
  intro H. unfold categoryBuckets. f_equal. apply map_ext_in. intros cat Hcat.
  rewrite !filter_app. cbn [filter]. rewrite (H cat Hcat). reflexivity.
Qed.

Lemma uncategorizedExpenses_snoc (expenses : list Expense.t) (e : Expense.t) :
  Pnl.uncategorizedExpenses (expenses ++ [e])
  = if falsyId (Expense.categoryId e)
    then (Pnl.uncategorizedExpenses expenses + JS.parseFloat (Expense.amount e))%float
    else Pnl.uncategorizedExpenses expenses.
Proof.
  unfold Pnl.uncategorizedExpenses. rewrite filter_app. cbn [filter].
  destruct (falsyId (Expense.categoryId e)).
  - apply sumOf_snoc.
  - rewrite app_nil_r. reflexivity.
Qed.

Lemma positive_buckets (A : Type) (bucket : A -> NamedAmount) (l : list A) :
  Forall (fun b => PrimFloat.ltb 0 (amount b) = true)
    (filter (fun c => PrimFloat.ltb 0 (amount c)) (map bucket l)).
Proof. apply Forall_forall. intros b Hb. apply filter_In in Hb. apply Hb. Qed.

(** X3.  The by-category view of the report holds, in the order of the
    category names, one bucket for each category whose expenses of the period
    sum to more than 0, named after it, followed by a bucket named
    Uncategorized when the expenses of the period without a category sum to
    more than 0; no bucket holds an amount of 0 or less. *)
Theorem pnl_by_category (env : Env) (db : Database) (from to : Civil.t) :
  exists r : Pnl.Report.t,
    Pnl.handler env (DatabaseStorage db) (Some from) (Some to) = Json r
    /\ let dated :=
         filter (fun e => Spec.within from to (Expense.expenseDate e)) (expenses db) in
       let categories := resolved (getExpenseCategories (DatabaseStorage db)) in
       Pnl.Expenses.byCategory (Pnl.Report.expenses r)
       = categoryBuckets categories dated
         ++ uncategorizedBucket (Pnl.uncategorizedExpenses dated)
       /\ Forall (fun b => PrimFloat.ltb 0 (amount b) = true)
            (Pnl.Expenses.byCategory (Pnl.Report.expenses r))
       /\ (forall b, In b (categoryBuckets categories dated) ->
             exists cat, In cat (expenseCategories db)
               /\ name b = ExpenseCategory.name cat
               /\ amount b
                  = sumOf Expense.amount
                      (filter (fun e => refersTo (Expense.categoryId e)
                                          (ExpenseCategory.id cat)) dated))
       /\ StronglySorted (fun a b => String.leb (name a) (name b) = true)
            (categoryBuckets categories dated).
Proof.
  unfold Pnl.handler, Pnl.report.
  cbn [await respond getIncomeByPeriod getCustomers getRoutes getEmployees
       getExpenseCategories DatabaseStorage resolved].
  rewrite getExpensesByPeriod_rows. cbn [await].
  eexists. split; [reflexivity|]. cbv zeta.
  cbn [Pnl.Report.expenses Pnl.Expenses.byCategory].
  rewrite expensesByCategory_split.
  split; [reflexivity|]. split; [|split].
  - apply Forall_app. split.
    + apply positive_buckets.
    + unfold uncategorizedBucket.
      destruct (PrimFloat.ltb 0 _) eqn:E; constructor; [exact E | constructor].
  - intros b Hb. unfold categoryBuckets in Hb. apply filter_In in Hb as [Hb _].
    apply in_map_iff in Hb as (cat & <- & Hcat). exists cat.
    split; [apply in_orderBy in Hcat; exact Hcat|]. split; reflexivity.
  - unfold categoryBuckets.
    pose proof (orderBy_sorted (Sql.asc String.leb ExpenseCategory.name)
                  (asc_total _ _ String.leb_total) (asc_trans _ _ string_leb_trans)
                  (expenseCategories db)) as Hs.
    revert Hs. generalize (Sql.orderBy (Sql.asc String.leb ExpenseCategory.name)
                             (expenseCategories db)).
    intros l Hs. induction Hs as [|cat l Hs IH Hall]; cbn [map filter]; [constructor|].
    destruct (PrimFloat.ltb 0 _); [|exact IH].
    constructor; [exact IH|].
    apply Forall_forall. intros b Hb. apply filter_In in Hb as [Hb _].
    apply in_map_iff in Hb as (cat' & <- & Hcat'). cbn [name].
    rewrite Forall_forall in Hall. apply (Hall cat' Hcat').
Qed.

(** X4.  An expense dated in the period and filed under no category of the
    table (its [categoryId] is null or the id of no category) counts in the
    total expenses of the report, its amount added to the sum of the expenses
    of the period, and changes no category bucket.  When its [categoryId] is
    null it is counted in the Uncategorized bucket; when it is the id of a
    category that does not exist it is counted in no bucket at all. *)
Theorem unfiled_expense (env : Env) (db : Database) (from to : Civil.t) (e : Expense.t) :
  unfiled (expenseCategories db) e ->
  Spec.within from to (Expense.expenseDate e) = true ->
  exists r r' : Pnl.Report.t,
    Pnl.handler env (DatabaseStorage db) (Some from) (Some to) = Json r
    /\ Pnl.handler env (DatabaseStorage (withExpenses db (expenses db ++ [e])))
         (Some from) (Some to) = Json r'
    /\ let dated :=
         filter (fun e => Spec.within from to (Expense.expenseDate e)) (expenses db) in
       let categories := resolved (getExpenseCategories (DatabaseStorage db)) in
       Pnl.Expenses.totalExpenses (Pnl.Report.expenses r')
       = (sumOf Expense.amount dated + JS.parseFloat (Expense.amount e)
          + Pnl.Expenses.subcontractorCosts (Pnl.Report.expenses r)
          + Pnl.Expenses.employeeCosts (Pnl.Report.expenses r)
          + Pnl.Expenses.vehicleCosts (Pnl.Report.expenses r))%float
       /\ Pnl.Expenses.byCategory (Pnl.Report.expenses r')
          = categoryBuckets categories dated
            ++ uncategorizedBucket
                 (if falsyId (Expense.categoryId e)
                  then (Pnl.uncategorizedExpenses dated
                        + JS.parseFloat (Expense.amount e))%float
                  else Pnl.uncategorizedExpenses dated)
       /\ (falsyId (Expense.categoryId e) = false ->
           Pnl.Expenses.byCategory (Pnl.Report.expenses r')
           = Pnl.Expenses.byCategory (Pnl.Report.expenses r))
       /\ Pnl.Report.income r' = Pnl.Report.income r.
Proof.
  intros Hun Hin.
  unfold Pnl.handler, Pnl.report.
  cbn [await respond getIncomeByPeriod getCustomers getRoutes getEmployees
       getExpenseCategories DatabaseStorage resolved].
  rewrite !getExpensesByPeriod_rows. cbn [await].
  eexists. eexists. split; [reflexivity|]. split; [reflexivity|]. cbv zeta.
  cbn [Pnl.Report.expenses Pnl.Report.income Pnl.Expenses.byCategory
       Pnl.Expenses.totalExpenses Pnl.Expenses.subcontractorCosts
       Pnl.Expenses.employeeCosts Pnl.Expenses.vehicleCosts
       withExpenses expenses expenseCategories routes employees customers incomeRecords].
  rewrite filter_app. cbn [filter]. rewrite Hin.
  set (dated := filter (fun e => Spec.within from to (Expense.expenseDate e)) (expenses db)).
  assert (Hun' : unfiled (Sql.orderBy (Sql.asc String.leb ExpenseCategory.name)
                            (expenseCategories db)) e).
  { intros cat Hcat. apply Hun. apply in_orderBy in Hcat. exact Hcat. }
  rewrite !expensesByCategory_split.
  rewrite (categoryBuckets_unfiled _ dated [] e Hun'), app_nil_r.
  rewrite uncategorizedExpenses_snoc, sumOf_snoc.
  split; [reflexivity|]. split; [reflexivity|]. split; [|reflexivity].
  intros ->. reflexivity.
Qed.

Lemma unfiled_expense_witness :
  exists r r' : Pnl.Report.t,
    Pnl.handler Sample.utc (DatabaseStorage Sample.orphanLedger)
      (Some (Civil.mk 2024 1 1)) (Some (Civil.mk 2024 12 31)) = Json r
    /\ Pnl.handler Sample.utc
         (DatabaseStorage
            (withExpenses Sample.orphanLedger
               (expenses Sample.orphanLedger
                ++ [Expense.mk 2 (Some 7) None 2500 (Civil.mk 2024 3 1) false None])))
         (Some (Civil.mk 2024 1 1)) (Some (Civil.mk 2024 12 31)) = Json r'
    /\ Pnl.Expenses.byCategory (Pnl.Report.expenses r')
       = Pnl.Expenses.byCategory (Pnl.Report.expenses r).
Proof.
  destruct (unfiled_expense Sample.utc Sample.orphanLedger (Civil.mk 2024 1 1)
              (Civil.mk 2024 12 31)
              (Expense.mk 2 (Some 7) None 2500 (Civil.mk 2024 3 1) false None))
    as (r & r' & Hr & Hr' & _ & _ & Hby & _).
  - intros cat [<-|[]]. reflexivity.
  - reflexivity.
  - exists r, r'. split; [exact Hr|]. split; [exact Hr'|]. apply Hby. reflexivity.
Defined.

(** ** Profit and loss: income of another type *)

Lemma incomeByCustomer_snoc (customers : list Customer.t) (income : list IncomeRecord.t)
    (i : IncomeRecord.t) (b : NamedAmount) :
  In b (Pnl.incomeByCustomer customers (income ++ [i])) ->
  exists c, In c customers
    /\ name b = Customer.name c
    /\ amount b
       = let billed :=
           sumOf IncomeRecord.amount
             (filter (fun i => refersTo (IncomeRecord.customerId i) (Customer.id c)) income) in
         if refersTo (IncomeRecord.customerId i) (Customer.id c)
         then (billed + JS.parseFloat (IncomeRecord.amount i))%float
         else billed.
Proof.
  intro Hb. apply incomeByCustomer_names in Hb as (c & Hc & Hn & Ha).
  exists c. split; [exact Hc|]. split; [exact Hn|]. rewrite Ha. cbv zeta.
  rewrite filter_app. cbn [filter].
  destruct (refersTo (IncomeRecord.customerId i) (Customer.id c)).
  - apply sumOf_snoc.
  - rewrite app_nil_r. reflexivity.
Qed.

(** X5.  An income row billed within the period whose type is neither
    "route" nor "adhoc" changes neither the route income, the ad-hoc income,
    the total income, the expenses nor the net profit of the report; yet the
    bucket of its customer in the by-customer view counts its amount. *)
Theorem income_of_other_type (env : Env) (db : Database) (from to : Civil.t)
    (i : IncomeRecord.t) :
  billedWithin from to i = true ->
  strictEq (IncomeRecord.incomeType i) "route" = false ->
  strictEq (IncomeRecord.incomeType i) "adhoc" = false ->
  exists r r' : Pnl.Report.t,
    Pnl.handler env (DatabaseStorage db) (Some from) (Some to) = Json r
    /\ Pnl.handler env (DatabaseStorage (addIncome db i)) (Some from) (Some to) = Json r'
    /\ Pnl.Income.routeIncome (Pnl.Report.income r')
       = Pnl.Income.routeIncome (Pnl.Report.income r)
    /\ Pnl.Income.adhocIncome (Pnl.Report.income r')
       = Pnl.Income.adhocIncome (Pnl.Report.income r)
    /\ Pnl.Income.totalIncome (Pnl.Report.income r')
       = Pnl.Income.totalIncome (Pnl.Report.income r)
    /\ Pnl.Report.expenses r' = Pnl.Report.expenses r
    /\ Pnl.Report.netProfit r' = Pnl.Report.netProfit r
    /\ (forall b, In b (Pnl.Income.byCustomer (Pnl.Report.income r')) ->
          exists c, In c (customers db)
            /\ name b = Customer.name c
            /\ amount b
               = let billed :=
                   sumOf IncomeRecord.amount
                     (filter (fun i => refersTo (IncomeRecord.customerId i) (Customer.id c))
                        (filter (billedWithin from to) (incomeRecords db))) in
                 if refersTo (IncomeRecord.customerId i) (Customer.id c)
                 then (billed + JS.parseFloat (IncomeRecord.amount i))%float
                 else billed).
Proof.
  intros Hin Hroute Hadhoc.
  unfold Pnl.handler, Pnl.report.
  cbn [await respond getIncomeByPeriod getExpensesByPeriod getCustomers getRoutes
       getEmployees getExpenseCategories DatabaseStorage].
  eexists. eexists. split; [reflexivity|]. split; [reflexivity|]. cbv zeta.
  cbn [Pnl.Report.expenses Pnl.Report.income Pnl.Report.netProfit Pnl.Income.routeIncome
       Pnl.Income.adhocIncome Pnl.Income.totalIncome Pnl.Income.byCustomer
       addIncome expenses expenseCategories routes employees customers incomeRecords].
  change (fun r => Sql.gteText (IncomeRecord.billingPeriod r) (substring_0_7 from)
                   && Sql.lteText (IncomeRecord.billingPeriod r) (substring_0_7 to))
    with (billedWithin from to).
  rewrite filter_app. cbn [filter]. rewrite Hin.
  rewrite routeIncome_snoc, adhocIncome_snoc, Hroute, Hadhoc.
  repeat (split; [reflexivity|]).
  intros b Hb. apply incomeByCustomer_snoc in Hb as (c & Hc & Hb).
  exists c. split; [|exact Hb]. apply in_orderBy in Hc. exact Hc.
Qed.

Lemma income_of_other_type_witness :
  exists r r' : Pnl.Report.t,
    Pnl.handler Sample.utc (DatabaseStorage Sample.orphanLedger)
      (Some (Civil.mk 2024 1 1)) (Some (Civil.mk 2024 12 31)) = Json r
    /\ Pnl.handler Sample.utc
         (DatabaseStorage
            (addIncome Sample.orphanLedger
               (IncomeRecord.mk 3 (Some 1) None 70000 "2024-04" "charter" "paid")))
         (Some (Civil.mk 2024 1 1)) (Some (Civil.mk 2024 12 31)) = Json r'
    /\ Pnl.Income.totalIncome (Pnl.Report.income r')
       = Pnl.Income.totalIncome (Pnl.Report.income r).
Proof.
  destruct (income_of_other_type Sample.utc Sample.orphanLedger (Civil.mk 2024 1 1)
              (Civil.mk 2024 12 31)
              (IncomeRecord.mk 3 (Some 1) None 70000 "2024-04" "charter" "paid"))
    as (r & r' & Hr & Hr' & _ & _ & Ht & _); try reflexivity.
  exists r, r'. split; [exact Hr|]. split; [exact Hr'|]. exact Ht.
Defined.

(** ** Storage: income is matched by month *)

Lemma substring_0_7_digits (d : Civil.t) :
  Civil.valid d ->
  substring_0_7 d = (digits4 (Civil.year d) ++ "-" ++ digits2 (Civil.month d))%string.
Proof.
  intros (Hy & Hm & Hd). pose proof (valid_day d (conj Hy (conj Hm Hd))) as Hdd.
  unfold substring_0_7, JS.isoDate.
  rewrite padStart4_year, !padStart2_field by lia.
  reflexivity.
Qed.

Lemma monthKey_digits (y m : Z) :
  1000 <= y <= 9999 -> 1 <= m <= 12 ->
  JS.monthKey y m = (digits4 y ++ "-" ++ digits2 m)%string.
Proof.
  intros Hy Hm. unfold JS.monthKey.
  rewrite toString_year, padStart2_field by lia. reflexivity.
Qed.

Lemma leb_month_text (y1 m1 y2 m2 : Z) :
  0 <= y1 <= 9999 -> 0 <= y2 <= 9999 -> 1 <= m1 <= 12 -> 1 <= m2 <= 12 ->
  String.leb (digits4 y1 ++ "-" ++ digits2 m1) (digits4 y2 ++ "-" ++ digits2 m2)
  = (12 * y1 + m1 <=? 12 * y2 + m2).
Proof.
  intros Hy1 Hy2 Hm1 Hm2. unfold String.leb.
  rewrite compare_digits4 by lia.
  rewrite <- (append_empty (digits2 m1)), <- (append_empty (digits2 m2)).
  change ("-" ++ digits2 m1 ++ "")%string with (String "-" (digits2 m1 ++ "")).
  rewrite compare_field by lia. cbn [String.compare].
  destruct (Z.compare_spec y1 y2); destruct (Z.compare_spec m1 m2);
    destruct (Z.leb_spec (12 * y1 + m1) (12 * y2 + m2)); try reflexivity; lia.
Qed.

(** X6.  Income is selected by month: an income row billed to the month [m]
    of the year [y] is among the rows read for the period [[from, to]] exactly
    when that month is no earlier than the month of [from] and no later than
    the month of [to]; the days of [from] and [to] play no part. *)
Theorem income_by_month (db : Database) (from to : Civil.t) (i : IncomeRecord.t) (y m : Z) :
  Civil.valid from -> Civil.valid to ->
  1000 <= y <= 9999 -> 1 <= m <= 12 ->
  IncomeRecord.billingPeriod i = JS.monthKey y m ->
  In i (resolved (getIncomeByPeriod (DatabaseStorage db) from to))
  <-> In i (incomeRecords db) /\ civilMonth from <= 12 * y + m <= civilMonth to.
Proof.
  intros Hf Ht Hy Hm Hp.
  cbn [getIncomeByPeriod DatabaseStorage resolved].
  rewrite filter_In. unfold Sql.gteText, Sql.lteText, civilMonth.
  rewrite Hp, monthKey_digits, !substring_0_7_digits by assumption.
  destruct Hf as (Hfy & Hfm & _), Ht as (Hty & Htm & _).
  rewrite !leb_month_text by lia.
  rewrite andb_true_iff, !Z.leb_le. tauto.
Qed.

Lemma income_by_month_witness :
  In Sample.unbilled
    (resolved (getIncomeByPeriod (DatabaseStorage Sample.orphanLedger)
                 (Civil.mk 2024 2 29) (Civil.mk 2024 2 1)))
  <-> In Sample.unbilled (incomeRecords Sample.orphanLedger)
      /\ civilMonth (Civil.mk 2024 2 29) <= 12 * 2024 + 2 <= civilMonth (Civil.mk 2024 2 1).
Proof.
  apply (income_by_month Sample.orphanLedger (Civil.mk 2024 2 29) (Civil.mk 2024 2 1)
           Sample.unbilled 2024 2).
  - vm_compute. intuition discriminate.
  - vm_compute. intuition discriminate.
  - lia.
  - lia.
  - reflexivity.
Defined.

(** ** Profit and loss: the period by default *)

(** X7.  Without [from] and [to] the report runs from 1 January of the
    current year of the server's clock to the current date in UTC.  On a
    server at or east of UTC that is today's date once the local day is as
    many minutes old as the zone is ahead of UTC: the report is the one asked
    for 1 January to today, and charges subcontractors and payroll for as many
    months as the number of the current month, the current month in full.
    Earlier in the local day the period ends the day before. *)
Theorem pnl_default_period (env : Env) (db : Database) :
  let clock := now env in
  let jan1 := Civil.mk (JS.Date.getFullYear clock) 1 1 in
  let today :=
    Civil.mk (JS.Date.getFullYear clock) (JS.Date.getMonth clock + 1)
      (JS.Date.dayOfMonth clock) in
  (0 <= tz env <= JS.Date.minuteOfDay clock -> JS.Date.minuteOfDay clock < 1440 ->
   Pnl.handler env (DatabaseStorage db) None None
   = Pnl.handler env (DatabaseStorage db) (Some jan1) (Some today)
   /\ exists r : Pnl.Report.t,
        Pnl.handler env (DatabaseStorage db) None None = Json r
        /\ Pnl.Report.period r = Pnl.Period.mk jan1 today
        /\ Pnl.Expenses.subcontractorCosts (Pnl.Report.expenses r)
           = Pnl.subcontractorCosts (resolved (getRoutes (DatabaseStorage db)))
               (JS.Date.getMonth clock + 1)
        /\ Pnl.Expenses.employeeCosts (Pnl.Report.expenses r)
           = Pnl.employeeCosts (resolved (getEmployees (DatabaseStorage db)))
               (JS.Date.getMonth clock + 1))
  /\ (JS.Date.minuteOfDay clock < tz env ->
      exists r : Pnl.Report.t,
        Pnl.handler env (DatabaseStorage db) None None = Json r
        /\ Pnl.Report.period r = Pnl.Period.mk jan1 (Civil.prevDay today)).
Proof.
  cbv zeta. split.
  - intros Htz Hday.
    assert (Hto : JS.Date.toISODate (tz env) (now env)
                  = Civil.mk (JS.Date.getFullYear (now env)) (JS.Date.getMonth (now env) + 1)
                      (JS.Date.dayOfMonth (now env))).
    { unfold JS.Date.toISODate. cbv zeta.
      destruct (Z.ltb_spec (JS.Date.minuteOfDay (now env) - tz env) 0); [lia|].
      destruct (Z.leb_spec 1440 (JS.Date.minuteOfDay (now env) - tz env)); [lia|].
      reflexivity. }
    split.
    + unfold Pnl.handler, Pnl.report. rewrite Hto. reflexivity.
    + unfold Pnl.handler, Pnl.report. rewrite Hto.
      cbn [await respond getIncomeByPeriod getExpensesByPeriod getCustomers getRoutes
           getEmployees getExpenseCategories DatabaseStorage resolved].
      eexists. split; [reflexivity|]. cbv zeta.
      cbn [Pnl.Report.period Pnl.Report.expenses Pnl.Expenses.subcontractorCosts
           Pnl.Expenses.employeeCosts].
      rewrite monthsInPeriod_east by lia.
      unfold Spec.monthsSpanned. cbn [Civil.year Civil.month].
      replace ((JS.Date.getFullYear (now env) - JS.Date.getFullYear (now env)) * 12
               + (JS.Date.getMonth (now env) + 1 - 1) + 1)
        with (JS.Date.getMonth (now env) + 1) by lia.
      repeat split.
  - intro Hearly.
    assert (Hto : JS.Date.toISODate (tz env) (now env)
                  = Civil.prevDay
                      (Civil.mk (JS.Date.getFullYear (now env))
                         (JS.Date.getMonth (now env) + 1) (JS.Date.dayOfMonth (now env)))).
    { unfold JS.Date.toISODate. cbv zeta.
      destruct (Z.ltb_spec (JS.Date.minuteOfDay (now env) - tz env) 0); [|lia].
      reflexivity. }
    unfold Pnl.handler, Pnl.report. rewrite Hto.
    cbn [await respond getIncomeByPeriod getExpensesByPeriod getCustomers getRoutes
         getEmployees getExpenseCategories DatabaseStorage].
    eexists. split; reflexivity.
Qed.

Lemma pnl_default_period_witness :
  Pnl.handler Sample.utc (DatabaseStorage Sample.oneRouteOneEmployee) None None
  = Pnl.handler Sample.utc (DatabaseStorage Sample.oneRouteOneEmployee)
      (Some (Civil.mk 2024 1 1)) (Some (Civil.mk 2024 1 15)).
Proof.
  apply (proj1 (pnl_default_period Sample.utc Sample.oneRouteOneEmployee)).
  - cbn. unfold Spec.UTC. lia.
  - cbn. lia.
Defined.

(** On a server at UTC+8, at seven in the morning of 1 January 2025, the
    period by default starts on 1 January 2025 and ends on 31 December
    2024. *)
Remark default_period_on_new_year_morning :
  exists r : Pnl.Report.t,
    Pnl.handler (mkEnv 480 (JS.Date.mk 2025 0 1 420)) (DatabaseStorage Sample.orphanLedger)
      None None = Json r
    /\ Pnl.Report.period r = Pnl.Period.mk (Civil.mk 2025 1 1) (Civil.mk 2024 12 31).
Proof. eexists. split; reflexivity. Qed.

(** ** Dashboard: the income of the month and of the year to date *)

Lemma eqb_month_text (y1 m1 y2 m2 : Z) :
  0 <= y1 <= 9999 -> 0 <= y2 <= 9999 -> 1 <= m1 <= 12 -> 1 <= m2 <= 12 ->
  String.eqb (digits4 y1 ++ "-" ++ digits2 m1) (digits4 y2 ++ "-" ++ digits2 m2)
  = (y1 =? y2) && (m1 =? m2).
Proof.
  intros Hy1 Hy2 Hm1 Hm2.
  destruct (String.eqb_spec (digits4 y1 ++ "-" ++ digits2 m1)
              (digits4 y2 ++ "-" ++ digits2 m2)) as [Heq|Hne].
  - pose proof (leb_month_text y1 m1 y2 m2 Hy1 Hy2 Hm1 Hm2) as H12.
    pose proof (leb_month_text y2 m2 y1 m1 Hy2 Hy1 Hm2 Hm1) as H21.
    rewrite Heq in H12. rewrite <- Heq in H21.
    destruct (String.leb_total (digits4 y2 ++ "-" ++ digits2 m2)
                (digits4 y2 ++ "-" ++ digits2 m2)) as [Hr|Hr];
      rewrite Hr in H12; symmetry in H12; apply Z.leb_le in H12;
      destruct (String.leb_total (digits4 y1 ++ "-" ++ digits2 m1)
                  (digits4 y1 ++ "-" ++ digits2 m1)) as [Hs|Hs];
      rewrite Hs in H21; symmetry in H21; apply Z.leb_le in H21;
      symmetry; apply andb_true_iff; split; apply Z.eqb_eq; lia.
  - symmetry. apply not_true_is_false. intro H.
    apply andb_true_iff in H as [Hy Hm]. apply Z.eqb_eq in Hy, Hm. subst.
    apply Hne. reflexivity.
Qed.

(** X21.  When every income row is billed to a month written as the month
    key of a year and a month number, the income of the month of the
    dashboard is the income billed to the current month, and the income of
    the year to date is the income billed to the months of the current year
    up to the current one: income billed to a later month or to another year
    is left out. *)
Theorem dashboard_income (env : Env) (db : Database) (billed : IncomeRecord.t -> Z * Z) :
  1000 <= JS.Date.getFullYear (now env) <= 9999 ->
  0 <= JS.Date.getMonth (now env) <= 11 ->
  (forall i, In i (incomeRecords db) ->
     1000 <= fst (billed i) <= 9999 /\ 1 <= snd (billed i) <= 12
     /\ IncomeRecord.billingPeriod i = JS.monthKey (fst (billed i)) (snd (billed i))) ->
  exists s : Dashboard.Stats,
    Dashboard.handler env (DatabaseStorage db) = Json s
    /\ let y := JS.Date.getFullYear (now env) in
       let m := JS.Date.getMonth (now env) + 1 in
       let income := resolved (getIncomeRecords (DatabaseStorage db)) in
       Dashboard.totalIncomeMonth s
       = sumOf IncomeRecord.amount
           (filter (fun i => (fst (billed i) =? y) && (snd (billed i) =? m)) income)
       /\ Dashboard.totalIncomeYTD s
          = sumOf IncomeRecord.amount
              (filter (fun i => (fst (billed i) =? y) && (snd (billed i) <=? m)) income).
Proof.
  intros Hy Hm Hbilled.
  unfold Dashboard.handler, Dashboard.stats.
  cbn [await respond getIncomeRecords getExpenses getRoutes getEmployees DatabaseStorage
       resolved].
  eexists. split; [reflexivity|]. cbv zeta.
  cbn [Dashboard.totalIncomeMonth Dashboard.totalIncomeYTD].
  unfold JS.Date.getFullYear, JS.Date.getMonth in *.
  set (y := JS.Date.fullYear (now env)) in *.
  set (m := JS.Date.monthIndex (now env)) in *.
  set (income := Sql.orderBy (Sql.desc String.leb IncomeRecord.billingPeriod)
                   (incomeRecords db)).
  assert (Hin : forall i, In i income ->
            1000 <= fst (billed i) <= 9999 /\ 1 <= snd (billed i) <= 12
            /\ IncomeRecord.billingPeriod i
               = (digits4 (fst (billed i)) ++ "-" ++ digits2 (snd (billed i)))%string).
  { intros i Hi. apply in_orderBy in Hi. destruct (Hbilled i Hi) as (H1 & H2 & H3).
    split; [exact H1|]. split; [exact H2|]. rewrite H3. apply monthKey_digits; assumption. }
  split.
  - f_equal. apply filter_ext_in. intros i Hi. destruct (Hin i Hi) as (H1 & H2 & H3).
    unfold strictEq. rewrite H3, monthKey_digits by lia.
    apply eqb_month_text; lia.
  - f_equal. apply filter_ext_in. intros i Hi. destruct (Hin i Hi) as (H1 & H2 & H3).
    rewrite H3, monthKey_digits, toString_year by lia.
    change (digits4 y ++ "-01")%string with (digits4 y ++ "-" ++ digits2 1)%string.
    rewrite !leb_month_text by lia.
    destruct (Z.eqb_spec (fst (billed i)) y); destruct (Z.leb_spec (snd (billed i)) (m + 1));
      destruct (Z.leb_spec (12 * y + 1) (12 * fst (billed i) + snd (billed i)));
      destruct (Z.leb_spec (12 * fst (billed i) + snd (billed i)) (12 * y + (m + 1)));
      try reflexivity; lia.
Qed.

Lemma dashboard_income_witness :
  exists s : Dashboard.Stats,
    Dashboard.handler Sample.utc (DatabaseStorage Sample.orphanLedger) = Json s
    /\ Dashboard.totalIncomeYTD s
       = sumOf IncomeRecord.amount
           (filter (fun i => (2024 =? 2024) && (IncomeRecord.id i + 1 <=? 1))
              (resolved (getIncomeRecords (DatabaseStorage Sample.orphanLedger)))).
Proof.
  destruct (dashboard_income Sample.utc Sample.orphanLedger
              (fun i => (2024, IncomeRecord.id i + 1))) as (s & Hs & _ & Hytd).
  - cbn. lia.
  - cbn. lia.
  - intros i [<-|[<-|[]]]; cbn; repeat split; lia.
  - exists s. split; [exact Hs | exact Hytd].
Defined.

(** ** Profit and loss: the by-customer view *)

Lemma filter_map_buckets {A : Type} (nameOf : A -> string) (sum : A -> float) (l : list A) :
  filter (fun b => PrimFloat.ltb 0 (amount b))
    (map (fun c => mkNamedAmount (nameOf c) (sum c)) l)
  = map (fun c => mkNamedAmount (nameOf c) (sum c))
      (filter (fun c => PrimFloat.ltb 0 (sum c)) l).
Proof.
  induction l as [|c l IH]; [reflexivity|].
  cbn [map filter amount]. destruct (PrimFloat.ltb 0 (sum c)).
  - cbn [map]. rewrite IH. reflexivity.
  - exact IH.
Qed.

(** X22.  The by-customer view of the report holds, in the order of the
    customer names, one bucket for each customer row whose income billed in
    the period sums to more than 0, named after the customer and holding that
    sum; a customer whose income sums to 0 or less has no bucket, and two
    customers of the same name have a bucket each. *)
Theorem pnl_by_customer (env : Env) (db : Database) (from to : Civil.t) :
  exists r : Pnl.Report.t,
    Pnl.handler env (DatabaseStorage db) (Some from) (Some to) = Json r
    /\ let income := filter (billedWithin from to) (incomeRecords db) in
       let billedTo c :=
         sumOf IncomeRecord.amount
           (filter (fun i => refersTo (IncomeRecord.customerId i) (Customer.id c)) income) in
       Pnl.Income.byCustomer (Pnl.Report.income r)
       = map (fun c => mkNamedAmount (Customer.name c) (billedTo c))
           (filter (fun c => PrimFloat.ltb 0 (billedTo c))
              (resolved (getCustomers (DatabaseStorage db))))
       /\ Forall (fun b => PrimFloat.ltb 0 (amount b) = true)
            (Pnl.Income.byCustomer (Pnl.Report.income r))
       /\ StronglySorted (fun a b => String.leb (name a) (name b) = true)
            (Pnl.Income.byCustomer (Pnl.Report.income r))
       /\ Permutation
            (filter (fun c => PrimFloat.ltb 0 (billedTo c))
               (resolved (getCustomers (DatabaseStorage db))))
            (filter (fun c => PrimFloat.ltb 0 (billedTo c)) (customers db)).
Proof.
  destruct (pnl_income env db from to) as (r & Hr & Hinc).
  exists r. split; [exact Hr|]. rewrite Hinc. cbv zeta.
  cbn [Pnl.Income.byCustomer resolved getCustomers DatabaseStorage].
  set (income := filter (billedWithin from to) (incomeRecords db)).
  set (billedTo := fun c : Customer.t =>
         sumOf IncomeRecord.amount
           (filter (fun i => refersTo (IncomeRecord.customerId i) (Customer.id c)) income)).
  set (sorted := Sql.orderBy (Sql.asc String.leb Customer.name) (customers db)).
  assert (Hview : Pnl.incomeByCustomer sorted income
                  = map (fun c => mkNamedAmount (Customer.name c) (billedTo c))
                      (filter (fun c => PrimFloat.ltb 0 (billedTo c)) sorted)).
  { unfold Pnl.incomeByCustomer. apply (filter_map_buckets Customer.name billedTo). }
  split; [exact Hview|]. split; [|split].
  - unfold Pnl.incomeByCustomer. apply positive_buckets.
  - rewrite Hview.
    pose proof (orderBy_sorted (Sql.asc String.leb Customer.name)
                  (asc_total _ _ String.leb_total) (asc_trans _ _ string_leb_trans)
                  (customers db)) as Hs.
    fold sorted in Hs. revert Hs. generalize sorted. intros l Hs.
    induction Hs as [|c l Hs IH Hall]; cbn [filter map]; [constructor|].
    destruct (PrimFloat.ltb 0 (billedTo c)); [|exact IH].
    cbn [map]. constructor; [exact IH|].
    apply Forall_forall. intros b Hb. apply in_map_iff in Hb as (c' & <- & Hc').
    apply filter_In in Hc' as [Hc' _]. cbn [name].
    rewrite Forall_forall in Hall. apply (Hall c' Hc').
  - unfold sorted.
    rewrite (filter_orderBy (Sql.asc String.leb Customer.name)
               (asc_total _ _ String.leb_total) (asc_trans _ _ string_leb_trans)).
    apply orderBy_perm.
Qed.

(** ** Cash flow: the rows of the forecast *)

Section Rows.

Variable env : Env.
Variable inp : CashFlow.Inputs.

(** Each row is the one the body of the loop builds at its index, from some
    running balance. *)
Lemma fold_body_row (n k : nat) (st : CashFlow.LoopState) :
  List.length (fst st) = k ->
  (forall i row, nth_error (fst st) i = Some row ->
     exists balance, fst (CashFlow.body env inp ([], balance) (Z.of_nat i)) = [row]) ->
  forall i row,
    nth_error (fst (fold_left (CashFlow.body env inp) (map Z.of_nat (seq k n)) st)) i
    = Some row ->
    exists balance, fst (CashFlow.body env inp ([], balance) (Z.of_nat i)) = [row].
Proof.
  revert k st. induction n as [|n IH]; intros k st Hlen Hinv; cbn [seq map fold_left].
  - exact Hinv.
  - apply (IH (S k)).
    + rewrite body_length. lia.
    + destruct st as [months cum]. cbn [fst] in *.
      intros i row Hi. unfold CashFlow.body in Hi. cbn [fst] in Hi.
      destruct (Nat.lt_ge_cases i (List.length months)) as [Hlt|Hge].
      * rewrite nth_error_app1 in Hi by exact Hlt. apply Hinv, Hi.
      * rewrite nth_error_app2 in Hi by exact Hge.
        destruct (i - List.length months)%nat as [|j] eqn:E; cbn [nth_error] in Hi.
        -- injection Hi as <-. replace i with k by lia. exists cum. reflexivity.
        -- destruct j; discriminate Hi.
Qed.

Lemma loop_row (periodMonths : Z) (i : nat) (row : CashFlow.MonthRow.t) :
  nth_error (fst (CashFlow.loop env inp periodMonths)) i = Some row ->
  exists balance, fst (CashFlow.body env inp ([], balance) (Z.of_nat i)) = [row].
Proof.
  unfold CashFlow.loop, CashFlow.indices. apply fold_body_row; [reflexivity|].
  intros [|j] r H; discriminate H.
Qed.

(** The loop only appends: the rows it starts from stay in front. *)
Lemma fold_body_prefix (l : list Z) (st : CashFlow.LoopState) :
  firstn (List.length (fst st)) (fst (fold_left (CashFlow.body env inp) l st)) = fst st.
Proof.
  revert st. induction l as [|i l IH]; intro st; cbn [fold_left].
  - apply firstn_all.
  - specialize (IH (CashFlow.body env inp st i)).
    rewrite body_length in IH.
    assert (H : firstn (List.length (fst st))
                  (firstn (S (List.length (fst st)))
                     (fst (fold_left (CashFlow.body env inp) l (CashFlow.body env inp st i))))
                = fst st).
    { rewrite IH. destruct st as [months cum]. unfold CashFlow.body. cbn [fst].
      rewrite firstn_app, Nat.sub_diag, firstn_all. cbn [firstn]. apply app_nil_r. }
    rewrite firstn_firstn in H.
    replace (Nat.min (List.length (fst st)) (S (List.length (fst st))))
      with (List.length (fst st)) in H by lia.
    exact H.
Qed.

Lemma loop_prefix (p q : Z) :
  p <= q ->
  firstn (Z.to_nat p) (fst (CashFlow.loop env inp q)) = fst (CashFlow.loop env inp p).
Proof.
  intro Hpq. unfold CashFlow.loop at 1, CashFlow.indices.
  replace (Z.to_nat q) with (Z.to_nat p + (Z.to_nat q - Z.to_nat p))%nat by lia.
  rewrite seq_app, map_app, fold_left_app.
  fold (CashFlow.indices p). fold (CashFlow.loop env inp p).
  rewrite <- (loop_length env inp p) at 1.
  apply fold_body_prefix.
Qed.

End Rows.

(** X8.  The forecast covers consecutive months from the current one: row i
    is dated the first day of the month i months after the current month, the
    year carried across December. *)
Theorem forecast_months (env : Env) (db : Database) (period : option Z) :
  exists f : CashFlow.Forecast.t,
    CashFlow.handler env (DatabaseStorage db) period = Json f
    /\ forall i row, nth_error (CashFlow.Forecast.months f) i = Some row ->
         let d := CashFlow.MonthRow.month row in
         monthOrdinal d = monthOrdinal (now env) + Z.of_nat i
         /\ 0 <= JS.Date.monthIndex d <= 11
         /\ JS.Date.dayOfMonth d = 1.
Proof.
  destruct (forecast_rows env db period) as (f & Hf & Hrows).
  exists f. split; [exact Hf|]. intros i row Hrow.
  destruct (Hrows i row Hrow) as (Hm & _). cbv zeta. rewrite Hm. unfold rowDate.
  split; [|split].
  - rewrite ofLocalMonth_ordinal. unfold monthOrdinal, JS.Date.getFullYear, JS.Date.getMonth.
    lia.
  - apply ofLocalMonth_index.
  - reflexivity.
Qed.

(** X9.  The forecast is flat in what it takes from the routes, the payroll
    and the recurring expenses: every row reports as inflows the monthly
    rates of the routes active today, as employee costs today's employer cost
    of the active employees, as subcontractor costs those of the active
    subcontracted routes, and as recurring expenses the sum of the expenses
    marked recurring every month; expected payments are 0 in every row. *)
Theorem forecast_flat (env : Env) (db : Database) (period : option Z) :
  exists f : CashFlow.Forecast.t,
    CashFlow.handler env (DatabaseStorage db) period = Json f
    /\ forall row, In row (CashFlow.Forecast.months f) ->
         let details := CashFlow.MonthRow.details row in
         CashFlow.MonthRow.inflows row
         = CashFlow.routeIncome (resolved (getRoutes (DatabaseStorage db)))
         /\ CashFlow.Details.routeIncome details = CashFlow.MonthRow.inflows row
         /\ CashFlow.Details.expectedPayments details = 0%float
         /\ CashFlow.Details.employeeCosts details
            = CashFlow.employeeCosts (resolved (getEmployees (DatabaseStorage db)))
         /\ CashFlow.Details.subcontractorCosts details
            = CashFlow.subcontractorCosts (resolved (getRoutes (DatabaseStorage db)))
         /\ CashFlow.Details.recurringExpenses details
            = sumOf Expense.amount
                (filter projected (resolved (getExpenses (DatabaseStorage db)))).
Proof.
  pose proof (forecast_of_loop env db period) as Hf. cbv zeta in Hf.
  eexists. split; [exact Hf|]. cbn [CashFlow.Forecast.months].
  intros row Hrow. apply In_nth_error in Hrow as (i & Hi).
  apply loop_row in Hi as (balance & Hi).
  unfold CashFlow.body in Hi. cbn [fst app] in Hi. injection Hi as <-.
  cbv zeta. cbn [CashFlow.MonthRow.inflows CashFlow.MonthRow.details
                 CashFlow.Details.routeIncome CashFlow.Details.expectedPayments
                 CashFlow.Details.employeeCosts CashFlow.Details.subcontractorCosts
                 CashFlow.Details.recurringExpenses].
  repeat split.
Qed.

(** X10.  A longer forecast extends a shorter one: the rows of the forecast
    over fewer months are the first rows of the forecast over more months,
    with the same flows and the same cumulative balances. *)
Theorem forecast_prefix (env : Env) (db : Database) (p q : option Z) :
  CashFlow.periodMonths p <= CashFlow.periodMonths q ->
  exists fp fq : CashFlow.Forecast.t,
    CashFlow.handler env (DatabaseStorage db) p = Json fp
    /\ CashFlow.handler env (DatabaseStorage db) q = Json fq
    /\ firstn (Z.to_nat (CashFlow.periodMonths p)) (CashFlow.Forecast.months fq)
       = CashFlow.Forecast.months fp.
Proof.
  intro Hpq.
  pose proof (forecast_of_loop env db p) as Hp. cbv zeta in Hp.
  pose proof (forecast_of_loop env db q) as Hq. cbv zeta in Hq.
  eexists. eexists. split; [exact Hp|]. split; [exact Hq|].
  cbn [CashFlow.Forecast.months]. apply loop_prefix, Hpq.
Qed.

Lemma forecast_prefix_witness :
  exists fp fq : CashFlow.Forecast.t,
    CashFlow.handler Sample.utc (DatabaseStorage Sample.withInactiveBus) (Some 3) = Json fp
    /\ CashFlow.handler Sample.utc (DatabaseStorage Sample.withInactiveBus) None = Json fq
    /\ firstn 3 (CashFlow.Forecast.months fq) = CashFlow.Forecast.months fp.
Proof.
  apply (forecast_prefix Sample.utc Sample.withInactiveBus (Some 3) None).
  cbn. lia.
Defined.

(** ** Cash flow: loans and parking on a UTC server *)

Lemma vehicleInstallments_utc (y m : Z) (installments : list VehicleInstallment.t) :
  CashFlow.vehicleInstallments Spec.UTC (JS.Date.ofLocalMonth y m) installments
  = sumOf VehicleInstallment.monthlyAmount
      (filter (fun inst => Spec.within (VehicleInstallment.startDate inst)
                             (VehicleInstallment.endDate inst) (Spec.firstOfMonth y m))
         installments).
Proof.
  unfold CashFlow.vehicleInstallments. f_equal. apply filter_ext. intro inst.
  cbv zeta. rewrite leb_parse_month, leb_month_parse. reflexivity.
Qed.

(** The first of a month up to December 9999 is before 31 December 9999. *)
Lemma leb_month_9999 (y m : Z) :
  y + m / 12 <= 9999 ->
  JS.Date.leb (JS.Date.ofLocalMonth y m) (JS.Date.ofLocal 9999 11 31) = true.
Proof.
  intro H. unfold JS.Date.leb, JS.Date.compare, JS.Date.ofLocalMonth, JS.Date.ofLocal.
  cbn [JS.Date.fullYear JS.Date.monthIndex JS.Date.dayOfMonth JS.Date.minuteOfDay].
  pose proof (Z.mod_pos_bound m 12).
  destruct (Z.compare_spec (y + m / 12) 9999); [| reflexivity | lia].
  destruct (Z.compare_spec (m mod 12) 11); [| reflexivity | lia].
  reflexivity.
Qed.

Lemma vehicleParking_utc (y m : Z) (parking : list VehicleParking.t) :
  y + m / 12 <= 9999 ->
  CashFlow.vehicleParking Spec.UTC (JS.Date.ofLocalMonth y m) parking
  = sumOf VehicleParking.monthlyCost (filter (parkingDue (Spec.firstOfMonth y m)) parking).
Proof.
  intro H. unfold CashFlow.vehicleParking. f_equal. apply filter_ext. intro p.
  cbv zeta. unfold parkingDue. rewrite leb_parse_month.
  destruct (VehicleParking.endDate p) as [e|].
  - rewrite leb_month_parse. reflexivity.
  - rewrite (leb_month_9999 y m H). reflexivity.
Qed.

(** X11.  On a UTC server, the instalments due in a forecast month are the
    monthly amounts of the loans whose term, ends included, holds the first
    day of that month, and the parking due is the monthly cost of the parking
    rows that started on or before that day and have no end date or end on or
    after it; these are the instalment and parking details of the row of the
    month.  A vehicle's status plays no part. *)
Theorem schedules_utc (clock : JS.Date.t) (db : Database) (period : option Z) :
  JS.Date.getFullYear clock
  + (JS.Date.getMonth clock + CashFlow.periodMonths period) / 12 <= 9999 ->
  exists f : CashFlow.Forecast.t,
    CashFlow.handler (mkEnv Spec.UTC clock) (DatabaseStorage db) period = Json f
    /\ forall i row, nth_error (CashFlow.Forecast.months f) i = Some row ->
         let first :=
           Spec.firstOfMonth (JS.Date.getFullYear clock)
             (JS.Date.getMonth clock + Z.of_nat i) in
         CashFlow.Details.vehicleInstallments (CashFlow.MonthRow.details row)
         = sumOf VehicleInstallment.monthlyAmount
             (filter (fun inst => Spec.within (VehicleInstallment.startDate inst)
                                    (VehicleInstallment.endDate inst) first)
                (vehicleInstallments db))
         /\ CashFlow.Details.vehicleParking (CashFlow.MonthRow.details row)
            = sumOf VehicleParking.monthlyCost
                (filter (parkingDue first) (vehicleParking db)).
Proof.
  intro Hyear.
  pose proof (forecast_of_loop (mkEnv Spec.UTC clock) db period) as Hf. cbv zeta in Hf.
  eexists. split; [exact Hf|]. cbn [CashFlow.Forecast.months].
  intros i row Hi.
  assert (Hlt : (i < Z.to_nat (CashFlow.periodMonths period))%nat).
  { rewrite <- (loop_length (mkEnv Spec.UTC clock) (inputsOf db)).
    apply nth_error_Some. rewrite Hi. discriminate. }
  apply loop_row in Hi as (balance & Hi).
  unfold CashFlow.body in Hi. cbn [fst app] in Hi. injection Hi as <-.
  cbv zeta. cbn [CashFlow.MonthRow.details CashFlow.Details.vehicleInstallments
                 CashFlow.Details.vehicleParking tz now].
  split.
  - apply vehicleInstallments_utc.
  - apply vehicleParking_utc.
    assert ((JS.Date.getMonth clock + Z.of_nat i) / 12
            <= (JS.Date.getMonth clock + CashFlow.periodMonths period) / 12).
    { apply Z.div_le_mono; lia. }
    lia.
Qed.

Lemma schedules_utc_witness :
  exists f : CashFlow.Forecast.t,
    CashFlow.handler (mkEnv Spec.UTC Sample.dec2024) (DatabaseStorage Sample.withInactiveBus)
      (Some 2) = Json f
    /\ forall i row, nth_error (CashFlow.Forecast.months f) i = Some row ->
         CashFlow.Details.vehicleParking (CashFlow.MonthRow.details row)
         = sumOf VehicleParking.monthlyCost
             (filter (parkingDue (Spec.firstOfMonth 2024 (11 + Z.of_nat i)))
                (vehicleParking Sample.withInactiveBus)).
Proof.
  destruct (schedules_utc Sample.dec2024 Sample.withInactiveBus (Some 2)) as (f & Hf & H).
  - vm_compute. discriminate.
  - exists f. split; [exact Hf|]. intros i row Hi. apply (H i row Hi).
Defined.

(** ** Rows the reports pass over *)

Lemma filter_without {A : Type} (p : A -> bool) (l1 l2 : list A) (x : A) :
  p x = false -> filter p (l1 ++ x :: l2) = filter p (l1 ++ l2).
Proof. intro H. rewrite !filter_app. cbn [filter]. rewrite H. reflexivity. Qed.

Lemma not_active (status : string) :
  status <> "active"%string -> strictEq status "active" = false.
Proof. intro H. unfold strictEq. apply String.eqb_neq, H. Qed.

Lemma dashboard_payroll_without (l1 l2 : list Employee.t) (e : Employee.t) :
  strictEq (Employee.status e) "active" = false ->
  Dashboard.monthlyEmployeeCosts (l1 ++ e :: l2) = Dashboard.monthlyEmployeeCosts (l1 ++ l2).
Proof.
  intro H. unfold Dashboard.monthlyEmployeeCosts. f_equal.
  apply (filter_without (fun e => strictEq (Employee.status e) "active")), H.
Qed.

Lemma pnl_payroll_without (l1 l2 : list Employee.t) (e : Employee.t) (months : Z) :
  strictEq (Employee.status e) "active" = false ->
  Pnl.employeeCosts (l1 ++ e :: l2) months = Pnl.employeeCosts (l1 ++ l2) months.
Proof.
  intro H. unfold Pnl.employeeCosts. f_equal.
  apply (filter_without (fun e => strictEq (Employee.status e) "active")), H.
Qed.

Lemma cashflow_payroll_without (l1 l2 : list Employee.t) (e : Employee.t) :
  strictEq (Employee.status e) "active" = false ->
  CashFlow.employeeCosts (l1 ++ e :: l2) = CashFlow.employeeCosts (l1 ++ l2).
Proof.
  intro H. unfold CashFlow.employeeCosts. f_equal.
  apply (filter_without (fun e => strictEq (Employee.status e) "active")), H.
Qed.

(** The loop reads the employees, the routes and the expenses only through
    three sums, so inputs that agree on those give the same rows. *)
Lemma body_ext (env : Env) (inp1 inp2 : CashFlow.Inputs) :
  CashFlow.routeIncome (CashFlow.routes inp1) = CashFlow.routeIncome (CashFlow.routes inp2) ->
  CashFlow.subcontractorCosts (CashFlow.routes inp1)
  = CashFlow.subcontractorCosts (CashFlow.routes inp2) ->
  CashFlow.employeeCosts (CashFlow.employees inp1)
  = CashFlow.employeeCosts (CashFlow.employees inp2) ->
  CashFlow.recurringExpenses (CashFlow.expenses inp1)
  = CashFlow.recurringExpenses (CashFlow.expenses inp2) ->
  CashFlow.installments inp1 = CashFlow.installments inp2 ->
  CashFlow.insurance inp1 = CashFlow.insurance inp2 ->
  CashFlow.parking inp1 = CashFlow.parking inp2 ->
  forall period, CashFlow.loop env inp1 period = CashFlow.loop env inp2 period.
Proof.
  intros Hr Hs He Hx Hi Hn Hp period. unfold CashFlow.loop.
  apply fold_left_ext. intros [months cum] i. unfold CashFlow.body.
  rewrite Hr, Hs, He, Hx, Hi, Hn, Hp. reflexivity.
Qed.

(** X12.  An employee whose status is not "active" costs nothing anywhere:
    whatever the other reads answer, the dashboard, the profit and loss
    report of any period and the forecast over any number of months computed
    from a read of the employees that returns the row are those computed from
    the same read without it, the other rows in the same order. *)
Theorem inactive_employee (env : Env) (storage : IStorage) (l1 l2 : list Employee.t)
    (e : Employee.t) :
  Employee.status e <> "active"%string ->
  Dashboard.handler env (readingEmployees storage (l1 ++ e :: l2))
  = Dashboard.handler env (readingEmployees storage (l1 ++ l2))
  /\ (forall qfrom qto,
        Pnl.handler env (readingEmployees storage (l1 ++ e :: l2)) qfrom qto
        = Pnl.handler env (readingEmployees storage (l1 ++ l2)) qfrom qto)
  /\ (forall period,
        CashFlow.handler env (readingEmployees storage (l1 ++ e :: l2)) period
        = CashFlow.handler env (readingEmployees storage (l1 ++ l2)) period).
Proof.
  intros He. apply not_active in He. split; [|split].
  - unfold Dashboard.handler, Dashboard.stats, await.
    cbn [getIncomeRecords getExpenses getRoutes getEmployees readingEmployees].
    destruct (getIncomeRecords storage); [|reflexivity].
    destruct (getExpenses storage); [|reflexivity].
    destruct (getRoutes storage); [|reflexivity].
    rewrite (dashboard_payroll_without l1 l2 e He). reflexivity.
  - intros qfrom qto. unfold Pnl.handler, Pnl.report, await.
    cbn [getIncomeByPeriod getExpensesByPeriod getCustomers getRoutes getEmployees
         getExpenseCategories readingEmployees].
    destruct (getIncomeByPeriod storage _ _); [|reflexivity].
    destruct (getExpensesByPeriod storage _ _); [|reflexivity].
    destruct (getCustomers storage); [|reflexivity].
    destruct (getRoutes storage); [|reflexivity].
    destruct (getExpenseCategories storage); [|reflexivity].
    rewrite (pnl_payroll_without l1 l2 e _ He). reflexivity.
  - intro period. unfold CashFlow.handler, CashFlow.forecast, await.
    cbn [getRoutes getEmployees getAllVehicleInstallments getAllVehicleInsurance
         getAllVehicleParking getExpenses readingEmployees].
    destruct (getRoutes storage) as [routes|]; [|reflexivity].
    destruct (getAllVehicleInstallments storage) as [installments|]; [|reflexivity].
    destruct (getAllVehicleInsurance storage) as [insurance|]; [|reflexivity].
    destruct (getAllVehicleParking storage) as [parking|]; [|reflexivity].
    destruct (getExpenses storage) as [expenses|]; [|reflexivity].
    rewrite (body_ext env
               (CashFlow.mkInputs routes (l1 ++ e :: l2) installments insurance parking
                  expenses)
               (CashFlow.mkInputs routes (l1 ++ l2) installments insurance parking expenses));
      try reflexivity.
    apply cashflow_payroll_without, He.
Qed.

(** A read that returns an employee who has resigned before the one of the
    sample ledger: the dashboard is the one of the sample ledger. *)
Lemma inactive_employee_witness :
  Dashboard.handler Sample.utc
    (readingEmployees (DatabaseStorage Sample.oneRouteOneEmployee)
       [Employee.mk 3 "Lim" "local" 280000 None "resigned"; Sample.local3000])
  = Dashboard.handler Sample.utc
      (readingEmployees (DatabaseStorage Sample.oneRouteOneEmployee) [Sample.local3000])
  /\ Dashboard.handler Sample.utc
       (readingEmployees (DatabaseStorage Sample.oneRouteOneEmployee) [Sample.local3000])
     = Dashboard.handler Sample.utc (DatabaseStorage Sample.oneRouteOneEmployee).
Proof.
  split; [|reflexivity].
  apply (inactive_employee Sample.utc (DatabaseStorage Sample.oneRouteOneEmployee)
           [] [Sample.local3000] (Employee.mk 3 "Lim" "local" 280000 None "resigned")).
  discriminate.
Defined.

(** X13.  A route whose status is not "active" earns and costs nothing
    anywhere: whatever the other reads answer, the dashboard (its count of
    active routes included), the profit and loss report of any period and the
    forecast over any number of months computed from a read of the routes
    that returns the row are those computed from the same read without it,
    the other rows in the same order. *)
Theorem inactive_route (env : Env) (storage : IStorage) (l1 l2 : list Route.t)
    (r : Route.t) :
  Route.status r <> "active"%string ->
  Dashboard.handler env (readingRoutes storage (l1 ++ r :: l2))
  = Dashboard.handler env (readingRoutes storage (l1 ++ l2))
  /\ (forall qfrom qto,
        Pnl.handler env (readingRoutes storage (l1 ++ r :: l2)) qfrom qto
        = Pnl.handler env (readingRoutes storage (l1 ++ l2)) qfrom qto)
  /\ (forall period,
        CashFlow.handler env (readingRoutes storage (l1 ++ r :: l2)) period
        = CashFlow.handler env (readingRoutes storage (l1 ++ l2)) period).
Proof.
  intros Hr. apply not_active in Hr.
  assert (Hsub : (fun r => strictEq (Route.routeType r) "subcontracted"
                           && strictEq (Route.status r) "active"
                           && match Route.subcontractorCost r with
                              | Some _ => true
                              | None => false
                              end) r = false).
  { cbv beta. rewrite Hr, andb_false_r. reflexivity. }
  split; [|split].
  - unfold Dashboard.handler, Dashboard.stats, await.
    cbn [getIncomeRecords getExpenses getRoutes getEmployees readingRoutes].
    destruct (getIncomeRecords storage); [|reflexivity].
    destruct (getExpenses storage); [|reflexivity].
    destruct (getEmployees storage); [|reflexivity].
    rewrite (filter_without (fun r => strictEq (Route.status r) "active") l1 l2 r Hr).
    reflexivity.
  - intros qfrom qto. unfold Pnl.handler, Pnl.report, await.
    cbn [getIncomeByPeriod getExpensesByPeriod getCustomers getRoutes getEmployees
         getExpenseCategories readingRoutes].
    destruct (getIncomeByPeriod storage _ _); [|reflexivity].
    destruct (getExpensesByPeriod storage _ _); [|reflexivity].
    destruct (getCustomers storage); [|reflexivity].
    destruct (getEmployees storage); [|reflexivity].
    destruct (getExpenseCategories storage); [|reflexivity].
    unfold Pnl.subcontractorCosts. rewrite (filter_without _ l1 l2 r Hsub). reflexivity.
  - intro period. unfold CashFlow.handler, CashFlow.forecast, await.
    cbn [getRoutes getEmployees getAllVehicleInstallments getAllVehicleInsurance
         getAllVehicleParking getExpenses readingRoutes].
    destruct (getEmployees storage) as [employees|]; [|reflexivity].
    destruct (getAllVehicleInstallments storage) as [installments|]; [|reflexivity].
    destruct (getAllVehicleInsurance storage) as [insurance|]; [|reflexivity].
    destruct (getAllVehicleParking storage) as [parking|]; [|reflexivity].
    destruct (getExpenses storage) as [expenses|]; [|reflexivity].
    rewrite (body_ext env
               (CashFlow.mkInputs (l1 ++ r :: l2) employees installments insurance parking
                  expenses)
               (CashFlow.mkInputs (l1 ++ l2) employees installments insurance parking
                  expenses));
      try reflexivity.
    + unfold CashFlow.routeIncome. cbn [CashFlow.routes].
      rewrite (filter_without (fun r => strictEq (Route.status r) "active") l1 l2 r Hr).
      reflexivity.
    + unfold CashFlow.subcontractorCosts. cbn [CashFlow.routes].
      rewrite (filter_without _ l1 l2 r Hsub). reflexivity.
Qed.

(** A read that returns, after the route of the sample ledger, a subcontracted
    route at 5000 that is out of service: the default forecast is the one of
    the sample ledger. *)
Lemma inactive_route_witness :
  CashFlow.handler Sample.utc
    (readingRoutes (DatabaseStorage Sample.oneRouteOneEmployee)
       [Sample.route10000;
        Route.mk 2 "Airport run" None 800000 "subcontracted" (Some 500000) None "inactive"])
    None
  = CashFlow.handler Sample.utc
      (readingRoutes (DatabaseStorage Sample.oneRouteOneEmployee) [Sample.route10000]) None
  /\ CashFlow.handler Sample.utc
       (readingRoutes (DatabaseStorage Sample.oneRouteOneEmployee) [Sample.route10000]) None
     = CashFlow.handler Sample.utc (DatabaseStorage Sample.oneRouteOneEmployee) None.
Proof.
  split; [|reflexivity].
  refine (proj2 (proj2 (inactive_route Sample.utc
           (DatabaseStorage Sample.oneRouteOneEmployee) [Sample.route10000] []
           (Route.mk 2 "Airport run" None 800000 "subcontracted" (Some 500000) None
              "inactive") _)) None).
  discriminate.
Defined.

(** X14.  An expense that is not marked recurring, or recurs at another
    frequency than "monthly", is no part of the forecast: whatever the other
    reads answer, the forecast computed from a read of the expenses that
    returns the row is the one computed from the same read without it, the
    other rows in the same order. *)
Theorem expense_not_projected (env : Env) (storage : IStorage) (l1 l2 : list Expense.t)
    (e : Expense.t) (period : option Z) :
  projected e = false ->
  CashFlow.handler env (readingExpenses storage (l1 ++ e :: l2)) period
  = CashFlow.handler env (readingExpenses storage (l1 ++ l2)) period.
Proof.
  intros He. unfold CashFlow.handler, CashFlow.forecast, await.
  cbn [getRoutes getEmployees getAllVehicleInstallments getAllVehicleInsurance
       getAllVehicleParking getExpenses readingExpenses].
  destruct (getRoutes storage) as [routes|]; [|reflexivity].
  destruct (getEmployees storage) as [employees|]; [|reflexivity].
  destruct (getAllVehicleInstallments storage) as [installments|]; [|reflexivity].
  destruct (getAllVehicleInsurance storage) as [insurance|]; [|reflexivity].
  destruct (getAllVehicleParking storage) as [parking|]; [|reflexivity].
  rewrite (body_ext env
             (CashFlow.mkInputs routes employees installments insurance parking
                (l1 ++ e :: l2))
             (CashFlow.mkInputs routes employees installments insurance parking (l1 ++ l2)));
    try reflexivity.
  unfold CashFlow.recurringExpenses. cbn [CashFlow.expenses]. f_equal.
  apply (filter_without projected l1 l2 e He).
Qed.

(** The one expense of the orphan ledger is not recurring: a forecast of six
    months is the one of a read that returns no expense. *)
Lemma expense_not_projected_witness :
  projected Sample.sundry = false
  /\ CashFlow.handler Sample.utc
       (readingExpenses (DatabaseStorage Sample.orphanLedger) [Sample.sundry]) (Some 6)
     = CashFlow.handler Sample.utc
         (readingExpenses (DatabaseStorage Sample.orphanLedger) []) (Some 6)
  /\ CashFlow.handler Sample.utc
       (readingExpenses (DatabaseStorage Sample.orphanLedger) [Sample.sundry]) (Some 6)
     = CashFlow.handler Sample.utc (DatabaseStorage Sample.orphanLedger) (Some 6).
Proof.
  split; [reflexivity|]. split; [|reflexivity].
  apply (expense_not_projected Sample.utc (DatabaseStorage Sample.orphanLedger)
           [] [] Sample.sundry (Some 6)).
  reflexivity.
Defined.

(** ** CSV: texts *)

Lemma string_app_assoc (s t u : string) : ((s ++ t) ++ u)%string = (s ++ t ++ u)%string.
Proof. induction s as [|c s IH]; cbn; [reflexivity | rewrite IH; reflexivity]. Qed.

Lemma occurs_app (c : ascii) (s t : string) :
  occurs c (s ++ t) = occurs c s || occurs c t.
Proof.
  induction s as [|d s IH]; cbn; [reflexivity|]. rewrite IH. apply orb_assoc.
Qed.

Lemma occurs_concat (c : ascii) (sep : string) (l : list string) :
  occurs c sep = false ->
  (forall s, In s l -> occurs c s = false) ->
  occurs c (String.concat sep l) = false.
Proof.
  intros Hsep. induction l as [|x l IH]; intro H; [reflexivity|].
  destruct l as [|y l].
  - apply H. left. reflexivity.
  - change (String.concat sep (x :: y :: l))
      with (x ++ sep ++ String.concat sep (y :: l))%string.
    rewrite !occurs_app, Hsep, (H x (or_introl eq_refl)), IH; [reflexivity|].
    intros s Hs. apply H. right. exact Hs.
Qed.

Lemma split_plain (sep : ascii) (s : string) :
  occurs sep s = false -> Csv.split sep s = [s].
Proof.
  induction s as [|c s IH]; cbn; [reflexivity|].
  intro H. apply orb_false_iff in H as [Hc Hs].
  rewrite Hc, (IH Hs). reflexivity.
Qed.

Lemma split_app (sep : ascii) (s t : string) :
  occurs sep s = false ->
  Csv.split sep (s ++ String sep t) = s :: Csv.split sep t.
Proof.
  induction s as [|c s IH]; cbn.
  - intros _. rewrite Ascii.eqb_refl. reflexivity.
  - intro H. apply orb_false_iff in H as [Hc Hs].
    rewrite Hc, (IH Hs). reflexivity.
Qed.

(** Splitting what was joined gives the parts back, when no part holds the
    separator. *)
Lemma split_concat (sep : ascii) (l : list string) :
  l <> [] ->
  (forall s, In s l -> occurs sep s = false) ->
  Csv.split sep (String.concat (String sep EmptyString) l) = l.
Proof.
  induction l as [|x l IH]; intros Hne H; [contradiction|].
  destruct l as [|y l].
  - apply split_plain, H. left. reflexivity.
  - change (String.concat (String sep EmptyString) (x :: y :: l))
      with (x ++ String sep (String.concat (String sep EmptyString) (y :: l)))%string.
    rewrite split_app by (apply H; left; reflexivity).
    rewrite IH; [reflexivity | discriminate |].
    intros s Hs. apply H. right. exact Hs.
Qed.

Lemma trimStart_length (s : string) :
  (String.length (Csv.trimStart s) <= String.length s)%nat.
Proof.
  induction s as [|c s IH]; cbn; [lia|].
  destruct (Csv.isWhiteSpace c); cbn; lia.
Qed.

Lemma trimEnd_length (s : string) :
  (String.length (Csv.trimEnd s) <= String.length s)%nat.
Proof.
  induction s as [|c s IH]; cbn; [lia|].
  destruct (Csv.trimEnd s) as [|d t].
  - destruct (Csv.isWhiteSpace c); cbn; lia.
  - cbn in *. lia.
Qed.

(** A text that [trim] leaves as it is starts and ends with something else
    than white space. *)
Lemma trim_fixed (s : string) :
  Csv.trim s = s -> Csv.trimStart s = s /\ Csv.trimEnd s = s.
Proof.
  intro H. unfold Csv.trim in H.
  assert (Hs : Csv.trimStart s = s).
  { destruct s as [|c s]; [reflexivity|]. cbn in *.
    destruct (Csv.isWhiteSpace c); [|reflexivity].
    pose proof (trimEnd_length (Csv.trimStart s)) as H1.
    pose proof (trimStart_length s) as H2.
    rewrite H in H1. cbn in H1. lia. }
  split; [exact Hs|]. rewrite Hs in H. exact H.
Qed.

Lemma trimEnd_app (s t : string) :
  t <> EmptyString -> Csv.trimEnd t = t -> Csv.trimEnd (s ++ t) = (s ++ t)%string.
Proof.
  intros Hne Ht. induction s as [|c s IH]; cbn; [exact Ht|].
  rewrite IH. destruct (s ++ t)%string eqn:E; [|reflexivity].
  destruct s; cbn in E; [contradiction | discriminate].
Qed.

Lemma trimEnd_concat (sep : string) (l : list string) :
  l <> [] ->
  last l EmptyString <> EmptyString -> Csv.trimEnd (last l EmptyString) = last l EmptyString ->
  String.concat sep l <> EmptyString
  /\ Csv.trimEnd (String.concat sep l) = String.concat sep l.
Proof.
  induction l as [|x l IH]; intros Hne Hlast Htrim; [contradiction|].
  destruct l as [|y l].
  - cbn in *. split; assumption.
  - change (String.concat sep (x :: y :: l))
      with (x ++ sep ++ String.concat sep (y :: l))%string.
    change (last (x :: y :: l) EmptyString) with (last (y :: l) EmptyString) in *.
    destruct (IH ltac:(discriminate) Hlast Htrim) as [IH1 IH2].
    assert (H1 : (sep ++ String.concat sep (y :: l))%string <> EmptyString).
    { destruct sep; cbn; [exact IH1 | discriminate]. }
    assert (H2 : (x ++ sep ++ String.concat sep (y :: l))%string <> EmptyString).
    { destruct x; cbn; [exact H1 | discriminate]. }
    split; [exact H2|].
    rewrite trimEnd_app; [reflexivity | exact H1 |].
    apply trimEnd_app; assumption.
Qed.

Lemma dropLastQuote_plain (s : string) :
  occurs Csv.quote s = false -> Csv.dropLastQuote s = s.
Proof.
  induction s as [|c s IH]; [reflexivity|].
  intro H. cbn in H. apply orb_false_iff in H as [Hc Hs].
  cbn [Csv.dropLastQuote]. destruct s as [|d s].
  - rewrite Hc. reflexivity.
  - rewrite (IH Hs). reflexivity.
Qed.

Lemma stripQuotes_plain (s : string) :
  occurs Csv.quote s = false -> Csv.stripQuotes s = s.
Proof.
  destruct s as [|c s]; [reflexivity|]. intro H. unfold Csv.stripQuotes.
  pose proof H as H'. cbn in H'. apply orb_false_iff in H' as [Hc _].
  rewrite Hc. apply dropLastQuote_plain, H.
Qed.

Lemma unescapeQuotes_plain (s : string) :
  occurs Csv.quote s = false -> Csv.unescapeQuotes s = s.
Proof.
  induction s as [|c s IH]; [reflexivity|].
  intro H. cbn in H. apply orb_false_iff in H as [Hc Hs].
  cbn [Csv.unescapeQuotes]. destruct s as [|d s]; [reflexivity|].
  rewrite Hc. cbn [andb]. rewrite (IH Hs). reflexivity.
Qed.

(** On a text without double quotes the two replacements change nothing. *)
Lemma finish_plain (s : string) : occurs Csv.quote s = false -> Csv.finish s = s.
Proof.
  intro H. unfold Csv.finish. rewrite stripQuotes_plain by exact H.
  apply unescapeQuotes_plain, H.
Qed.

Lemma withoutQuotes_plain (s : string) : occurs Csv.quote (withoutQuotes s) = false.
Proof.
  induction s as [|c s IH]; [reflexivity|]. cbn.
  destruct (Ascii.eqb c Csv.quote) eqn:E; [exact IH|]. cbn. rewrite E, IH. reflexivity.
Qed.

Lemma withoutQuotes_id (s : string) : occurs Csv.quote s = false -> withoutQuotes s = s.
Proof.
  induction s as [|c s IH]; [reflexivity|]. cbn. intro H.
  apply orb_false_iff in H as [Hc Hs]. rewrite Hc, (IH Hs). reflexivity.
Qed.

Lemma occurs_escapeQuotes (c : ascii) (s : string) :
  Ascii.eqb Csv.quote c = false ->
  occurs c (Csv.escapeQuotes s) = occurs c s.
Proof.
  intro Hc. induction s as [|d s IH]; [reflexivity|]. cbn [Csv.escapeQuotes occurs].
  destruct (Ascii.eqb d Csv.quote) eqn:E.
  - apply Ascii.eqb_eq in E. subst d. cbn [occurs]. rewrite Hc, IH. reflexivity.
  - cbn [occurs]. rewrite IH. reflexivity.
Qed.

(** ** CSV: the scan of a line *)

Lemma scan_app (st : Csv.LineState) (s t : string) :
  Csv.scan st (s ++ t) = Csv.scan (Csv.scan st s) t.
Proof.
  revert st. induction s as [|c s IH]; intro st; cbn; [reflexivity | apply IH].
Qed.

(** Inside quotes a doubled quote opens and closes nothing, and every other
    character, a comma too, is kept. *)
Lemma scan_escaped (vs : list string) (cur v : string) :
  Csv.scan (Csv.mkLineState vs cur true) (Csv.escapeQuotes v)
  = Csv.mkLineState vs (cur ++ withoutQuotes v) true.
Proof.
  revert cur. induction v as [|c v IH]; intro cur; cbn [Csv.escapeQuotes withoutQuotes].
  - rewrite append_empty. reflexivity.
  - destruct (Ascii.eqb c Csv.quote) eqn:E.
    + cbn [Csv.scan]. unfold Csv.step at 2. rewrite Ascii.eqb_refl.
      unfold Csv.step at 1. rewrite Ascii.eqb_refl.
      cbn [Csv.values Csv.current Csv.inQuotes negb]. apply IH.
    + cbn [Csv.scan]. unfold Csv.step. rewrite E.
      cbn [Csv.values Csv.current Csv.inQuotes negb]. rewrite andb_false_r.
      rewrite IH, string_app_assoc. reflexivity.
Qed.

Lemma scan_cell (vs : list string) (cur : string) (row : Csv.Row) (h : string) :
  Csv.scan (Csv.mkLineState vs cur false) (Csv.cell row h)
  = Csv.mkLineState vs (cur ++ withoutQuotes (textOf row h)) false.
Proof.
  unfold Csv.cell. cbn [Csv.scan]. unfold Csv.step at 1. rewrite Ascii.eqb_refl.
  cbn [Csv.values Csv.current Csv.inQuotes negb].
  rewrite scan_app, scan_escaped. cbn [Csv.scan]. unfold Csv.step.
  rewrite Ascii.eqb_refl. reflexivity.
Qed.

Lemma scan_cells (row : Csv.Row) (headers : list string) (vs : list string) :
  headers <> [] ->
  let st := Csv.scan (Csv.mkLineState vs EmptyString false)
              (String.concat "," (map (Csv.cell row) headers)) in
  Csv.values st ++ [Csv.finish (Csv.current st)]
  = vs ++ map (fun h => withoutQuotes (textOf row h)) headers.
Proof.
  revert vs. induction headers as [|h headers IH]; intros vs Hne; [contradiction|].
  destruct headers as [|h2 headers].
  - cbv zeta. cbn [map String.concat]. rewrite scan_cell.
    cbn [Csv.values Csv.current append].
    rewrite finish_plain by apply withoutQuotes_plain. reflexivity.
  - cbv zeta.
    change (String.concat "," (map (Csv.cell row) (h :: h2 :: headers)))
      with (Csv.cell row h
            ++ String Csv.comma (String.concat "," (map (Csv.cell row) (h2 :: headers))))%string.
    rewrite scan_app, scan_cell. cbn [Csv.scan append]. unfold Csv.step.
    change (Ascii.eqb Csv.comma Csv.quote) with false.
    rewrite Ascii.eqb_refl.
    cbn [Csv.values Csv.current Csv.inQuotes negb andb].
    rewrite (finish_plain (withoutQuotes (textOf row h))) by apply withoutQuotes_plain.
    specialize (IH (vs ++ [withoutQuotes (textOf row h)]) ltac:(discriminate)).
    cbv zeta in IH. rewrite IH, <- app_assoc. reflexivity.
Qed.

(** A line of the export parses to the texts of its cells, their double
    quotes gone. *)
Lemma parseLine_cells (row : Csv.Row) (headers : list string) :
  headers <> [] ->
  Csv.parseLine (String.concat "," (map (Csv.cell row) headers))
  = map (fun h => withoutQuotes (textOf row h)) headers.
Proof. intro Hne. unfold Csv.parseLine. apply (scan_cells row headers [] Hne). Qed.

(** No double quote ever enters [current] or [values]. *)
Lemma step_plain (st : Csv.LineState) (c : ascii) :
  Forall (fun v => occurs Csv.quote v = false) (Csv.values st) ->
  occurs Csv.quote (Csv.current st) = false ->
  Forall (fun v => occurs Csv.quote v = false) (Csv.values (Csv.step st c))
  /\ occurs Csv.quote (Csv.current (Csv.step st c)) = false.
Proof.
  intros Hv Hc. unfold Csv.step.
  destruct (Ascii.eqb c Csv.quote) eqn:E; [split; assumption|].
  destruct (Ascii.eqb c Csv.comma && negb (Csv.inQuotes st)); cbn [Csv.values Csv.current].
  - split; [|reflexivity]. apply Forall_app. split; [exact Hv|].
    constructor; [|constructor]. rewrite finish_plain; exact Hc.
  - split; [exact Hv|]. rewrite occurs_app, Hc. cbn. rewrite E. reflexivity.
Qed.

Lemma scan_plain (line : string) (st : Csv.LineState) :
  Forall (fun v => occurs Csv.quote v = false) (Csv.values st) ->
  occurs Csv.quote (Csv.current st) = false ->
  Forall (fun v => occurs Csv.quote v = false) (Csv.values (Csv.scan st line))
  /\ occurs Csv.quote (Csv.current (Csv.scan st line)) = false.
Proof.
  revert st. induction line as [|c line IH]; intros st Hv Hc; cbn [Csv.scan].
  - split; assumption.
  - destruct (step_plain st c Hv Hc) as [Hv' Hc']. apply IH; assumption.
Qed.

Lemma parseLine_scan (line : string) :
  let st := Csv.scan (Csv.mkLineState [] EmptyString false) line in
  Csv.parseLine line = Csv.values st ++ [Csv.current st]
  /\ Forall (fun v => occurs Csv.quote v = false) (Csv.parseLine line).
Proof.
  cbv zeta. unfold Csv.parseLine.
  destruct (scan_plain line (Csv.mkLineState [] EmptyString false)) as [Hv Hc];
    [constructor | reflexivity |].
  rewrite finish_plain by exact Hc. split; [reflexivity|].
  apply Forall_app. split; [exact Hv|]. constructor; [exact Hc | constructor].
Qed.

(** ** CSV: the row objects *)

Lemma rowObject_fold (g : string -> string) (headers : list string) (k : nat)
    (pre : list string) (acc : Csv.Obj) :
  List.length pre = k ->
  fold_left
    (fun row '(index, header) =>
       Csv.setProp row header (nth index (pre ++ map g headers) EmptyString))
    (combine (seq k (List.length headers)) headers) acc
  = fold_left (fun row header => Csv.setProp row header (g header)) headers acc.
Proof.
  revert k pre acc. induction headers as [|h headers IH]; intros k pre acc Hk; [reflexivity|].
  cbn [List.length seq combine fold_left map].
  rewrite app_nth2 by lia. rewrite Hk, Nat.sub_diag. cbn [nth].
  specialize (IH (S k) (pre ++ [g h]) (Csv.setProp acc h (g h))).
  rewrite <- app_assoc in IH. cbn [app] in IH. apply IH.
  rewrite length_app. cbn. lia.
Qed.

Lemma getProp_setProp (row : Csv.Obj) (key value k : string) :
  Csv.getProp (Csv.setProp row key value) k
  = if String.eqb key k && negb (String.eqb key "__proto__")
    then Some value else Csv.getProp row k.
Proof.
  unfold Csv.setProp. destruct (String.eqb key "__proto__").
  - rewrite andb_false_r. reflexivity.
  - cbn [Csv.getProp negb]. rewrite andb_true_r. reflexivity.
Qed.

Lemma getProp_fold (g : string -> string) (headers : list string) (acc : Csv.Obj)
    (k : string) :
  Csv.getProp (fold_left (fun row header => Csv.setProp row header (g header)) headers acc) k
  = if existsb (String.eqb k) headers && negb (String.eqb k "__proto__")
    then Some (g k) else Csv.getProp acc k.
Proof.
  revert acc. induction headers as [|h headers IH]; intro acc; [reflexivity|].
  cbn [fold_left existsb]. rewrite IH, getProp_setProp.
  destruct (String.eqb_spec h k) as [->|Hne].
  - rewrite String.eqb_refl. cbn [orb andb].
    destruct (String.eqb k "__proto__"); cbn [negb andb].
    + rewrite andb_false_r. reflexivity.
    + rewrite andb_true_r. destruct (existsb (String.eqb k) headers); reflexivity.
  - rewrite (proj2 (String.eqb_neq k h)) by congruence. reflexivity.
Qed.

(** What a row object built from the texts [g h] of its headers holds. *)
Lemma getProp_rowObject (g : string -> string) (headers : list string) (k : string) :
  Csv.getProp (Csv.rowObject headers (map g headers)) k
  = if existsb (String.eqb k) headers && negb (String.eqb k "__proto__")
    then Some (g k) else None.
Proof.
  unfold Csv.rowObject. pose proof (rowObject_fold g headers 0 [] [] eq_refl) as H.
  cbn [app] in H. rewrite H. apply getProp_fold.
Qed.

(** ** CSV: the text of an export *)

Lemma plainHeader_spec (h : string) :
  plainHeader h = true ->
  h <> EmptyString /\ h <> "__proto__"%string
  /\ occurs Csv.comma h = false /\ occurs Csv.lineFeed h = false
  /\ occurs Csv.quote h = false
  /\ Csv.trimStart h = h /\ Csv.trimEnd h = h.
Proof.
  unfold plainHeader. rewrite !andb_true_iff, !negb_true_iff.
  intros (((((H1 & H2) & H3) & H4) & H5) & H6).
  apply String.eqb_neq in H1, H2. apply String.eqb_eq in H6.
  destruct (trim_fixed h H6) as [H7 H8]. repeat split; assumption.
Qed.

Lemma occurs_cell (row : Csv.Row) (h : string) :
  occurs Csv.lineFeed (Csv.cell row h) = occurs Csv.lineFeed (textOf row h).
Proof.
  unfold Csv.cell. cbn [occurs]. change (Ascii.eqb Csv.quote Csv.lineFeed) with false.
  rewrite occurs_app, occurs_escapeQuotes by reflexivity. cbn. apply orb_false_r.
Qed.

Lemma cell_trimEnd (row : Csv.Row) (h : string) :
  Csv.cell row h <> EmptyString /\ Csv.trimEnd (Csv.cell row h) = Csv.cell row h.
Proof.
  split; [discriminate|].
  apply (trimEnd_app (String Csv.quote (Csv.escapeQuotes (textOf row h)))
           (String Csv.quote EmptyString)); [discriminate | reflexivity].
Qed.

Lemma last_map_cell (row : Csv.Row) (headers : list string) :
  headers <> [] ->
  last (map (Csv.cell row) headers) EmptyString
  = Csv.cell row (last headers EmptyString).
Proof.
  induction headers as [|h headers IH]; intro Hne; [contradiction|].
  destruct headers as [|h2 headers]; [reflexivity|].
  change (last (map (Csv.cell row) (h :: h2 :: headers)) EmptyString)
    with (last (map (Csv.cell row) (h2 :: headers)) EmptyString).
  rewrite IH by discriminate. reflexivity.
Qed.

Lemma nonempty_head {A : Type} (l : list A) : l <> [] -> exists x l', l = x :: l'.
Proof. destruct l as [|x l']; [contradiction | eauto]. Qed.

Lemma map_nonempty {A B : Type} (f : A -> B) (l : list A) : l <> [] -> map f l <> [].
Proof. destruct l; [contradiction | discriminate]. Qed.

Lemma last_in {A : Type} (l : list A) (d : A) : l <> [] -> In (last l d) l.
Proof.
  intro H. destruct (exists_last H) as (front & x & ->).
  rewrite last_last. apply in_or_app. right. left. reflexivity.
Qed.

Section ExportedText.

Variable headers : list string.
Variable data : list Csv.Row.
Hypothesis headers_some : headers <> [].
Hypothesis headers_plain : forallb plainHeader headers = true.
Hypothesis cells_plain :
  forall row h, In row data -> In h headers -> occurs Csv.lineFeed (textOf row h) = false.

Lemma header_plain (h : string) : In h headers -> plainHeader h = true.
Proof. intro H. rewrite forallb_forall in headers_plain. apply headers_plain, H. Qed.

Lemma export_lines_plain (s : string) :
  In s (exportLines headers data) -> occurs Csv.lineFeed s = false.
Proof.
  intros [<-|H].
  - apply occurs_concat; [reflexivity|]. intros h Hh.
    apply (plainHeader_spec h (header_plain h Hh)).
  - apply in_map_iff in H as (row & <- & Hrow).
    apply occurs_concat; [reflexivity|]. intros c Hc.
    apply in_map_iff in Hc as (h & <- & Hh). rewrite occurs_cell.
    apply cells_plain; assumption.
Qed.

Lemma export_trimStart : Csv.trimStart (Csv.export headers data) = Csv.export headers data.
Proof.
  destruct (nonempty_head headers headers_some) as (h & hs & E).
  assert (Hh : plainHeader h = true).
  { apply header_plain. rewrite E. left. reflexivity. }
  destruct (plainHeader_spec h Hh) as (Hne & _ & _ & _ & _ & Hstart & _).
  assert (Htext : exists rest, Csv.export headers data = (h ++ rest)%string).
  { unfold Csv.export.
    assert (Hline : exists rest, String.concat "," headers = (h ++ rest)%string).
    { rewrite E. destruct hs as [|h2 hs].
      - exists EmptyString. cbn. rewrite append_empty. reflexivity.
      - eexists. reflexivity. }
    destruct Hline as (rest & ->).
    destruct (map (fun row => String.concat "," (map (Csv.cell row) headers)) data)
      as [|d ds].
    - exists rest. reflexivity.
    - eexists. cbn [String.concat]. rewrite string_app_assoc. reflexivity. }
  destruct Htext as (rest & ->).
  destruct h as [|c h]; [contradiction|]. cbn in Hstart |- *.
  destruct (Csv.isWhiteSpace c); [|reflexivity].
  pose proof (trimStart_length h) as Hlen. rewrite Hstart in Hlen. cbn in Hlen. lia.
Qed.

Lemma export_trimEnd : Csv.trimEnd (Csv.export headers data) = Csv.export headers data.
Proof.
  change (Csv.export headers data)
    with (String.concat (String Csv.lineFeed EmptyString) (exportLines headers data)).
  assert (Hlast : last (exportLines headers data) EmptyString <> EmptyString
                  /\ Csv.trimEnd (last (exportLines headers data) EmptyString)
                     = last (exportLines headers data) EmptyString).
  { destruct (exists_last (l := exportLines headers data) ltac:(discriminate))
      as (front & line & Hsplit).
    rewrite Hsplit, last_last.
    assert (Hin : In line (exportLines headers data)).
    { rewrite Hsplit. apply in_or_app. right. left. reflexivity. }
    destruct Hin as [<-|Hin].
    - apply trimEnd_concat; [exact headers_some | |];
        apply (plainHeader_spec (last headers EmptyString));
        apply header_plain, last_in, headers_some.
    - apply in_map_iff in Hin as (row & <- & Hrow).
      apply trimEnd_concat.
      + apply map_nonempty, headers_some.
      + rewrite last_map_cell by exact headers_some. apply cell_trimEnd.
      + rewrite last_map_cell by exact headers_some. apply cell_trimEnd. }
  apply trimEnd_concat; [discriminate | apply Hlast | apply Hlast].
Qed.

Lemma export_headers :
  map (fun h => Csv.trim (Csv.stripQuotes h))
    (Csv.split Csv.comma (String.concat "," headers))
  = headers.
Proof.
  change ","%string with (String Csv.comma EmptyString).
  rewrite split_concat.
  - rewrite <- (map_id headers) at 2. apply map_ext_in. intros h Hh.
    destruct (plainHeader_spec h (header_plain h Hh)) as (_ & _ & _ & _ & Hq & Hs & He).
    rewrite stripQuotes_plain by exact Hq. unfold Csv.trim. rewrite Hs. exact He.
  - exact headers_some.
  - intros h Hh. apply (plainHeader_spec h (header_plain h Hh)).
Qed.

(** The import reads an export back as one row object for each row, holding
    the texts of the cells without their double quotes. *)
Lemma parseCSV_export :
  Csv.parseCSV (Csv.export headers data)
  = map (fun row =>
           Csv.rowObject headers (map (fun h => withoutQuotes (textOf row h)) headers))
      data.
Proof.
  unfold Csv.parseCSV.
  replace (Csv.trim (Csv.export headers data)) with (Csv.export headers data)
    by (unfold Csv.trim; rewrite export_trimStart, export_trimEnd; reflexivity).
  change (Csv.export headers data)
    with (String.concat (String Csv.lineFeed EmptyString) (exportLines headers data)).
  rewrite split_concat; [| discriminate | exact export_lines_plain].
  unfold exportLines. cbn [List.length hd tl]. rewrite length_map.
  destruct (Nat.ltb_spec (S (List.length data)) 2) as [Hlt|Hge].
  - assert (E : data = []) by (apply length_zero_iff_nil; lia).
    rewrite E. reflexivity.
  - rewrite export_headers, map_map.
    apply map_ext. intro r. rewrite parseLine_cells by exact headers_some. reflexivity.
Qed.

End ExportedText.

(** X15.  Reading an export back: when the headers are plain names and no
    cell holds a line feed, the import dialog parses the text of an export
    into one row object for each exported row, in order; the object holds
    under each header the text of the cell with every double quote removed,
    commas kept, and holds nothing else.  So a text without double quotes
    comes back as it was, and a text with double quotes comes back without
    them. *)
Theorem export_then_parse (headers : list string) (data : list Csv.Row) :
  headers <> [] ->
  forallb plainHeader headers = true ->
  (forall row h, In row data -> In h headers ->
     occurs Csv.lineFeed (textOf row h) = false) ->
  List.length (Csv.parseCSV (Csv.export headers data)) = List.length data
  /\ forall i row obj,
       nth_error data i = Some row ->
       nth_error (Csv.parseCSV (Csv.export headers data)) i = Some obj ->
       (forall h, In h headers ->
          Csv.getProp obj h = Some (withoutQuotes (textOf row h))
          /\ (occurs Csv.quote (textOf row h) = false ->
              Csv.getProp obj h = Some (textOf row h)))
       /\ (forall key, ~ In key headers -> Csv.getProp obj key = None).
Proof.
  intros Hsome Hplain Hcells.
  rewrite (parseCSV_export headers data Hsome Hplain Hcells).
  split; [apply length_map|].
  intros i row obj Hrow Hobj.
  rewrite nth_error_map, Hrow in Hobj. injection Hobj as <-.
  split.
  - intros h Hh.
    assert (Hget : Csv.getProp
                     (Csv.rowObject headers
                        (map (fun h => withoutQuotes (textOf row h)) headers)) h
                   = Some (withoutQuotes (textOf row h))).
    { rewrite (getProp_rowObject (fun h => withoutQuotes (textOf row h))).
      replace (existsb (String.eqb h) headers) with true.
      2: { symmetry. apply existsb_exists. exists h. split; [exact Hh|].
           apply String.eqb_refl. }
      rewrite forallb_forall in Hplain.
      destruct (plainHeader_spec h (Hplain h Hh)) as (_ & Hproto & _).
      apply String.eqb_neq in Hproto. rewrite Hproto. reflexivity. }
    split; [exact Hget|]. intro Hq. rewrite Hget, withoutQuotes_id by exact Hq.
    reflexivity.
  - intros key Hkey.
    rewrite (getProp_rowObject (fun h => withoutQuotes (textOf row h))).
    replace (existsb (String.eqb key) headers) with false; [reflexivity|].
    symmetry. apply not_true_is_false. intro H.
    apply existsb_exists in H as (h & Hh & Heq). apply String.eqb_eq in Heq.
    subst h. contradiction.
Qed.

Lemma export_then_parse_witness :
  List.length
    (Csv.parseCSV
       (Csv.export Csv.customerHeaders
          [Csv.customerRow (Csv.CustomerRow.mk 1 "Acme, Ltd" None None None None "active")]))
  = 1%nat.
Proof.
  apply (export_then_parse Csv.customerHeaders
           [Csv.customerRow (Csv.CustomerRow.mk 1 "Acme, Ltd" None None None None "active")]).
  - discriminate.
  - reflexivity.
  - intros row h [<-|[]] Hh.
    repeat (destruct Hh as [<-|Hh]; [reflexivity|]). destruct Hh.
Defined.

Lemma plainText_spec (v : string) :
  plainText v = true -> occurs Csv.quote v = false /\ occurs Csv.lineFeed v = false.
Proof. unfold plainText. rewrite andb_true_iff, !negb_true_iff. tauto. Qed.

Lemma plainOption_spec (v : option string) :
  plainOption v = true ->
  occurs Csv.lineFeed (match v with Some s => s | None => EmptyString end) = false
  /\ Csv.orNull (Some (withoutQuotes (match v with Some s => s | None => EmptyString end)))
     = v.
Proof.
  destruct v as [s|]; cbn [plainOption]; [|split; reflexivity].
  rewrite andb_true_iff, negb_true_iff. intros [Hs Hne].
  apply plainText_spec in Hs as [Hq Hl]. split; [exact Hl|].
  rewrite withoutQuotes_id by exact Hq.
  destruct s; [discriminate | reflexivity].
Qed.

Lemma customerHeaders_key (k : string) :
  In k Csv.customerHeaders ->
  existsb (String.eqb k) Csv.customerHeaders && negb (String.eqb k "__proto__") = true.
Proof.
  intro H. repeat (destruct H as [<-|H]; [reflexivity|]). destruct H.
Qed.

(** X16.  Exporting the customers and importing the file again gives every
    row back, in order, with the columns it had, provided no column holds a
    double quote or a line feed, no optional column holds the empty text and
    no status is empty.  An export without rows imports no row. *)
Theorem customers_round_trip (data : list Csv.CustomerRow.t) :
  forallb plainCustomer data = true ->
  Csv.importCustomers (Csv.parseCSV (Csv.exportCustomers data)) = map columnsOf data.
Proof.
  intro Hplain. rewrite forallb_forall in Hplain.
  assert (Hparts : forall c, In c data ->
            plainText (Csv.CustomerRow.name c) = true
            /\ plainOption (Csv.CustomerRow.contactPerson c) = true
            /\ plainOption (Csv.CustomerRow.email c) = true
            /\ plainOption (Csv.CustomerRow.phone c) = true
            /\ plainOption (Csv.CustomerRow.address c) = true
            /\ plainText (Csv.CustomerRow.status c) = true
            /\ Csv.CustomerRow.status c <> EmptyString).
  { intros c Hc. specialize (Hplain c Hc). unfold plainCustomer in Hplain.
    rewrite !andb_true_iff, negb_true_iff in Hplain.
    destruct Hplain as ((((((H1 & H2) & H3) & H4) & H5) & H6) & H7).
    apply String.eqb_neq in H7. repeat split; assumption. }
  unfold Csv.exportCustomers. rewrite parseCSV_export.
  - unfold Csv.importCustomers. rewrite !map_map. apply map_ext_in. intros c Hc.
    destruct (Hparts c Hc) as (Hn & Hc1 & Hc2 & Hc3 & Hc4 & Hs & Hs').
    unfold Csv.newCustomer, columnsOf.
    rewrite !(getProp_rowObject (fun h => withoutQuotes (textOf (Csv.customerRow c) h))).
    rewrite !customerHeaders_key
      by (cbn; repeat (try (left; reflexivity); right)).
    change (textOf (Csv.customerRow c) "name") with (Csv.CustomerRow.name c).
    change (textOf (Csv.customerRow c) "status") with (Csv.CustomerRow.status c).
    change (textOf (Csv.customerRow c) "contactPerson")
      with (match Csv.CustomerRow.contactPerson c with Some s => s | None => EmptyString end).
    change (textOf (Csv.customerRow c) "email")
      with (match Csv.CustomerRow.email c with Some s => s | None => EmptyString end).
    change (textOf (Csv.customerRow c) "phone")
      with (match Csv.CustomerRow.phone c with Some s => s | None => EmptyString end).
    change (textOf (Csv.customerRow c) "address")
      with (match Csv.CustomerRow.address c with Some s => s | None => EmptyString end).
    rewrite (proj2 (plainOption_spec _ Hc1)), (proj2 (plainOption_spec _ Hc2)),
      (proj2 (plainOption_spec _ Hc3)), (proj2 (plainOption_spec _ Hc4)).
    rewrite !withoutQuotes_id by (apply plainText_spec; assumption).
    destruct (Csv.CustomerRow.status c) as [|a s] eqn:E; [contradiction|]. reflexivity.
  - discriminate.
  - reflexivity.
  - intros row h Hrow Hh. apply in_map_iff in Hrow as (c & <- & Hc).
    destruct (Hparts c Hc) as (Hn & Hc1 & Hc2 & Hc3 & Hc4 & Hs & _).
    repeat (destruct Hh as [<-|Hh];
            [first [ apply (plainText_spec _ Hn) | apply (plainText_spec _ Hs)
                   | apply (plainOption_spec _ Hc1) | apply (plainOption_spec _ Hc2)
                   | apply (plainOption_spec _ Hc3) | apply (plainOption_spec _ Hc4) ]|]).
    destruct Hh.
Qed.

Lemma customers_round_trip_witness :
  Csv.importCustomers
    (Csv.parseCSV
       (Csv.exportCustomers
          [Csv.CustomerRow.mk 1 "Acme, Ltd" (Some "Tan"%string) None None None "active"]))
  = [Csv.NewCustomer.mk (Some "Acme, Ltd"%string) (Some "Tan"%string) None None None "active"].
Proof.
  apply (customers_round_trip
           [Csv.CustomerRow.mk 1 "Acme, Ltd" (Some "Tan"%string) None None None "active"]).
  reflexivity.
Defined.

(** ** CSV: what any file is read as *)

Lemma nth_plain (values : list string) (index : nat) :
  Forall (fun v => occurs Csv.quote v = false) values ->
  occurs Csv.quote (nth index values EmptyString) = false.
Proof.
  intro H. destruct (nth_in_or_default index values EmptyString) as [Hin | ->].
  - rewrite Forall_forall in H. apply H, Hin.
  - reflexivity.
Qed.

Lemma rowObject_plain (headers values : list string) (key v : string) :
  Forall (fun v => occurs Csv.quote v = false) values ->
  Csv.getProp (Csv.rowObject headers values) key = Some v ->
  occurs Csv.quote v = false.
Proof.
  intro Hvalues. unfold Csv.rowObject.
  generalize (combine (seq 0 (List.length headers)) headers). intro l.
  assert (Hacc : forall k v, Csv.getProp (@nil (string * string)) k = Some v ->
                             occurs Csv.quote v = false) by discriminate.
  revert Hacc. generalize (@nil (string * string)). intro acc. revert acc.
  induction l as [|[index header] l IH]; intros acc Hacc; cbn [fold_left].
  - apply Hacc.
  - apply IH. intros k w. rewrite getProp_setProp.
    destruct (String.eqb header k && negb (String.eqb header "__proto__")).
    + intros [= <-]. apply nth_plain, Hvalues.
    + apply Hacc.
Qed.

(** X17.  No value the import dialog reads from a file holds a double
    quote, whatever the file: the scan of a line drops every double quote it
    meets, so the two replacements made on each value find nothing to
    replace, and a double quote written doubled inside a quoted value is
    lost. *)
Theorem parsed_values_hold_no_quote (csvText : string) (obj : Csv.Obj) (key v : string) :
  In obj (Csv.parseCSV csvText) ->
  Csv.getProp obj key = Some v ->
  occurs Csv.quote v = false.
Proof.
  unfold Csv.parseCSV. cbv zeta.
  destruct (List.length (Csv.split Csv.lineFeed (Csv.trim csvText)) <? 2)%nat;
    [intros []|].
  intros Hobj Hget. apply in_map_iff in Hobj as (line & <- & _).
  apply (rowObject_plain _ _ _ _ (proj2 (parseLine_scan line)) Hget).
Qed.

Lemma parsed_values_hold_no_quote_witness :
  let text :=
    Csv.exportCustomers
      [Csv.CustomerRow.mk 2 ("Al " ++ String Csv.quote "Big" ++ String Csv.quote " Co")
         None None None None "inactive"] in
  let obj :=
    [("status", "inactive"); ("address", ""); ("phone", ""); ("email", "");
     ("contactPerson", ""); ("name", "Al Big Co")]%string in
  In obj (Csv.parseCSV text)
  /\ Csv.getProp obj "name" = Some "Al Big Co"%string
  /\ occurs Csv.quote "Al Big Co" = false.
Proof.
  cbv zeta.
  assert (Hin : In [("status", "inactive"); ("address", ""); ("phone", ""); ("email", "");
                    ("contactPerson", ""); ("name", "Al Big Co")]%string
                  (Csv.parseCSV
                     (Csv.exportCustomers
                        [Csv.CustomerRow.mk 2
                           ("Al " ++ String Csv.quote "Big" ++ String Csv.quote " Co")
                           None None None None "inactive"]))).
  { left. reflexivity. }
  split; [exact Hin|]. split; [reflexivity|].
  exact (parsed_values_hold_no_quote _ _ "name" "Al Big Co" Hin eq_refl).
Defined.

Lemma map_snd_combine_seq {A : Type} (l : list A) (k : nat) :
  map snd (combine (seq k (List.length l)) l) = l.
Proof.
  revert k. induction l as [|x l IH]; intro k; [reflexivity|].
  cbn [List.length seq combine map snd]. rewrite IH. reflexivity.
Qed.

Lemma fold_setProp_keys (values : list string) (l : list (nat * string)) (acc : Csv.Obj)
    (key : string) :
  Csv.getProp
    (fold_left
       (fun row '(index, header) => Csv.setProp row header (nth index values EmptyString))
       l acc) key
  <> None
  <-> Csv.getProp acc key <> None \/ (In key (map snd l) /\ key <> "__proto__"%string).
Proof.
  revert acc. induction l as [|[index header] l IH]; intro acc; cbn [fold_left map snd In].
  - tauto.
  - rewrite IH, getProp_setProp.
    destruct (String.eqb_spec header key) as [->|Hne]; cbn [andb].
    + destruct (String.eqb_spec key "__proto__") as [->|Hp]; cbn [negb].
      * tauto.
      * split; [intros _; right; tauto|]. intros _. left. discriminate.
    + tauto.
Qed.

Lemma rowObject_keys (headers values : list string) (key : string) :
  Csv.getProp (Csv.rowObject headers values) key <> None
  <-> In key headers /\ key <> "__proto__"%string.
Proof.
  unfold Csv.rowObject. rewrite fold_setProp_keys, map_snd_combine_seq.
  cbn [Csv.getProp]. tauto.
Qed.

(** X18.  Whatever the file, the import dialog reads one row for each line
    after the first of the trimmed text, none when there is a single line;
    and every row holds a value for exactly the headers of the first line
    (a header [__proto__] apart, which is never set): a line with fewer
    values than headers is filled up, a line with more loses the values
    beyond the headers. *)
Theorem parseCSV_shape (csvText : string) :
  let lines := Csv.split Csv.lineFeed (Csv.trim csvText) in
  let headers :=
    map (fun h => Csv.trim (Csv.stripQuotes h))
      (Csv.split Csv.comma (hd EmptyString lines)) in
  List.length (Csv.parseCSV csvText) = (List.length lines - 1)%nat
  /\ forall obj, In obj (Csv.parseCSV csvText) ->
       forall key, (exists v, Csv.getProp obj key = Some v)
                   <-> In key headers /\ key <> "__proto__"%string.
Proof.
  cbv zeta. unfold Csv.parseCSV. cbv zeta.
  destruct (Nat.ltb_spec (List.length (Csv.split Csv.lineFeed (Csv.trim csvText))) 2)
    as [Hlt|Hge].
  - split; [cbn; lia | intros obj []].
  - split.
    + rewrite length_map.
      destruct (Csv.split Csv.lineFeed (Csv.trim csvText)); cbn; lia.
    + intros obj Hobj key. apply in_map_iff in Hobj as (line & <- & _).
      rewrite <- (rowObject_keys _ (Csv.parseLine line)).
      destruct (Csv.getProp _ key) as [v|].
      * split; [intros _; discriminate | intros _; exists v; reflexivity].
      * split; [intros (v & Hv); discriminate | intro H; contradiction].
Qed.

(** X19.  A carriage return at the end of a line, as a file with CR LF line
    ends leaves one on every line but the last, stays in the last value of
    the line. *)
Theorem parseLine_carriage_return (line : string) :
  Csv.parseLine (line ++ String carriageReturn EmptyString)
  = removelast (Csv.parseLine line)
    ++ [(last (Csv.parseLine line) EmptyString ++ String carriageReturn EmptyString)%string].
Proof.
  destruct (parseLine_scan line) as [Hline _].
  destruct (parseLine_scan (line ++ String carriageReturn EmptyString)) as [Hcr _].
  cbv zeta in Hline, Hcr. rewrite Hline, Hcr.
  rewrite removelast_last, last_last, scan_app. reflexivity.
Qed.

(** ** CSV: routes and their links *)

Lemma escapeQuotes_plain (s : string) :
  occurs Csv.quote s = false -> Csv.escapeQuotes s = s.
Proof.
  induction s as [|c s IH]; [reflexivity|]. cbn [occurs Csv.escapeQuotes]. intro H.
  apply orb_false_iff in H as [Hc Hs]. rewrite Hc, (IH Hs). reflexivity.
Qed.

Lemma find_named {A : Type} (name : A -> string) (rows : list A) (x : A) :
  NoDup (map name rows) -> In x rows ->
  find (fun y => Csv.namedBy (name y) (Some (name x))) rows = Some x.
Proof.
  induction rows as [|y rows IH]; intros Hnd Hin; [contradiction|].
  cbn [map] in Hnd. inversion Hnd as [|n l Hnotin Hnd']; subst.
  cbn [find Csv.namedBy]. destruct (String.eqb_spec (name y) (name x)) as [Heq|Hne].
  - destruct Hin as [->|Hin]; [reflexivity|].
    exfalso. apply Hnotin. rewrite Heq. apply in_map, Hin.
  - destruct Hin as [->|Hin]; [contradiction|]. apply IH; assumption.
Qed.

Lemma find_unnamed {A : Type} (name : A -> string) (rows : list A) :
  (forall x, In x rows -> name x <> EmptyString) ->
  find (fun y => Csv.namedBy (name y) (Some EmptyString)) rows = None.
Proof.
  intro H. induction rows as [|y rows IH]; [reflexivity|]. cbn [find Csv.namedBy].
  destruct (String.eqb_spec (name y) EmptyString) as [Heq|Hne].
  - exfalso. apply (H y); [left; reflexivity | exact Heq].
  - apply IH. intros x Hx. apply H. right. exact Hx.
Qed.

(** A link written as a name and read back from the name is the link it
    was. *)
Lemma link_round_trip {A : Type} (id : A -> Z) (name : A -> string) (rows : list A)
    (fk : option Z) :
  namedApart name rows -> linked id rows fk ->
  let text := match find (fun x => refersTo fk (id x)) rows with
              | Some x => name x
              | None => EmptyString
              end in
  plainText text = true
  /\ Csv.idOrNull (option_map id (find (fun x => Csv.namedBy (name x) (Some text)) rows))
     = fk.
Proof.
  intros [Hnd Hnames] Hlink. cbv zeta. destruct fk as [k|].
  - destruct Hlink as [Hk (x & Hx & Hid)].
    destruct (find (fun x => refersTo (Some k) (id x)) rows) as [y|] eqn:E.
    + apply find_some in E as [Hy Hyk]. cbn [refersTo] in Hyk. apply Z.eqb_eq in Hyk.
      split; [apply Hnames, Hy|].
      rewrite (find_named name rows y Hnd Hy). cbn [option_map Csv.idOrNull].
      rewrite <- Hyk. rewrite (proj2 (Z.eqb_neq k 0) Hk). reflexivity.
    + exfalso. pose proof (find_none _ _ E x Hx) as Hnone. cbn [refersTo] in Hnone.
      rewrite Hid, Z.eqb_refl in Hnone. discriminate.
  - replace (find (fun x => refersTo None (id x)) rows) with (@None A).
    2: { symmetry. clear. induction rows as [|y rows IH]; [reflexivity | exact IH]. }
    split; [reflexivity|].
    rewrite find_unnamed; [reflexivity|]. intros x Hx. apply Hnames, Hx.
Qed.

Lemma cell_quoted (row : Csv.Row) (h : string) :
  occurs Csv.quote (textOf row h) = false ->
  Csv.cell row h = Csv.quoted (textOf row h).
Proof.
  intro H. unfold Csv.cell, Csv.quoted. fold (textOf row h).
  rewrite escapeQuotes_plain by exact H. reflexivity.
Qed.

Lemma routeHeaders_key (k : string) :
  In k Csv.routeHeaders ->
  existsb (String.eqb k) Csv.routeHeaders && negb (String.eqb k "__proto__") = true.
Proof.
  intro H. repeat (destruct H as [<-|H]; [reflexivity|]). destruct H.
Qed.

Section Routes.

Variable customers : list Customer.t.
Variable vehicles : list Vehicle.t.
Hypothesis customers_apart : namedApart Customer.name customers.
Hypothesis vehicles_apart : namedApart Vehicle.registrationNumber vehicles.

Variable r : Csv.RouteRow.t.
Hypothesis r_plain : plainRoute r = true.
Hypothesis r_customer : linked Customer.id customers (Csv.RouteRow.customerId r).
Hypothesis r_vehicle : linked Vehicle.id vehicles (Csv.RouteRow.vehicleId r).

Lemma plainRoute_spec :
  plainText (Csv.RouteRow.name r) = true
  /\ plainText (Csv.RouteRow.monthlyRate r) = true
  /\ plainText (Csv.RouteRow.routeType r) = true
  /\ Csv.RouteRow.routeType r <> EmptyString
  /\ plainOption (Csv.RouteRow.subcontractorName r) = true
  /\ plainOption (Csv.RouteRow.subcontractorCost r) = true
  /\ plainText (Csv.RouteRow.status r) = true
  /\ Csv.RouteRow.status r <> EmptyString
  /\ plainOption (Csv.RouteRow.description r) = true.
Proof.
  pose proof r_plain as H. unfold plainRoute in H.
  rewrite !andb_true_iff, !negb_true_iff in H.
  destruct H as ((((((((H1 & H2) & H3) & H4) & H5) & H6) & H7) & H8) & H9).
  apply String.eqb_neq in H4, H8. repeat split; assumption.
Qed.

Lemma plainOption_text (v : option string) :
  plainOption v = true -> plainText (Csv.orEmpty v) = true.
Proof.
  destruct v as [s|]; cbn [plainOption Csv.orEmpty]; [|reflexivity].
  rewrite andb_true_iff. tauto.
Qed.

(** Every cell of the line of a route is a plain text. *)
Lemma routeCells_plain (h : string) :
  In h Csv.routeHeaders -> plainText (textOf (routeCells customers vehicles r) h) = true.
Proof.
  destruct plainRoute_spec as (H1 & H2 & H3 & _ & H5 & H6 & H7 & _ & H9).
  pose proof (proj1 (link_round_trip Customer.id Customer.name customers _
                       customers_apart r_customer)) as Hc.
  pose proof (proj1 (link_round_trip Vehicle.id Vehicle.registrationNumber vehicles _
                       vehicles_apart r_vehicle)) as Hv.
  cbv zeta in Hc, Hv.
  intro Hh.
  repeat (destruct Hh as [<-|Hh];
          [first [ exact H1 | exact H2 | exact H3 | exact H7 | exact Hc | exact Hv
                 | exact (plainOption_text _ H5) | exact (plainOption_text _ H6)
                 | exact (plainOption_text _ H9) ]|]).
  destruct Hh.
Qed.

(** The line of a route is the line the general export writes for its
    cells. *)
Lemma exportRoutes_line :
  String.concat ","
    [Csv.quoted (Csv.RouteRow.name r);
     Csv.quoted (match find (fun c => refersTo (Csv.RouteRow.customerId r) (Customer.id c))
                         customers with
                 | Some c => Customer.name c
                 | None => EmptyString
                 end);
     Csv.quoted (Csv.RouteRow.monthlyRate r);
     Csv.quoted (Csv.RouteRow.routeType r);
     Csv.quoted (Csv.orEmpty (Csv.RouteRow.subcontractorName r));
     Csv.quoted (Csv.orEmpty (Csv.RouteRow.subcontractorCost r));
     Csv.quoted (match find (fun v => refersTo (Csv.RouteRow.vehicleId r) (Vehicle.id v))
                         vehicles with
                 | Some v => Vehicle.registrationNumber v
                 | None => EmptyString
                 end);
     Csv.quoted (Csv.RouteRow.status r);
     Csv.quoted (Csv.escapeQuotes (Csv.orEmpty (Csv.RouteRow.description r)))]
  = String.concat "," (map (Csv.cell (routeCells customers vehicles r)) Csv.routeHeaders).
Proof.
  assert (Hq : forall h, In h Csv.routeHeaders ->
                 Csv.cell (routeCells customers vehicles r) h
                 = Csv.quoted (textOf (routeCells customers vehicles r) h)).
  { intros h Hh. apply cell_quoted. apply (plainText_spec _ (routeCells_plain h Hh)). }
  unfold Csv.routeHeaders at 1. cbn [map].
  rewrite !Hq by (cbn; repeat (try (left; reflexivity); right)).
  destruct plainRoute_spec as (_ & _ & _ & _ & _ & _ & _ & _ & H9).
  rewrite (escapeQuotes_plain (Csv.orEmpty (Csv.RouteRow.description r)))
    by (apply (plainText_spec _ (plainOption_text _ H9))).
  reflexivity.
Qed.

(** What the import makes of the row object of the line of a route. *)
Lemma newRoute_cells :
  Csv.newRoute customers vehicles
    (Csv.rowObject Csv.routeHeaders
       (map (fun h => withoutQuotes (textOf (routeCells customers vehicles r) h))
          Csv.routeHeaders))
  = routeColumns r.
Proof.
  destruct plainRoute_spec as (H1 & H2 & H3 & H4 & H5 & H6 & H7 & H8 & H9).
  destruct (link_round_trip Customer.id Customer.name customers _
              customers_apart r_customer) as [Hc Hc'].
  destruct (link_round_trip Vehicle.id Vehicle.registrationNumber vehicles _
              vehicles_apart r_vehicle) as [Hv Hv'].
  cbv zeta in Hc, Hc', Hv, Hv'.
  unfold Csv.newRoute, routeColumns. cbv zeta.
  rewrite !(getProp_rowObject
              (fun h => withoutQuotes (textOf (routeCells customers vehicles r) h))).
  rewrite !routeHeaders_key by (cbn; repeat (try (left; reflexivity); right)).
  change (textOf (routeCells customers vehicles r) "name") with (Csv.RouteRow.name r).
  change (textOf (routeCells customers vehicles r) "monthlyRate")
    with (Csv.RouteRow.monthlyRate r).
  change (textOf (routeCells customers vehicles r) "routeType")
    with (Csv.RouteRow.routeType r).
  change (textOf (routeCells customers vehicles r) "status") with (Csv.RouteRow.status r).
  change (textOf (routeCells customers vehicles r) "subcontractorName")
    with (match Csv.RouteRow.subcontractorName r with Some s => s | None => EmptyString end).
  change (textOf (routeCells customers vehicles r) "subcontractorCost")
    with (match Csv.RouteRow.subcontractorCost r with Some s => s | None => EmptyString end).
  change (textOf (routeCells customers vehicles r) "description")
    with (match Csv.RouteRow.description r with Some s => s | None => EmptyString end).
  change (textOf (routeCells customers vehicles r) "customerName")
    with (match find (fun c => refersTo (Csv.RouteRow.customerId r) (Customer.id c))
                  customers with
          | Some c => Customer.name c
          | None => EmptyString
          end).
  change (textOf (routeCells customers vehicles r) "vehicleNumber")
    with (match find (fun v => refersTo (Csv.RouteRow.vehicleId r) (Vehicle.id v))
                  vehicles with
          | Some v => Vehicle.registrationNumber v
          | None => EmptyString
          end).
  rewrite (proj2 (plainOption_spec _ H5)), (proj2 (plainOption_spec _ H6)),
    (proj2 (plainOption_spec _ H9)).
  rewrite !withoutQuotes_id by (apply plainText_spec; assumption).
  rewrite Hc', Hv'.
  destruct (Csv.RouteRow.routeType r) as [|a s]; [contradiction|].
  destruct (Csv.RouteRow.status r) as [|b t]; [contradiction|]. reflexivity.
Qed.

End Routes.

(** X20.  Exporting the routes and importing the file again gives every row
    back, in order, with the columns it had and linked to the same customer
    and the same vehicle, provided that customers can be told apart by their
    names and vehicles by their registration numbers, that every link is null
    or the id of a row that exists, and that no column holds a double quote,
    a line feed or, where it is optional or has a default, the empty text. *)
Theorem routes_round_trip (customers : list Customer.t) (vehicles : list Vehicle.t)
    (data : list Csv.RouteRow.t) :
  namedApart Customer.name customers ->
  namedApart Vehicle.registrationNumber vehicles ->
  (forall r, In r data ->
     plainRoute r = true
     /\ linked Customer.id customers (Csv.RouteRow.customerId r)
     /\ linked Vehicle.id vehicles (Csv.RouteRow.vehicleId r)) ->
  Csv.importRoutes customers vehicles
    (Csv.parseCSV (Csv.exportRoutes customers vehicles data))
  = map routeColumns data.
Proof.
  intros Hc Hv Hdata.
  assert (Hexport : Csv.exportRoutes customers vehicles data
                    = Csv.export Csv.routeHeaders (map (routeCells customers vehicles) data)).
  { unfold Csv.exportRoutes, Csv.export. f_equal. f_equal. rewrite map_map.
    apply map_ext_in. intros r Hr. destruct (Hdata r Hr) as (Hp & Hlc & Hlv).
    cbv zeta. apply exportRoutes_line; assumption. }
  rewrite Hexport, parseCSV_export.
  - unfold Csv.importRoutes. rewrite !map_map. apply map_ext_in. intros r Hr.
    destruct (Hdata r Hr) as (Hp & Hlc & Hlv). apply newRoute_cells; assumption.
  - discriminate.
  - reflexivity.
  - intros row h Hrow Hh. apply in_map_iff in Hrow as (r & <- & Hr).
    destruct (Hdata r Hr) as (Hp & Hlc & Hlv).
    apply (plainText_spec _ (routeCells_plain customers vehicles Hc Hv r Hp Hlc Hlv h Hh)).
Qed.

Lemma routes_round_trip_witness :
  Csv.importRoutes [Sample.acme] [Sample.inactiveBus]
    (Csv.parseCSV
       (Csv.exportRoutes [Sample.acme] [Sample.inactiveBus]
          [Csv.RouteRow.mk 1 "Jurong shuttle" (Some 1) "10000.00" "owned" None None
             (Some 1) "active" None]))
  = [Csv.NewRoute.mk (Some "Jurong shuttle"%string) (Some 1) (Some "10000.00"%string)
       "owned" None None (Some 1) "active" None].
Proof.
  apply (routes_round_trip [Sample.acme] [Sample.inactiveBus]
           [Csv.RouteRow.mk 1 "Jurong shuttle" (Some 1) "10000.00" "owned" None None
              (Some 1) "active" None]).
  - split.
    + repeat constructor. intros [].
    + intros x [<-|[]]. split; [reflexivity | discriminate].
  - split.
    + repeat constructor. intros [].
    + intros x [<-|[]]. split; [reflexivity | discriminate].
  - intros r [<-|[]]. split; [reflexivity|]. split.
    + split; [lia|]. exists Sample.acme. split; [left|]; reflexivity.
    + split; [lia|]. exists Sample.inactiveBus. split; [left|]; reflexivity.
Defined.
